(** * The Mzalendo scraper: a shallow embedding of
    [enhanced_mzalendo_scraper.py] and the properties of its pipeline.

    Conventions of the embedding.
    - Python [str] is [string]; a character is one of the first 256 code
      points, read as Latin-1, and the character classes below ([\w], [\s],
      [\d], [str.lower], [str.isspace]) are Python's on those code points.
    - Python [int] is [Z]; a float is an IEEE-754 binary64 value of
      [SpecFloat] (precision 53, maximal exponent 1024).
    - A raised exception is a value of [result]; a [dict] with a fixed set of
      keys is a record whose optional keys are [option] fields.
    - A fetched page is represented by what the selectors of the scraper find
      in it ([ListingSoup], [DetailSoup]); parsing HTML text and evaluating
      CSS selectors belong to BeautifulSoup and are not modelled.
    - The outcome of a request is a function of the URL and of the number of
      the attempt within one [get_page] call; sleeping is left out.
    - Paths are joined as [posixpath] joins them; a write succeeds or raises
      [OSError] as the file system decides, path by path.
    - Logging has no effect on any value and is left out. *)

From Stdlib Require Import ZArith NArith List String Ascii Bool Lia.
From Stdlib Require Import SpecFloat DecimalString.
From Stdlib Require DecimalZ.
From stdpp Require Import base decidable option list gmap strings.

#[local] Set Warnings "-clear-no-such-hyp".

Local Open Scope string_scope.
Local Open Scope list_scope.
Local Open Scope Z_scope.

(** ** Exceptions *)

Inductive exn : Type :=
| TypeError
| ValueError
| AttributeError
| KeyError
| OverflowError
| ZeroDivisionError
| OSError.

Inductive result (A : Type) : Type :=
| Ok (a : A)
| Raise (e : exn).

Arguments Ok {A} a.
Arguments Raise {A} e.

#[global] Instance result_ret : MRet result := fun A a => Ok a.

#[global] Instance result_bind : MBind result := fun A B k r =>
  match r with
  | Ok a => k a
  | Raise e => Raise e
  end.

(** ** Python strings *)

Module Str.

Definition code (c : ascii) : N := N_of_ascii c.

Definition between (lo hi : N) (c : ascii) : bool :=
  ((lo <=? code c) && (code c <=? hi))%N.

(** [c.isspace()], which is also [\s] of [re] on [str] patterns. *)
Definition isspace (c : ascii) : bool :=
  between 9 13 c || between 28 32 c || (code c =? 133)%N || (code c =? 160)%N.

(** [\d] of [re]: the decimal digits. *)
Definition isdigit (c : ascii) : bool := between 48 57 c.

(** [\w] of [re]: alphanumeric characters and the underscore. *)
Definition isword (c : ascii) : bool :=
  between 48 57 c || between 65 90 c || between 97 122 c || (code c =? 95)%N
  || (code c =? 170)%N || (code c =? 178)%N || (code c =? 179)%N
  || (code c =? 181)%N || (code c =? 185)%N || (code c =? 186)%N
  || between 188 190 c || between 192 214 c || between 216 246 c
  || between 248 255 c.

Definition isupper (c : ascii) : bool :=
  between 65 90 c || between 192 214 c || between 216 222 c.

Definition lower_char (c : ascii) : ascii :=
  if isupper c then ascii_of_N (code c + 32) else c.

(** [s.lower()] *)
Fixpoint lower (s : string) : string :=
  match s with
  | EmptyString => EmptyString
  | String c s' => String (lower_char c) (lower s')
  end.

(** [s.startswith(p)] *)
Fixpoint startswith (p s : string) : bool :=
  match p, s with
  | EmptyString, _ => true
  | String a p', String b s' => Ascii.eqb a b && startswith p' s'
  | String _ _, EmptyString => false
  end.

(** [sub in s] *)
Fixpoint contains (sub s : string) : bool :=
  startswith sub s ||
  match s with
  | EmptyString => false
  | String _ s' => contains sub s'
  end.

Fixpoint rev_acc (s acc : string) : string :=
  match s with
  | EmptyString => acc
  | String c s' => rev_acc s' (String c acc)
  end.

Definition rev (s : string) : string := rev_acc s EmptyString.

(** [s.endswith(p)] *)
Definition endswith (p s : string) : bool := startswith (rev p) (rev s).

Fixpoint lstrip_by (f : ascii -> bool) (s : string) : string :=
  match s with
  | EmptyString => EmptyString
  | String c s' => if f c then lstrip_by f s' else s
  end.

Definition strip_by (f : ascii -> bool) (s : string) : string :=
  rev (lstrip_by f (rev (lstrip_by f s))).

(** [s.strip()] *)
Definition strip (s : string) : string := strip_by isspace s.

(** [s.strip(c)] for a one-character argument *)
Definition strip_char (c : ascii) (s : string) : string :=
  strip_by (Ascii.eqb c) s.

(** [s.split(c)] for a one-character separator: never the empty list. *)
Fixpoint split (sep : ascii) (s : string) : list string :=
  match s with
  | EmptyString => [EmptyString]
  | String c s' =>
      if Ascii.eqb c sep then EmptyString :: split sep s'
      else match split sep s' with
           | [] => [String c EmptyString]
           | w :: ws => String c w :: ws
           end
  end.

(** [s.replace(old, new)] for a non-empty [old]: occurrences are replaced
    from the left and do not overlap. [skip] counts the characters of a
    matched occurrence still to be dropped. *)
Fixpoint replace_from (old new s : string) (skip : nat) : string :=
  match s with
  | EmptyString => EmptyString
  | String c s' =>
      match skip with
      | S k => replace_from old new s' k
      | O =>
          if startswith old s
          then new +:+ replace_from old new s' (String.length old - 1)
          else String c (replace_from old new s' O)
      end
  end.

Definition replace (old new s : string) : string := replace_from old new s O.

(** Keep the characters that satisfy [f]: [re.sub] of the complemented class
    by the empty string. *)
Fixpoint filter (f : ascii -> bool) (s : string) : string :=
  match s with
  | EmptyString => EmptyString
  | String c s' => if f c then String c (filter f s') else filter f s'
  end.

(** The longest prefix of characters that satisfy [f], and the rest. *)
Fixpoint span (f : ascii -> bool) (s : string) : string * string :=
  match s with
  | EmptyString => (EmptyString, EmptyString)
  | String c s' =>
      if f c then let '(run, rest) := span f s' in (String c run, rest)
      else (EmptyString, s)
  end.

(** Truth value of a string: [if s:] *)
Definition truthy (s : string) : bool :=
  match s with EmptyString => false | String _ _ => true end.

End Str.

(** ** Promise classifier *)

Definition categories_keywords : list (string * list string) :=
  [ ("Education",
     ["education"; "school"; "university"; "college"; "student"; "learning"]);
    ("Healthcare",
     ["health"; "hospital"; "medical"; "clinic"; "doctor"; "disease";
      "treatment"]);
    ("Infrastructure",
     ["road"; "bridge"; "building"; "construction"; "infrastructure"]);
    ("Water", ["water"; "irrigation"; "dam"; "borehole"; "pipeline"]);
    ("Agriculture", ["farm"; "agriculture"; "crop"; "livestock"; "cattle"; "dairy"]);
    ("Economy",
     ["economy"; "business"; "enterprise"; "job"; "employment"; "income"]);
    ("Security", ["security"; "police"; "crime"; "safety"]) ].

(** The inner loop: [for keyword in keywords: if keyword in promise_lower]. *)
Fixpoint any_keyword (keywords : list string) (promise_lower : string) : bool :=
  match keywords with
  | [] => false
  | keyword :: rest =>
      if Str.contains keyword promise_lower then true
      else any_keyword rest promise_lower
  end.

(** The outer loop, returning at the first hit. *)
Fixpoint scan_categories (items : list (string * list string))
  (promise_lower : string) : option string :=
  match items with
  | [] => None
  | (category, keywords) :: rest =>
      if any_keyword keywords promise_lower then Some category
      else scan_categories rest promise_lower
  end.

Definition categorize_promise (promise_text : string) : string :=
  let promise_lower := Str.lower promise_text in
  match scan_categories categories_keywords promise_lower with
  | Some category => category
  | None => "Other"
  end.

(** ** Numbers and the regular expressions of the scraper *)

Definition digit_value (c : ascii) : Z := Z.of_N (Str.code c) - 48.

Fixpoint digits_value (s : string) (acc : Z) : Z :=
  match s with
  | EmptyString => acc
  | String c s' => digits_value s' (10 * acc + digit_value c)
  end.

(** [str(n)] and [f"{n}"] for an integer. *)
Definition str_of_int (n : Z) : string := NilZero.string_of_int (Z.to_int n).

(** [re.search(r'\d+', s)]: the leftmost maximal run of digits. *)
Fixpoint search_digits (s : string) : option string :=
  match s with
  | EmptyString => None
  | String c s' =>
      if Str.isdigit c then Some (fst (Str.span Str.isdigit s))
      else search_digits s'
  end.

(** [re.match(r'\d{4}-\d{2}-\d{2}', s)]: [re.match] anchors the pattern at
    the start of [s] only. *)
Definition match_date (s : string) : bool :=
  match s with
  | String y1 (String y2 (String y3 (String y4 (String h1
      (String m1 (String m2 (String h2 (String d1 (String d2 _))))))))) =>
      Str.isdigit y1 && Str.isdigit y2 && Str.isdigit y3 && Str.isdigit y4
      && Ascii.eqb h1 "-" && Str.isdigit m1 && Str.isdigit m2
      && Ascii.eqb h2 "-" && Str.isdigit d1 && Str.isdigit d2
  | _ => false
  end.

(** The class [[\w\s\-]]. *)
Definition name_char (c : ascii) : bool :=
  Str.isword c || Str.isspace c || Ascii.eqb c "-".

Fixpoint drop_chars (n : nat) (s : string) : string :=
  match n, s with
  | O, _ => s
  | S _, EmptyString => EmptyString
  | S k, String _ s' => drop_chars k s'
  end.

Fixpoint take_chars (n : nat) (s : string) : string :=
  match n, s with
  | O, _ => EmptyString
  | S _, EmptyString => EmptyString
  | S k, String c s' => String c (take_chars k s')
  end.

(** Leftmost match of a search: try the pattern at every position. *)
Fixpoint search_at (try_here : string -> option string) (s : string)
  : option string :=
  match try_here s with
  | Some g => Some g
  | None =>
      match s with
      | EmptyString => None
      | String _ s' => search_at try_here s'
      end
  end.

(** Group 1 of [re.search(r'Member of ([\w\s\-]+)', s)]. *)
Definition search_member_of (s : string) : option string :=
  search_at (fun t =>
    if Str.startswith "Member of " t then
      let run := fst (Str.span name_char (drop_chars 10 t)) in
      if Str.truthy run then Some run else None
    else None) s.

(** The longest non-empty prefix of [s] made of characters satisfying [f]
    that is followed by [lit]: a greedy [+] that backtracks. *)
Fixpoint longest_before (lit : string) (f : ascii -> bool) (s : string)
  : option string :=
  match s with
  | EmptyString => None
  | String c s' =>
      if f c then
        match longest_before lit f s' with
        | Some p => Some (String c p)
        | None => if Str.startswith lit s' then Some (String c EmptyString) else None
        end
      else None
  end.

(** Group 1 of [re.search(r'Member for ([\w\s\-]+) Constituency', s)]. *)
Definition search_member_for (s : string) : option string :=
  search_at (fun t =>
    if Str.startswith "Member for " t
    then longest_before " Constituency" name_char (drop_chars 11 t)
    else None) s.

(** [os.path.join] of [posixpath]. *)
Definition path_join2 (path b : string) : string :=
  if Str.startswith "/" b then b
  else if negb (Str.truthy path) || Str.endswith "/" path then path +:+ b
  else path +:+ "/" +:+ b.

Definition path_join (a : string) (p : list string) : string :=
  fold_left path_join2 p a.

(** Last element of a list of strings, as [l[-1]] on a non-empty list. *)
Definition last_part (l : list string) : string := List.last l EmptyString.

(** ** Floats: binary64 arithmetic as Python performs it *)

Module Float.

Definition prec : Z := 53.
Definition emax : Z := 1024.

(** An integer as an exact, not yet rounded, binary value. *)
Definition exact (z : Z) : spec_float :=
  match z with
  | Z0 => S754_zero false
  | Zpos p => S754_finite false p 0
  | Zneg p => S754_finite true p 0
  end.

(** [a / b] on two [int]s: the quotient rounded once to the nearest float,
    [OverflowError] when it is too large for a float. *)
Definition true_divide (a b : Z) : result spec_float :=
  if b =? 0 then Raise ZeroDivisionError
  else if a =? 0 then Ok (S754_zero (b <? 0))
  else match SFdiv prec emax (exact a) (exact b) with
       | S754_infinity _ => Raise OverflowError
       | q => Ok q
       end.

(** [x * n] for a float [x] and an [int] [n] that a float holds exactly. *)
Definition mul_int (x : spec_float) (n : Z) : spec_float :=
  SFmul prec emax x (exact n).

(** [n / d] rounded to the nearest integer, ties to the even one ([d > 0]). *)
Definition round_half_even (n d : Z) : Z :=
  let q := n / d in
  let r := n mod d in
  match 2 * r ?= d with
  | Lt => q
  | Gt => q + 1
  | Eq => if Z.even q then q else q + 1
  end.

(** [round(x, 1)]: the exact value of [x] is rounded to one decimal, ties to
    even, and the float nearest to that decimal is returned; infinities and
    NaN round to themselves. *)
Definition round1 (x : spec_float) : spec_float :=
  match x with
  | S754_finite s m e =>
      let tenths :=
        if 0 <=? e then Zpos m * 2 ^ e * 10
        else round_half_even (Zpos m * 10) (2 ^ (- e)) in
      match tenths with
      | Zpos t => SFdiv prec emax (S754_finite s t 0) (exact 10)
      | _ => S754_zero s
      end
  | _ => x
  end.

(** [float(n)] for an [int] [n]. *)
Definition of_int (n : Z) : spec_float := binary_normalize prec emax n 0 false.

End Float.

(** [int(s)] for a string of decimal digits. Strings of more than 640
    digits are checked against [sys.get_int_max_str_digits()], where [0]
    switches the limit off (Python 3.11; earlier versions have no limit). *)
Definition py_int (int_max_str_digits : nat) (s : string) : result Z :=
  let digits := String.length s in
  if ((640 <? digits) && (0 <? int_max_str_digits)
      && (int_max_str_digits <? digits))%nat
  then Raise ValueError
  else Ok (digits_value s 0).

(** ** Pages, as the selectors of the scraper see them *)

(** An [<a>] element: its text and its [href] attribute, when it has one. *)
Record Anchor := {
  anchor_text : string;
  anchor_href : option string
}.

(** One [.mp_card] of a listing page. *)
Record Card := {
  (* select_one('.shujaa_details a') *)
  shujaa_details_a : option Anchor;
  (* select_one('.shujaa_details p').text *)
  shujaa_details_p : option string;
  (* select_one('.mp_pic img'), its src *)
  mp_pic_img : option (option string)
}.

Record ListingSoup := {
  (* select('.mp_card') *)
  mp_card : list Card;
  (* select('.pagination-container a.number_box'), the href of each *)
  number_box : list (option string)
}.

Record ElectionElem := {
  (* select_one('.date').text *)
  election_date : option string;
  (* select_one('.votes').text *)
  election_votes : option string
}.

Record ContactSection := {
  (* select_one('a[href^="mailto:"]')['href'] *)
  mailto_elem : option string;
  (* select('a[href^="tel:"]'), the href of each *)
  tel_elems : list string;
  (* select_one('.address').text *)
  address_elem : option string;
  (* select_one('a[href*="twitter.com"]')['href'] *)
  twitter_elem : option string;
  (* select_one('a[href*="facebook.com"]')['href'] *)
  facebook_elem : option string
}.

Record EducationEntry := {
  (* select_one('.qualification').text *)
  qualification_elem : option string;
  (* entry.text *)
  education_entry_text : string
}.

Record PositionEntry := {
  (* select_one('.position-title').text *)
  position_title_elem : option string;
  (* entry.text *)
  position_entry_text : string;
  (* select_one('.position-org').text *)
  position_org_elem : option string;
  (* select_one('.position-date').text *)
  position_date_elem : option string;
  (* select_one('.date').text *)
  position_dot_date : option string
}.

Record ExperienceSection := {
  (* select('.education-entry') *)
  education_entry : list EducationEntry;
  (* select('.education') *)
  education_class : list EducationEntry;
  (* select('.position-entry') *)
  position_entry : list PositionEntry;
  (* select('.position') *)
  position_class : list PositionEntry
}.

Record Statement := {
  (* select_one('.statement-date').text *)
  statement_date_elem : option string;
  (* select_one('.date').text *)
  statement_dot_date : option string;
  (* select_one('.statement-text').text *)
  statement_text_elem : option string;
  (* select_one('.text').text *)
  statement_dot_text : option string
}.

Record AttendanceEntry := {
  (* select_one('th') is not None *)
  th_elem : bool;
  (* select_one('.period').text *)
  period_elem : option string;
  (* select_one('td:nth-child(1)').text *)
  td_1 : option string;
  (* select_one('.present').text *)
  present_elem : option string;
  (* select_one('td:nth-child(2)').text *)
  td_2 : option string;
  (* select_one('.absent').text *)
  absent_elem : option string;
  (* select_one('td:nth-child(3)').text *)
  td_3 : option string
}.

Record AttendanceSection := {
  (* select('.attendance-record') *)
  attendance_record : list AttendanceEntry;
  (* select('table tr') *)
  table_tr : list AttendanceEntry
}.

Record CommitteesSection := {
  (* select('.committee'), the text of each *)
  committee_class : list string;
  (* select('li'), the text of each *)
  li_elems : list string
}.

Record DetailSoup := {
  (* select_one('.person-party-membership').text *)
  person_party_membership : option string;
  (* select_one('.location a').text *)
  location_a : option string;
  (* select_one('.election-results') *)
  election_results : option ElectionElem;
  (* select_one('#contact') *)
  contact_id : option ContactSection;
  (* select_one('.contact-details') *)
  contact_details : option ContactSection;
  (* select_one('#experience') *)
  experience_id : option ExperienceSection;
  (* select('.person-detail-experience') *)
  person_detail_experience : list ExperienceSection;
  (* select('#statements .statement') *)
  statements_statement : list Statement;
  (* select('.statement') *)
  statement_class : list Statement;
  (* select_one('#attendance') *)
  attendance_id : option AttendanceSection;
  (* select_one('.attendance') *)
  attendance_class : option AttendanceSection;
  (* select_one('#committees') *)
  committees_id : option CommitteesSection;
  (* select_one('.committees') *)
  committees_class : option CommitteesSection
}.

(** The text of a response: whether it is the empty string, and what each
    of the two parsers the scraper uses makes of it. *)
Record Html := {
  is_empty : bool;
  (* BeautifulSoup(html, 'lxml') *)
  lxml : ListingSoup;
  (* BeautifulSoup(html, 'html.parser') *)
  html_parser : DetailSoup
}.

(** [x or y] on two results of [select_one]: a [Tag] is always true. *)
Definition or_else {A : Type} (x y : option A) : option A :=
  match x with Some _ => x | None => y end.

(** [x or y] on two results of [select]: an empty [ResultSet] is false. *)
Definition or_list {A : Type} (x y : list A) : list A :=
  match x with [] => y | _ :: _ => x end.

(** ** Records *)

(** The [dict] that [parse_politician_list_page] builds for a card. *)
Record Candidate := {
  name : string;
  position : string;
  constituency : option string;
  county : option string;
  profile_url : string;
  image_url : option string;
  category : string
}.

Record Election := {
  electedDate : option string;
  totalVotes : option Z
}.

Record SocialMedia := {
  twitter : option string;
  facebook : option string
}.

Record Contact := {
  email : option string;
  phone : option (list string);
  office : option string;
  socialMedia : option SocialMedia
}.

Record Position := {
  title : string;
  organization : option string;
  date : option string
}.

Record Promise := {
  promise_id : string;                   (* key 'id' *)
  description : string;
  promise_category : string;             (* key 'category' *)
  madeDate : option string;
  dueDate : option string;
  status : string
}.

Record AttendanceRecord := {
  period : string;
  present : option Z;
  absent : option Z;
  total : option Z
}.

(** The [dict] of a leader: the keys of the candidate, and the keys that
    [parse_politician_detail_page] and the scrape add, each absent ([None])
    until it is set. *)
Record Politician := {
  info : Candidate;
  politician_id : option string;         (* key 'id' *)
  party : option string;
  election : option Election;
  contact : option Contact;
  education : option (list string);
  positions : option (list Position);
  promises : option (list Promise);
  attendance : option (list AttendanceRecord);
  committees : option (list string);
  approvalRating : option spec_float;
  keyAchievements : option (list string);
  subcategory : option string
}.

(** [basic_info] itself, and [basic_info.copy()]: no other key yet. *)
Definition of_candidate (basic_info : Candidate) : Politician :=
  {| info := basic_info; politician_id := None; party := None;
     election := None; contact := None; education := None;
     positions := None; promises := None; attendance := None;
     committees := None; approvalRating := None; keyAchievements := None;
     subcategory := None |}.

(** Assignments [politician_data[key] = v]. *)
Definition set_id (v : string) (d : Politician) : Politician :=
  {| info := info d; politician_id := Some v; party := party d;
     election := election d; contact := contact d; education := education d;
     positions := positions d; promises := promises d;
     attendance := attendance d; committees := committees d;
     approvalRating := approvalRating d;
     keyAchievements := keyAchievements d; subcategory := subcategory d |}.

Definition set_party (v : string) (d : Politician) : Politician :=
  {| info := info d; politician_id := politician_id d; party := Some v;
     election := election d; contact := contact d; education := education d;
     positions := positions d; promises := promises d;
     attendance := attendance d; committees := committees d;
     approvalRating := approvalRating d;
     keyAchievements := keyAchievements d; subcategory := subcategory d |}.

Definition set_county (v : string) (d : Politician) : Politician :=
  {|
     info := {| name := name (info d); position := position (info d);
             constituency := constituency (info d); county := Some v;
             profile_url := profile_url (info d);
             image_url := image_url (info d);
             category := category (info d) |};
     politician_id := politician_id d; party := party d;
     election := election d; contact := contact d; education := education d;
     positions := positions d; promises := promises d;
     attendance := attendance d; committees := committees d;
     approvalRating := approvalRating d;
     keyAchievements := keyAchievements d; subcategory := subcategory d |}.

Definition set_election (v : Election) (d : Politician) : Politician :=
  {| info := info d; politician_id := politician_id d; party := party d;
     election := Some v; contact := contact d; education := education d;
     positions := positions d; promises := promises d;
     attendance := attendance d; committees := committees d;
     approvalRating := approvalRating d;
     keyAchievements := keyAchievements d; subcategory := subcategory d |}.

Definition set_contact (v : Contact) (d : Politician) : Politician :=
  {| info := info d; politician_id := politician_id d; party := party d;
     election := election d; contact := Some v; education := education d;
     positions := positions d; promises := promises d;
     attendance := attendance d; committees := committees d;
     approvalRating := approvalRating d;
     keyAchievements := keyAchievements d; subcategory := subcategory d |}.

Definition set_education (v : list string) (d : Politician) : Politician :=
  {| info := info d; politician_id := politician_id d; party := party d;
     election := election d; contact := contact d; education := Some v;
     positions := positions d; promises := promises d;
     attendance := attendance d; committees := committees d;
     approvalRating := approvalRating d;
     keyAchievements := keyAchievements d; subcategory := subcategory d |}.

Definition set_positions (v : list Position) (d : Politician) : Politician :=
  {| info := info d; politician_id := politician_id d; party := party d;
     election := election d; contact := contact d; education := education d;
     positions := Some v; promises := promises d; attendance := attendance d;
     committees := committees d; approvalRating := approvalRating d;
     keyAchievements := keyAchievements d; subcategory := subcategory d |}.

Definition set_promises (v : list Promise) (d : Politician) : Politician :=
  {| info := info d; politician_id := politician_id d; party := party d;
     election := election d; contact := contact d; education := education d;
     positions := positions d; promises := Some v;
     attendance := attendance d; committees := committees d;
     approvalRating := approvalRating d;
     keyAchievements := keyAchievements d; subcategory := subcategory d |}.

Definition set_attendance (v : list AttendanceRecord) (d : Politician)
  : Politician :=
  {| info := info d; politician_id := politician_id d; party := party d;
     election := election d; contact := contact d; education := education d;
     positions := positions d; promises := promises d; attendance := Some v;
     committees := committees d; approvalRating := approvalRating d;
     keyAchievements := keyAchievements d; subcategory := subcategory d |}.

Definition set_committees (v : list string) (d : Politician) : Politician :=
  {| info := info d; politician_id := politician_id d; party := party d;
     election := election d; contact := contact d; education := education d;
     positions := positions d; promises := promises d;
     attendance := attendance d; committees := Some v;
     approvalRating := approvalRating d;
     keyAchievements := keyAchievements d; subcategory := subcategory d |}.

Definition set_approvalRating (v : spec_float) (d : Politician) : Politician :=
  {| info := info d; politician_id := politician_id d; party := party d;
     election := election d; contact := contact d; education := education d;
     positions := positions d; promises := promises d;
     attendance := attendance d; committees := committees d;
     approvalRating := Some v; keyAchievements := keyAchievements d;
     subcategory := subcategory d |}.

Definition set_keyAchievements (v : list string) (d : Politician) : Politician :=
  {| info := info d; politician_id := politician_id d; party := party d;
     election := election d; contact := contact d; education := education d;
     positions := positions d; promises := promises d;
     attendance := attendance d; committees := committees d;
     approvalRating := approvalRating d; keyAchievements := Some v;
     subcategory := subcategory d |}.

Definition set_subcategory (v : string) (d : Politician) : Politician :=
  {| info := info d; politician_id := politician_id d; party := party d;
     election := election d; contact := contact d; education := education d;
     positions := positions d; promises := promises d;
     attendance := attendance d; committees := committees d;
     approvalRating := approvalRating d;
     keyAchievements := keyAchievements d; subcategory := Some v |}.

(** The files written so far: path to the record dumped there. *)
Abbreviation Files := (gmap string Politician).

(** ** The scraper *)

(** [self.base_url], a constant of [__init__]. *)
Definition base_url : string := "https://mzalendo.com".

(** Sum of a list of integers, as [sum(...)] adds them. *)
Definition Z_sum (l : list Z) : Z := fold_left Z.add l 0.

Section Scraper.

(** The attributes [__init__] takes from its arguments. *)
Variable output_dir : string.
Variable max_workers : Z.

(** What the scraper runs on: [urllib.parse.urljoin], which raises
    [ValueError] on some malformed references; the outcome of the
    [attempt]-th request of a [get_page] call for a URL, a response text or
    a [RequestException] ([None]); whether [open(filename, 'w')] succeeds;
    the interpreter's limit on integer strings; and the order in which the
    thread pool completes [n] submitted tasks. *)
Variable urljoin : string -> string -> result string.
Variable session_get : string -> nat -> option Html.
Variable writable : string -> bool.
Variable int_max_str_digits : nat.
Variable schedule : nat -> list nat.

(** *** Fetcher *)

Fixpoint get_page_loop (url : string) (retry_count : nat) (attempts : list nat)
  : option Html :=
  match attempts with
  | [] => None
  | attempt :: rest =>
      match session_get url attempt with
      | Some text => Some text
      | None =>
          if (attempt =? retry_count - 1)%nat then None
          else get_page_loop url retry_count rest
      end
  end.

Definition get_page (url : string) : option Html :=
  let retry_count := 3%nat in
  get_page_loop url retry_count (seq 0 retry_count).

(** *** List extractor *)

(** The body of the loop over the cards: [Ok None] is [continue]. *)
Definition parse_card (category : string) (item : Card)
  : result (option Candidate) :=
  match shujaa_details_a item with
  | None => Ok None
  | Some name_elem =>
      let name := Str.strip (anchor_text name_elem) in
      href ← match anchor_href name_elem with
             | Some href => Ok href
             | None => Raise KeyError
             end;
      profile_url ← urljoin base_url href;
      let position :=
        match shujaa_details_p item with
        | Some text => Str.strip text
        | None => "Unknown"
        end in
      let constituency :=
        if Str.contains "Member for" position then
          match search_member_for position with
          | Some group1 => Some (Str.strip group1)
          | None => None
          end
        else None in
      image_url ← match mp_pic_img item with
                  | Some (Some src) =>
                      image_url ← urljoin base_url src;
                      if Str.endswith "default-person.jpg" image_url
                      then Ok None else Ok (Some image_url)
                  | _ => Ok None
                  end;
      Ok (Some {| name := name; position := position;
                  constituency := constituency; county := None;
                  profile_url := profile_url; image_url := image_url;
                  category := category |})
  end.

Fixpoint parse_cards (category : string) (politician_items : list Card)
  : list Candidate :=
  match politician_items with
  | [] => []
  | item :: rest =>
      match parse_card category item with
      | Ok (Some politician) => politician :: parse_cards category rest
      | Ok None => parse_cards category rest
      | Raise _ => parse_cards category rest
      end
  end.

Definition parse_politician_list_page (html : option Html) (category : string)
  : list Candidate :=
  match html with
  | None => []
  | Some text =>
      if is_empty text then []
      else parse_cards category (mp_card (lxml text))
  end.

(** The loop over the numbered links of the pagination container. *)
Fixpoint collect_page_urls (pagination_links : list (option string))
  : result (list string) :=
  match pagination_links with
  | [] => Ok []
  | link :: rest =>
      match link with
      | Some href =>
          page_url ← urljoin base_url href;
          page_urls ← collect_page_urls rest;
          Ok (page_url :: page_urls)
      | None => collect_page_urls rest
      end
  end.

(** [[x for x in page_urls if not (x in seen or seen.add(x))]] *)
Fixpoint unique_in_order (seen : gset string) (page_urls : list string)
  : list string :=
  match page_urls with
  | [] => []
  | x :: rest =>
      if decide (x ∈ seen) then unique_in_order seen rest
      else x :: unique_in_order ({[x]} ∪ seen) rest
  end.

(** The value returned is [None] when the function falls off its end: the
    [return] stands inside the [if]. *)
Definition get_pagination_links (html : Html) : result (option (list string)) :=
  page_urls ← collect_page_urls (number_box (lxml html));
  if negb (existsb (Str.contains "page=1") page_urls) then
    first_page ← urljoin base_url "/parliament/national_assembly/";
    let page_urls := first_page :: page_urls in
    Ok (Some (unique_in_order ∅ page_urls))
  else Ok None.

(** *** Detail extractor *)

Definition party_affiliation (soup : DetailSoup) (politician_data : Politician)
  : result Politician :=
  match person_party_membership soup with
  | Some party_elem =>
      let party_text := Str.strip party_elem in
      match search_member_of party_text with
      | Some group1 => Ok (set_party (Str.strip group1) politician_data)
      | None => Ok politician_data
      end
  | None => Ok politician_data
  end.

Definition county_information (soup : DetailSoup) (politician_data : Politician)
  : result Politician :=
  match location_a soup with
  | Some county_elem =>
      let county_text := Str.strip county_elem in
      if Str.contains "County" county_text
      then Ok (set_county (Str.strip (Str.replace "County" EmptyString county_text))
                 politician_data)
      else Ok politician_data
  | None => Ok politician_data
  end.

Definition election_data (soup : DetailSoup) (politician_data : Politician)
  : result Politician :=
  match election_results soup with
  | Some election_elem =>
      let electedDate := Str.strip <$> election_date election_elem in
      totalVotes ← match election_votes election_elem with
                   | Some votes_elem =>
                       let votes_text := Str.strip votes_elem in
                       match search_digits votes_text with
                       | Some group1 =>
                           votes ← py_int int_max_str_digits group1;
                           Ok (Some votes)
                       | None => Ok None
                       end
                   | None => Ok None
                   end;
      match electedDate, totalVotes with
      | None, None => Ok politician_data
      | _, _ =>
          Ok (set_election {| electedDate := electedDate;
                              totalVotes := totalVotes |} politician_data)
      end
  | None => Ok politician_data
  end.

Definition contact_information (soup : DetailSoup) (politician_data : Politician)
  : result Politician :=
  match or_else (contact_id soup) (contact_details soup) with
  | Some contact_section =>
      let email :=
        (fun href => Str.strip (Str.replace "mailto:" EmptyString href))
          <$> mailto_elem contact_section in
      let phone :=
        match tel_elems contact_section with
        | [] => None
        | phone_elems =>
            Some (map (fun href => Str.strip (Str.replace "tel:" EmptyString href))
                    phone_elems)
        end in
      let office := Str.strip <$> address_elem contact_section in
      let social_media :=
        {| twitter := Str.strip <$> twitter_elem contact_section;
           facebook := Str.strip <$> facebook_elem contact_section |} in
      let socialMedia :=
        match twitter social_media, facebook social_media with
        | None, None => None
        | _, _ => Some social_media
        end in
      match email, phone, office, socialMedia with
      | None, None, None, None => Ok politician_data
      | _, _, _, _ =>
          Ok (set_contact {| email := email; phone := phone; office := office;
                             socialMedia := socialMedia |} politician_data)
      end
  | None => Ok politician_data
  end.

Fixpoint education_loop (education_entries : list EducationEntry) : list string :=
  match education_entries with
  | [] => []
  | entry :: rest =>
      let qualification :=
        match qualification_elem entry with
        | Some text => text
        | None => education_entry_text entry
        end in
      let education_text := Str.strip qualification in
      if Str.truthy education_text && (5 <? String.length education_text)%nat
      then education_text :: education_loop rest
      else education_loop rest
  end.

Fixpoint positions_loop (position_entries : list PositionEntry) : list Position :=
  match position_entries with
  | [] => []
  | entry :: rest =>
      let title_elem :=
        match position_title_elem entry with
        | Some text => text
        | None => position_entry_text entry
        end in
      let org_elem := position_org_elem entry in
      let date_elem :=
        or_else (position_date_elem entry) (position_dot_date entry) in
      let title_text := Str.strip title_elem in
      if negb (Str.truthy title_text) then positions_loop rest
      else
        let date :=
          match date_elem with
          | Some text =>
              let date_text := Str.strip text in
              if Str.truthy date_text then Some date_text else None
          | None => None
          end in
        {| title := title_text; organization := Str.strip <$> org_elem;
           date := date |} :: positions_loop rest
  end.

(** [soup.select_one('#experience') or soup.select('.person-detail-experience')]:
    when the first is missing and the second, a [ResultSet], is not empty,
    the call of [.select] on it raises [AttributeError]. *)
Definition experience_and_education (soup : DetailSoup)
  (politician_data : Politician) : result Politician :=
  match experience_id soup with
  | Some experience_section =>
      let education_entries :=
        or_list (education_entry experience_section)
                (education_class experience_section) in
      let education := education_loop education_entries in
      let politician_data :=
        match education with
        | [] => politician_data
        | _ :: _ => set_education education politician_data
        end in
      let position_entries :=
        or_list (position_entry experience_section)
                (position_class experience_section) in
      let positions := positions_loop position_entries in
      match positions with
      | [] => Ok politician_data
      | _ :: _ => Ok (set_positions positions politician_data)
      end
  | None =>
      match person_detail_experience soup with
      | [] => Ok politician_data
      | _ :: _ => Raise AttributeError
      end
  end.

(** The due date of a promise made on [date_text]: the year plus three.
    Unpacking [date_text.split('-')] into three names raises [ValueError]
    unless there are exactly three parts. *)
Definition due_date (date_text : string) : result (option string) :=
  if match_date date_text then
    match Str.split "-" date_text with
    | [year; month; day] =>
        year_value ← py_int int_max_str_digits year;
        let due_year := year_value + 3 in
        Ok (Some (str_of_int due_year +:+ "-" +:+ month +:+ "-" +:+ day))
    | _ => Raise ValueError
    end
  else Ok None.

(** The body of the loop over the statements; [len_promises] is
    [len(promises)], and [Ok None] appends nothing. *)
Definition promise_of_statement (len_promises : nat) (statement : Statement)
  : result (option Promise) :=
  let statement_date :=
    or_else (statement_date_elem statement) (statement_dot_date statement) in
  let statement_text :=
    or_else (statement_text_elem statement) (statement_dot_text statement) in
  match statement_text with
  | Some text =>
      let promise_text := Str.strip text in
      if Str.truthy promise_text then
        dates ← match statement_date with
                | Some text =>
                    let date_text := Str.strip text in
                    if Str.truthy date_text then
                      due ← due_date date_text;
                      Ok (Some date_text, due)
                    else Ok (None, None)
                | None => Ok (None, None)
                end;
        Ok (Some {| promise_id := "pr" +:+ str_of_int (Z.of_nat len_promises + 1);
                    description := promise_text;
                    promise_category := categorize_promise promise_text;
                    madeDate := fst dates;
                    dueDate := snd dates;
                    status := "in-progress" |})
      else Ok None
  | None => Ok None
  end.

Fixpoint promises_loop (statements_section : list Statement)
  (promises : list Promise) : result (list Promise) :=
  match statements_section with
  | [] => Ok promises
  | statement :: rest =>
      promise ← promise_of_statement (length promises) statement;
      match promise with
      | Some promise => promises_loop rest (promises ++ [promise])
      | None => promises_loop rest promises
      end
  end.

Definition promises_and_statements (soup : DetailSoup)
  (politician_data : Politician) : result Politician :=
  let statements_section :=
    or_list (statements_statement soup) (statement_class soup) in
  promises ← promises_loop statements_section [];
  match promises with
  | [] => Ok politician_data
  | _ :: _ => Ok (set_promises promises politician_data)
  end.

(** A count read from a cell: [int(re.search(r'\d+', text).group())] when
    the stripped text has a digit. *)
Definition count_of (elem : option string) : result (option Z) :=
  match elem with
  | Some text =>
      let stripped := Str.strip text in
      if Str.truthy stripped then
        match search_digits stripped with
        | Some digits =>
            n ← py_int int_max_str_digits digits;
            Ok (Some n)
        | None => Ok None
        end
      else Ok None
  | None => Ok None
  end.

(** The body of the loop over the attendance rows. *)
Definition attendance_of_entry (entry : AttendanceEntry)
  : result (option AttendanceRecord) :=
  if th_elem entry then Ok None
  else
    let period_elem := or_else (period_elem entry) (td_1 entry) in
    let present_elem := or_else (present_elem entry) (td_2 entry) in
    let absent_elem := or_else (absent_elem entry) (td_3 entry) in
    match period_elem with
    | Some text =>
        let period_text := Str.strip text in
        if Str.truthy period_text then
          present ← count_of present_elem;
          absent ← count_of absent_elem;
          let total :=
            match present, absent with
            | Some p, Some a => Some (p + a)
            | _, _ => None
            end in
          Ok (Some {| period := period_text; present := present;
                      absent := absent; total := total |})
        else Ok None
    | None => Ok None
    end.

Fixpoint attendance_loop (attendance_entries : list AttendanceEntry)
  : result (list AttendanceRecord) :=
  match attendance_entries with
  | [] => Ok []
  | entry :: rest =>
      attendance_record ← attendance_of_entry entry;
      attendance ← attendance_loop rest;
      match attendance_record with
      | Some r => Ok (r :: attendance)
      | None => Ok attendance
      end
  end.

Definition attendance_records (soup : DetailSoup) (politician_data : Politician)
  : result Politician :=
  match or_else (attendance_id soup) (attendance_class soup) with
  | Some attendance_section =>
      let attendance_entries :=
        or_list (attendance_record attendance_section)
                (table_tr attendance_section) in
      attendance ← attendance_loop attendance_entries;
      match attendance with
      | [] => Ok politician_data
      | _ :: _ => Ok (set_attendance attendance politician_data)
      end
  | None => Ok politician_data
  end.

Fixpoint committees_loop (committee_entries : list string) : list string :=
  match committee_entries with
  | [] => []
  | entry :: rest =>
      let committee_text := Str.strip entry in
      if Str.truthy committee_text then committee_text :: committees_loop rest
      else committees_loop rest
  end.

Definition committees_membership (soup : DetailSoup)
  (politician_data : Politician) : result Politician :=
  match or_else (committees_id soup) (committees_class soup) with
  | Some committees_section =>
      let committee_entries :=
        or_list (committee_class committees_section)
                (li_elems committees_section) in
      match committees_loop committee_entries with
      | [] => Ok politician_data
      | (_ :: _) as committees => Ok (set_committees committees politician_data)
      end
  | None => Ok politician_data
  end.

(** [sum(record.get('present', 0) ...)] and [sum(record.get('total', 0) ...)] *)
Definition total_present (records : list AttendanceRecord) : Z :=
  Z_sum (map (fun record => default 0 (present record)) records).

Definition total_sessions (records : list AttendanceRecord) : Z :=
  Z_sum (map (fun record => default 0 (total record)) records).

(** [round((total_present / total_sessions) * 5, 1)] *)
Definition approval_rating (records : list AttendanceRecord) : result spec_float :=
  ratio ← Float.true_divide (total_present records) (total_sessions records);
  Ok (Float.round1 (Float.mul_int ratio 5)).

Definition calculate_approval_rating (politician_data : Politician)
  : result Politician :=
  match attendance politician_data with
  | Some ((_ :: _) as records) =>
      if 0 <? total_sessions records then
        rating ← approval_rating records;
        Ok (set_approvalRating rating politician_data)
      else Ok politician_data
  | _ => Ok politician_data
  end.

Definition key_achievements (politician_data : Politician) : result Politician :=
  match promises politician_data with
  | Some ((_ :: _) as promises) =>
      match map description (take 5 promises) with
      | [] => Ok politician_data
      | (_ :: _) as achievements =>
          Ok (set_keyAchievements achievements politician_data)
      end
  | _ => Ok politician_data
  end.

(** The statements of the [try] block, in order. *)
Definition detail_sections (soup : DetailSoup)
  : list (Politician -> result Politician) :=
  [ party_affiliation soup;
    county_information soup;
    election_data soup;
    contact_information soup;
    experience_and_education soup;
    promises_and_statements soup;
    attendance_records soup;
    committees_membership soup;
    calculate_approval_rating;
    key_achievements ].

(** [try: ... except Exception: log]: the first statement that raises ends
    the block, and what was assigned before stays assigned. *)
Fixpoint try_sections (sections : list (Politician -> result Politician))
  (politician_data : Politician) : Politician :=
  match sections with
  | [] => politician_data
  | section :: rest =>
      match section politician_data with
      | Ok politician_data' => try_sections rest politician_data'
      | Raise _ => politician_data
      end
  end.

Definition parse_politician_detail_page (html : option Html)
  (basic_info : Candidate) : Politician :=
  match html with
  | None => of_candidate basic_info
  | Some text =>
      if is_empty text then of_candidate basic_info
      else
        let soup := html_parser text in
        let politician_data := of_candidate basic_info in
        let politician_id :=
          last_part (Str.split "/" (Str.strip_char "/" (profile_url basic_info))) in
        let politician_data := set_id politician_id politician_data in
        try_sections (detail_sections soup) politician_data
  end.

(** *** Persistence *)

(** The path [save_politician_data] writes a record to. *)
Definition politician_filename (politician_data : Politician)
  (category : string) : string :=
  let politician_id :=
    match politician_id politician_data with
    | None => Str.replace " " "-" (Str.lower (name (info politician_data)))
    | Some id => id
    end in
  let safe_id :=
    Str.filter (fun c => Str.isword c || Ascii.eqb c "-") politician_id in
  path_join output_dir [category; safe_id +:+ ".json"].

Definition save_politician_data (politician_data : Politician)
  (category : string) (files : Files) : result Files :=
  let filename := politician_filename politician_data category in
  if writable filename then Ok (<[filename := politician_data]> files)
  else Raise OSError.

(** *** Orchestrator *)

(** The loop over the pagination URLs. *)
Fixpoint process_additional_pages (category : string)
  (pagination_urls : list string) (politicians : list Candidate)
  : list Candidate :=
  match pagination_urls with
  | [] => politicians
  | page_url :: rest =>
      let page_html := get_page page_url in
      process_additional_pages category rest
        (politicians ++ parse_politician_list_page page_html category)
  end.

(** [if subcategory: detailed_data['subcategory'] = subcategory] *)
Definition tag_subcategory (subcategory : option string)
  (detailed_data : Politician) : Politician :=
  match subcategory with
  | Some s => if Str.truthy s then set_subcategory s detailed_data else detailed_data
  | None => detailed_data
  end.

(** The loop of [scrape_leaders] over the candidates: an exception in the
    body is caught and the loop continues. *)
Fixpoint details_loop (category : string) (subcategory : option string)
  (politicians : list Candidate) (detailed_politicians : list Politician)
  (files : Files) : Files * list Politician :=
  match politicians with
  | [] => (files, detailed_politicians)
  | politician :: rest =>
      let detail_html := get_page (profile_url politician) in
      let detailed_data := parse_politician_detail_page detail_html politician in
      let detailed_data := tag_subcategory subcategory detailed_data in
      match save_politician_data detailed_data category files with
      | Ok files' =>
          details_loop category subcategory rest
            (detailed_politicians ++ [detailed_data]) files'
      | Raise _ =>
          details_loop category subcategory rest detailed_politicians files
      end
  end.

(** The candidates of a category: the seed page, then every pagination
    URL. Iterating over the [None] that [get_pagination_links] may return
    raises [TypeError]. *)
Definition gather_politicians (html : Html) (category : string)
  : result (list Candidate) :=
  let politicians := parse_politician_list_page (Some html) category in
  pagination_urls ← get_pagination_links html;
  match pagination_urls with
  | None => Raise TypeError
  | Some pagination_urls =>
      Ok (process_additional_pages category pagination_urls politicians)
  end.

Definition scrape_leaders (url category : string) (subcategory : option string)
  (files : Files) : Files * result (list Politician) :=
  let html := get_page url in
  match html with
  | None => (files, Ok [])
  | Some text =>
      if is_empty text then (files, Ok [])
      else
        match gather_politicians text category with
        | Raise e => (files, Raise e)
        | Ok politicians =>
            let '(files', detailed_politicians) :=
              details_loop category subcategory politicians [] files in
            (files', Ok detailed_politicians)
        end
  end.

(** The nested function of [scrape_leaders_threaded]: [None] on an
    exception. *)
Definition process_politician (category : string) (subcategory : option string)
  (politician : Candidate) (files : Files) : Files * option Politician :=
  let detail_html := get_page (profile_url politician) in
  let detailed_data := parse_politician_detail_page detail_html politician in
  let detailed_data := tag_subcategory subcategory detailed_data in
  match save_politician_data detailed_data category files with
  | Ok files' => (files', Some detailed_data)
  | Raise _ => (files, None)
  end.

(** The pool runs the tasks in the order [order], each on the files the
    tasks before it left, and records what each returned under its index. *)
Fixpoint run_tasks {A B : Type} (f : A -> Files -> Files * B) (tasks : list A)
  (order : list nat) (files : Files) (returned : gmap nat B)
  : Files * gmap nat B :=
  match order with
  | [] => (files, returned)
  | i :: rest =>
      match tasks !! i with
      | Some task =>
          let '(files', b) := f task files in
          run_tasks f tasks rest files' (<[i := b]> returned)
      | None => run_tasks f tasks rest files returned
      end
  end.

(** [list(executor.map(f, tasks))]: the results in the order of the tasks,
    whatever the order of completion. *)
Definition executor_map {A B : Type} (f : A -> Files -> Files * B)
  (tasks : list A) (files : Files) : Files * list B :=
  let '(files', returned) :=
    run_tasks f tasks (schedule (length tasks)) files ∅ in
  (files', omap (fun i => returned !! i) (seq 0 (length tasks))).

(** [ThreadPoolExecutor(max_workers=...)] raises [ValueError] unless the
    number of workers is positive. *)
Definition scrape_leaders_threaded (url category : string)
  (subcategory : option string) (files : Files)
  : Files * result (list Politician) :=
  let html := get_page url in
  match html with
  | None => (files, Ok [])
  | Some text =>
      if is_empty text then (files, Ok [])
      else
        match gather_politicians text category with
        | Raise e => (files, Raise e)
        | Ok politicians =>
            if max_workers <=? 0 then (files, Raise ValueError)
            else
              let '(files', results) :=
                executor_map (process_politician category subcategory)
                  politicians files in
              let detailed_politicians := omap (fun p => p) results in
              (files', Ok detailed_politicians)
        end
  end.

End Scraper.

(** ** Definitions used in the statements *)

(** The statements of a block run without the [try]: the first exception
    is the outcome. *)
Fixpoint run_sections (sections : list (Politician -> result Politician))
  (politician_data : Politician) : result Politician :=
  match sections with
  | [] => Ok politician_data
  | section :: rest =>
      politician_data' ← section politician_data;
      run_sections rest politician_data'
  end.

(** The record the detail extractor starts from on a page that is not
    empty: the candidate with its id. *)
Definition with_id (basic_info : Candidate) : Politician :=
  set_id (last_part (Str.split "/" (Str.strip_char "/" (profile_url basic_info))))
    (of_candidate basic_info).

(** The whole string has the form YYYY-MM-DD. *)
Definition iso_date (s : string) : bool :=
  match_date s && (String.length s =? 10)%nat.

(** The year of [made] plus three, then the rest of [made] as it is. *)
Definition three_years_later (made : string) : string :=
  str_of_int (digits_value (take_chars 4 made) 0 + 3) +:+ drop_chars 4 made.

(** The due date of a promise is the one its made date determines. *)
Definition promise_dates_ok (promise : Promise) : Prop :=
  dueDate promise
  = match madeDate promise with
    | Some made => if match_date made then Some (three_years_later made) else None
    | None => None
    end.

(** [keyword in text], as a statement about the two strings. *)
Definition occurs_in (keyword text : string) : Prop :=
  exists pre post, text = pre +:+ keyword +:+ post.

(** Some keyword of the list occurs in the lower-cased text. *)
Definition category_matches (keywords : list string) (text : string) : Prop :=
  exists keyword, keyword ∈ keywords /\ occurs_in keyword (Str.lower text).

(** No attendance and no rating yet. *)
Definition no_attendance_yet (d : Politician) : Prop :=
  attendance d = None /\ approvalRating d = None.

(** What the rating of a record is, given its attendance list. *)
Definition rating_as_attended (d : Politician) : Prop :=
  match attendance d with
  | Some records =>
      records <> []
      /\ forall x,
           approvalRating d = Some x <->
           0 < total_sessions records
           /\ exists ratio,
                Float.true_divide (total_present records) (total_sessions records)
                = Ok ratio
                /\ x = Float.round1 (Float.mul_int ratio 5)
  | None => approvalRating d = None
  end.

Section Records.

Context (output_dir : string).
Context (session_get : string -> nat -> option Html).
Context (writable : string -> bool).
Context (int_max_str_digits : nat).

(** The record of a candidate after the detail stage. *)
Definition detailed_record (subcategory : option string) (politician : Candidate)
  : Politician :=
  tag_subcategory subcategory
    (parse_politician_detail_page int_max_str_digits
       (get_page session_get (profile_url politician)) politician).

(** Whether the file of a record can be written. *)
Definition can_save (category : string) (d : Politician) : bool :=
  writable (politician_filename output_dir d category).

(** The files after the record [d] was saved, or could not be. *)
Definition write_record (category : string) (files : Files) (d : Politician)
  : Files :=
  if can_save category d
  then <[politician_filename output_dir d category := d]> files
  else files.

End Records.

(** ** Sample pages and a sample world

    Concrete inputs on which the statements below are evaluated. *)

(** [urljoin] on the references the sample pages use, where it agrees with
    [urllib]: an absolute URL is the result; a reference that starts with
    a slash or a question mark is appended to a base without path. *)
Definition sample_urljoin (base url : string) : result string :=
  if negb (Str.truthy url) then Ok base
  else if Str.startswith "https://" url || Str.startswith "http://" url then Ok url
  else if Str.startswith "/" url || Str.startswith "?" url then Ok (base +:+ url)
  else Ok (base +:+ "/" +:+ url).

Definition no_detail : DetailSoup :=
  {| person_party_membership := None; location_a := None;
     election_results := None; contact_id := None; contact_details := None;
     experience_id := None; person_detail_experience := [];
     statements_statement := []; statement_class := [];
     attendance_id := None; attendance_class := None;
     committees_id := None; committees_class := None |}.

Definition listing_page (cards : list Card) (hrefs : list string) : Html :=
  {| is_empty := false;
     lxml := {| mp_card := cards; number_box := map Some hrefs |};
     html_parser := no_detail |}.

Definition detail_page (soup : DetailSoup) : Html :=
  {| is_empty := false;
     lxml := {| mp_card := []; number_box := [] |};
     html_parser := soup |}.

(** The seed URLs of [scrape_all]. *)
Definition national_assembly_url : string :=
  "https://mzalendo.com/parliament/national_assembly/".
Definition senate_url : string := "https://mzalendo.com/parliament/senate/".

(** A listing whose pagination links lead to pages 2, 3, 2 and 1. *)
Definition listing_2_3_2_1 : Html :=
  listing_page []
    [ "/parliament/senate/?page=2"; "/parliament/senate/?page=3";
      "/parliament/senate/?page=2"; "/parliament/senate/?page=1" ].

(** A listing whose pagination links lead to pages 2, 3 and 2. *)
Definition listing_2_3_2 : Html :=
  listing_page []
    [ "/parliament/senate/?page=2"; "/parliament/senate/?page=3";
      "/parliament/senate/?page=2" ].

(** A listing without pagination links. *)
Definition listing_without_links : Html := listing_page [] [].

(** A candidate, as the list extractor returns it. *)
Definition candidate (name href : string) : Candidate :=
  {| name := name; position := "Member for Rongo Constituency";
     constituency := Some "Rongo"; county := None;
     profile_url := base_url +:+ href; image_url := None;
     category := "senate" |}.

Definition no_experience : ExperienceSection :=
  {| education_entry := []; education_class := [];
     position_entry := []; position_class := [] |}.

(** A profile without [#experience] but with an element of class
    [person-detail-experience], a party line before it and a list of
    committees after it. *)
Definition profile_with_experience_class : Html :=
  detail_page
    {| person_party_membership := Some "Member of ODM";
       location_a := None; election_results := None;
       contact_id := None; contact_details := None;
       experience_id := None; person_detail_experience := [no_experience];
       statements_statement := []; statement_class := [];
       attendance_id := None; attendance_class := None;
       committees_id :=
         Some {| committee_class := ["Budget Committee"]; li_elems := [] |};
       committees_class := None |}.

(** A profile with one statement, dated [date]. *)
Definition profile_with_statement (date : string) : Html :=
  detail_page
    {| person_party_membership := None;
       location_a := None; election_results := None;
       contact_id := None; contact_details := None;
       experience_id := None; person_detail_experience := [];
       statements_statement := [];
       statement_class :=
         [ {| statement_date_elem := Some date; statement_dot_date := None;
              statement_text_elem := Some "Build a school";
              statement_dot_text := None |} ];
       attendance_id := None; attendance_class := None;
       committees_id := None; committees_class := None |}.

Definition promise_made (made : string) (due : option string) : Promise :=
  {| promise_id := "pr1"; description := "Build a school";
     promise_category := "Education"; madeDate := Some made;
     dueDate := due; status := "in-progress" |}.

(** An attendance record with both counts, and one whose absent cell held
    no number. *)
Definition attended (period : string) (present absent : Z) : AttendanceRecord :=
  {| period := period; present := Some present; absent := Some absent;
     total := Some (present + absent) |}.

Definition attended_only (period : string) (present : Z) : AttendanceRecord :=
  {| period := period; present := Some present; absent := None;
     total := None |}.

Definition attendance_row (period present absent : string) : AttendanceEntry :=
  {| th_elem := false; period_elem := None; td_1 := Some period;
     present_elem := None; td_2 := Some present;
     absent_elem := None; td_3 := Some absent |}.

(** A profile whose attendance table has the rows [rows]. *)
Definition profile_with_attendance (rows : list AttendanceEntry) : Html :=
  detail_page
    {| person_party_membership := None;
       location_a := None; election_results := None;
       contact_id := None; contact_details := None;
       experience_id := None; person_detail_experience := [];
       statements_statement := []; statement_class := [];
       attendance_id :=
         Some {| attendance_record := []; table_tr := rows |};
       attendance_class := None;
       committees_id := None; committees_class := None |}.

Fixpoint zeros (n : nat) : string :=
  match n with
  | O => EmptyString
  | S k => String "0" (zeros k)
  end.

(** A card of a listing page. *)
Definition sample_card (name href : string) : Card :=
  {| shujaa_details_a := Some {| anchor_text := name; anchor_href := Some href |};
     shujaa_details_p := Some "Member for Rongo Constituency";
     mp_pic_img := Some (Some "/static/images/default-person.jpg") |}.

Definition five_cards : list Card :=
  [ sample_card "Amina A" "/person/amina-a/";
    sample_card "Brian B" "/person/brian-b/";
    sample_card "Carol C" "/person/carol-c/";
    sample_card "David D" "/person/david-d/";
    sample_card "Esther E" "/person/esther-e/" ].

(** A network on which the senate listing shows five candidates and no
    pagination link, four of the five profiles are served, and every other
    request, the one for Carol C's profile among them, fails at each
    attempt. *)
Definition sample_net (url : string) (attempt : nat) : option Html :=
  if String.eqb url senate_url then Some (listing_page five_cards [])
  else if existsb (String.eqb url)
            [ "https://mzalendo.com/person/amina-a/";
              "https://mzalendo.com/person/brian-b/";
              "https://mzalendo.com/person/david-d/";
              "https://mzalendo.com/person/esther-e/" ]
       then Some (detail_page no_detail)
       else None.

(** The same network, but the senate listing has the usual pagination
    links to the pages 1 and 2. *)
Definition paginated_net (url : string) (attempt : nat) : option Html :=
  if String.eqb url senate_url
  then Some (listing_page five_cards
               [ "/parliament/senate/?page=1"; "/parliament/senate/?page=2" ])
  else sample_net url attempt.

(** The candidates of [five_cards]. *)
Definition five_candidates : list Candidate :=
  [ candidate "Amina A" "/person/amina-a/";
    candidate "Brian B" "/person/brian-b/";
    candidate "Carol C" "/person/carol-c/";
    candidate "David D" "/person/david-d/";
    candidate "Esther E" "/person/esther-e/" ].

(** A senate listing of two candidates whose records go to one file: the
    profile of Ann B cannot be fetched, so that her file is named after her,
    and the profile of Zed is served at the path [/person/ann-b/]. *)
Definition colliding_cards : list Card :=
  [ sample_card "Ann B" "/person/x-1/"; sample_card "Zed" "/person/ann-b/" ].

Definition colliding_net (url : string) (attempt : nat) : option Html :=
  if String.eqb url senate_url then Some (listing_page colliding_cards [])
  else if String.eqb url "https://mzalendo.com/person/ann-b/"
       then Some (detail_page no_detail)
       else None.

(** A pool that completes its tasks in the reverse order. *)
Definition reverse_schedule (n : nat) : list nat := rev (seq 0 n).

(** ** Further sample data *)

(** A network on which the national-assembly listing, the seed of that
    category, shows the five cards and no pagination link, and nothing else
    is served. *)
Definition national_net (url : string) (attempt : nat) : option Html :=
  if String.eqb url national_assembly_url
  then Some (listing_page five_cards [])
  else None.

(** ** Further definitions used in the statements *)

(** Every character of [s] satisfies [f]. *)
Fixpoint all_chars (f : ascii -> bool) (s : string) : bool :=
  match s with
  | EmptyString => true
  | String c s' => f c && all_chars f s'
  end.

(** The characters that the sanitised id of a file name keeps. *)
Definition safe_char (c : ascii) : bool := Str.isword c || Ascii.eqb c "-".

(** The [i]-th promise (from 0), as the loop over the statements builds
    it. *)
Definition promise_ok (i : nat) (promise : Promise) : Prop :=
  promise_id promise = "pr" +:+ str_of_int (Z.of_nat i + 1)
  /\ Str.truthy (description promise) = true
  /\ promise_category promise = categorize_promise (description promise)
  /\ status promise = "in-progress"
  /\ (forall made, madeDate promise = Some made -> Str.truthy made = true).

(** An attendance record as the loop over the rows builds it. *)
Definition attendance_ok (record : AttendanceRecord) : Prop :=
  Str.truthy (period record) = true
  /\ total record
     = match present record, absent record with
       | Some p, Some a => Some (p + a)
       | _, _ => None
       end
  /\ (forall p, present record = Some p -> 0 <= p)
  /\ (forall a, absent record = Some a -> 0 <= a).

(** No key of the record holds an empty list or an empty dict. *)
Definition no_empty_field (d : Politician) : Prop :=
  education d <> Some [] /\ positions d <> Some [] /\ promises d <> Some []
  /\ attendance d <> Some [] /\ committees d <> Some []
  /\ keyAchievements d <> Some []
  /\ election d <> Some {| electedDate := None; totalVotes := None |}
  /\ (forall c, contact d = Some c ->
        c <> {| email := None; phone := None; office := None;
                socialMedia := None |}
        /\ phone c <> Some []
        /\ socialMedia c <> Some {| twitter := None; facebook := None |}).

(** The entries of the lists are texts that passed the tests of their
    loops. *)
Definition entries_ok (d : Politician) : Prop :=
  (forall es, education d = Some es ->
     Forall (fun e => (5 < String.length e)%nat) es)
  /\ (forall ps, positions d = Some ps ->
        Forall (fun p => Str.truthy (title p) = true
                         /\ forall text, date p = Some text ->
                                         Str.truthy text = true) ps)
  /\ (forall cs, committees d = Some cs ->
        Forall (fun c => Str.truthy c = true) cs).

(** A profile with every section. *)
Definition full_profile : Html :=
  detail_page
    {| person_party_membership := Some "Member of ODM";
       location_a := Some "Migori County";
       election_results :=
         Some {| election_date := Some "2022-08-09";
                 election_votes := Some "Votes: 23456" |};
       contact_id :=
         Some {| mailto_elem := Some "mailto:jane@example.org";
                 tel_elems := ["tel:+254700000000"];
                 address_elem := None;
                 twitter_elem := Some "https://twitter.com/jane";
                 facebook_elem := None |};
       contact_details := None;
       experience_id :=
         Some {| education_entry :=
                   [ {| qualification_elem := Some "BSc Economics";
                        education_entry_text := "BSc Economics, 2001" |};
                     {| qualification_elem := Some "KCSE";
                        education_entry_text := "KCSE" |} ];
                 education_class := [];
                 position_entry :=
                   [ {| position_title_elem := Some "Chairperson";
                        position_entry_text := "Chairperson Budget 2019";
                        position_org_elem := Some "Budget";
                        position_date_elem := None;
                        position_dot_date := Some "2019" |} ];
                 position_class := [] |};
       person_detail_experience := [];
       statements_statement :=
         [ {| statement_date_elem := Some "2021-05-10";
              statement_dot_date := None;
              statement_text_elem := Some "Build a school";
              statement_dot_text := None |};
           {| statement_date_elem := None; statement_dot_date := None;
              statement_text_elem := Some "  ";
              statement_dot_text := None |};
           {| statement_date_elem := None; statement_dot_date := None;
              statement_text_elem := Some "Tarmac the road to Rongo";
              statement_dot_text := None |} ];
       statement_class := [];
       attendance_id :=
         Some {| attendance_record := [];
                 table_tr := [ attendance_row "2023" "8" "2";
                               attendance_row "2024" "50 days" "n/a" ] |};
       attendance_class := None;
       committees_id :=
         Some {| committee_class := ["Budget Committee"]; li_elems := [] |};
       committees_class := None |}.

(** ** Summaries: the stages of [scrape_all] after the scrape *)

(** *** County enrichment *)

(** The [dict] literal of [enrich_county_data], as its items. No key occurs
    twice, so the first item with a key is the item of the key. *)
Definition constituency_county_map : list (string * string) :=
  [ ("Tarbaj", "Wajir"); ("Lafey", "Mandera"); ("Kamukunji", "Nairobi");
    ("Rongo", "Migori"); ("Tigania East", "Meru"); ("Wajir East", "Wajir");
    ("Wajir South", "Wajir"); ("Bura", "Tana River"); ("Lomas", "Tana River");
    ("Bomachoge Chache", "Kisii"); ("Ijara", "Garissa"); ("Nyali", "Mombasa");
    ("Rangwe", "Homa Bay"); ("Turkana South", "Turkana") ].

(** [d.get(key)] on the items of a [dict] with string keys. *)
Fixpoint dict_get {A : Type} (key : string) (items : list (string * A))
  : option A :=
  match items with
  | [] => None
  | (k, v) :: rest => if String.eqb key k then Some v else dict_get key rest
  end.

(** Truth value of [d.get(key)] for a string value: a missing value, [None]
    and the empty string are false. *)
Definition value_truthy (v : option string) : bool :=
  match v with
  | Some s => Str.truthy s
  | None => false
  end.

(** The body of the loop of [enrich_county_data]. *)
Definition enrich_politician (politician : Politician) : Politician :=
  if value_truthy (constituency (info politician))
     && negb (value_truthy (county (info politician)))
  then
    match constituency (info politician) with
    | Some constituency =>
        match dict_get constituency constituency_county_map with
        | Some county => set_county county politician
        | None => politician
        end
    | None => politician
    end
  else politician.

(** The list returned holds the records of the argument, in order, each
    updated in place where the loop assigned a county. *)
Definition enrich_county_data (politicians_data : list Politician)
  : list Politician :=
  map enrich_politician politicians_data.

(** A record as the listing gives it for a member for [constituency] whose
    detail page could not be fetched. *)
Definition member_for (name constituency : string) : Politician :=
  of_candidate
    {| name := name;
       position := "Member for " +:+ constituency +:+ " Constituency";
       constituency := Some constituency; county := None;
       profile_url := base_url +:+ "/person/" +:+ name +:+ "/";
       image_url := None; category := "national_assembly" |}.

(** *** County files *)

(** [counties[county].append(leader)], after [counties[county] = []] for a
    county that is not a key yet; the items keep the order of insertion. *)
Fixpoint append_leader (county : string) (leader : Politician)
  (counties : list (string * list Politician))
  : list (string * list Politician) :=
  match counties with
  | [] => [(county, [leader])]
  | (k, leaders) :: rest =>
      if String.eqb county k then (k, leaders ++ [leader]) :: rest
      else (k, leaders) :: append_leader county leader rest
  end.

(** The first loop of [generate_county_data]: the leaders of each county. *)
Definition counties_of (all_leaders : list Politician)
  : list (string * list Politician) :=
  fold_left
    (fun counties leader =>
       match county (info leader) with
       | Some c => if Str.truthy c then append_leader c leader counties
                   else counties
       | None => counties
       end)
    all_leaders [].

(** [re.sub(r'[^\w\-]', '', county.lower().replace(' ', '_'))] *)
Definition safe_county (county : string) : string :=
  Str.filter (fun c => Str.isword c || Ascii.eqb c "-")
    (Str.replace " " "_" (Str.lower county)).

(** The county files, by path, and the list dumped to
    [counties_summary.json]. *)
Record CountyData := {
  county_files : gmap string (list Politician);
  county_summary : list (string * nat)
}.

Section Summaries.

Variable output_dir : string.

(** Whether [open(filename, 'w')] succeeds. *)
Variable writable : string -> bool.

(** Whether the directory exists or [os.makedirs] creates it. *)
Variable makedirs : string -> bool.

Definition county_filename (county : string) : string :=
  path_join2 (path_join output_dir ["counties"]) (safe_county county +:+ ".json").

(** The loop over [counties.items()]: a file that cannot be written ends
    it with [OSError]. *)
Fixpoint save_counties (counties : list (string * list Politician))
  (files : gmap string (list Politician))
  : result (gmap string (list Politician)) :=
  match counties with
  | [] => Ok files
  | (county, leaders) :: rest =>
      let filename := county_filename county in
      if writable filename then save_counties rest (<[filename := leaders]> files)
      else Raise OSError
  end.

Definition generate_county_data (all_leaders : list Politician)
  (files : gmap string (list Politician)) : result CountyData :=
  let counties := counties_of all_leaders in
  let county_dir := path_join output_dir ["counties"] in
  if makedirs county_dir then
    files' ← save_counties counties files;
    let county_summary :=
      map (fun '(county, leaders) => (county, length leaders)) counties in
    if writable (path_join output_dir ["counties_summary.json"])
    then Ok {| county_files := files'; county_summary := county_summary |}
    else Raise OSError
  else Raise OSError.

End Summaries.

(** The leaders whose county is [c]. *)
Definition county_is (c : string) (leader : Politician) : bool :=
  match county (info leader) with
  | Some c' => String.eqb c' c
  | None => false
  end.

(** Leaders as the scrape leaves them, with the county [county]. *)
Definition leader_of (name county : string) : Politician :=
  set_county county (member_for name "Galole").

(** *** Statistics *)

(** Float operations of the statistics, as Python performs them (IEEE 754
    binary64, round to nearest, ties to even); none of them raises. *)
Module FloatOps.

(** [x + y] on two floats. *)
Definition add (x y : spec_float) : spec_float :=
  SFadd Float.prec Float.emax x y.

(** [x / n] for a float [x] and a positive [int] [n]. *)
Definition div_int (x : spec_float) (n : Z) : spec_float :=
  SFdiv Float.prec Float.emax x (Float.of_int n).

(** [round(x, 2)]: the exact value of [x] is rounded to two decimals, ties
    to even, and the float nearest to that decimal is returned; infinities
    and NaN round to themselves. *)
Definition round2 (x : spec_float) : spec_float :=
  match x with
  | S754_finite s m e =>
      let hundredths :=
        if 0 <=? e then Zpos m * 2 ^ e * 100
        else Float.round_half_even (Zpos m * 100) (2 ^ (- e)) in
      match hundredths with
      | Zpos h =>
          SFdiv Float.prec Float.emax (S754_finite s h 0) (Float.exact 100)
      | _ => S754_zero s
      end
  | _ => x
  end.

End FloatOps.

(** A number of the statistics: the [int] it starts as, or the [float]
    assigned to it. *)
Inductive Number :=
  | Int (n : Z)
  | Flt (x : spec_float).

(** [if key not in d: d[key] = 0], then [d[key] += 1]; the items keep the
    order of insertion. *)
Fixpoint count_up (key : string) (counts : list (string * nat))
  : list (string * nat) :=
  match counts with
  | [] => [(key, 1%nat)]
  | (k, n) :: rest =>
      if String.eqb key k then (k, S n) :: rest
      else (k, n) :: count_up key rest
  end.

(** [stats["by_gender"]], a [dict] with three keys. *)
Record Gender := {
  male : nat;
  female : nat;
  unknown : nat
}.

Inductive GenderGuess := Female | Male | Unknown.

(** The estimate from the name and the position. *)
Definition guess_gender (leader : Politician) : GenderGuess :=
  let name := name (info leader) in
  if Str.startswith "Ms." name || Str.startswith "Mrs." name
     || Str.contains "women" (Str.lower (position (info leader)))
  then Female
  else if Str.startswith "Mr." name || Str.startswith "Hon." name then Male
  else Unknown.

Definition count_gender (guess : GenderGuess) (g : Gender) : Gender :=
  match guess with
  | Female => {| male := male g; female := S (female g); unknown := unknown g |}
  | Male => {| male := S (male g); female := female g; unknown := unknown g |}
  | Unknown => {| male := male g; female := female g; unknown := S (unknown g) |}
  end.

(** The degree type of an education entry. *)
Definition degree_type (edu : string) : string :=
  let edu_lower := Str.lower edu in
  if Str.contains "phd" edu_lower || Str.contains "doctorate" edu_lower
  then "PhD"
  else if Str.contains "master" edu_lower then "Masters"
  else if Str.contains "bachelor" edu_lower || Str.contains "degree" edu_lower
  then "Bachelors"
  else if Str.contains "diploma" edu_lower then "Diploma"
  else if Str.contains "certificate" edu_lower then "Certificate"
  else "unknown".

(** The loop over the attendance records of a leader: the sum of the
    ratios [present / total] and the number of records that have one. The
    division of the two [int]s raises [OverflowError] when the quotient is
    too large for a float. The sum starts as the [int] 0, which adds to a
    float as the float 0.0 does. *)
Fixpoint attendance_ratios (records : list AttendanceRecord)
  (leader_attendance : spec_float) (total_sessions : nat)
  : result (spec_float * nat) :=
  match records with
  | [] => Ok (leader_attendance, total_sessions)
  | record :: rest =>
      match present record, total record with
      | Some p, Some t =>
          if 0 <? t then
            ratio ← Float.true_divide p t;
            attendance_ratios rest (FloatOps.add leader_attendance ratio)
              (S total_sessions)
          else attendance_ratios rest leader_attendance total_sessions
      | _, _ => attendance_ratios rest leader_attendance total_sessions
      end
  end.

(** [(leader_attendance / total_sessions) * 100] of a leader with at least
    one such record, [None] for any other leader. *)
Definition attendance_percentage (leader : Politician)
  : result (option spec_float) :=
  match attendance leader with
  | Some ((_ :: _) as records) =>
      sums ← attendance_ratios records (Float.of_int 0) 0;
      let '(leader_attendance, total_sessions) := sums in
      if (0 <? total_sessions)%nat then
        Ok (Some (Float.mul_int
                    (FloatOps.div_int leader_attendance (Z.of_nat total_sessions))
                    100))
      else Ok None
  | _ => Ok None
  end.

(** The [stats] of [generate_statistics] with the two accumulators of its
    loop. Records of the scrape have no key 'projects', so that
    [projects_total] keeps its 0. *)
Record Statistics := {
  total_leaders : nat;
  by_category : list (string * nat);
  by_party : list (string * nat);
  by_gender : Gender;
  education_levels : list (string * nat);
  attendance_average : Number;
  projects_total : nat;
  promises_by_category : list (string * nat)
}.

Record Tally := {
  stats : Statistics;
  total_attendance : spec_float;
  leaders_with_attendance : nat
}.

(** The body of the loop over the leaders. *)
Definition tally_leader (tally : Tally) (leader : Politician) : result Tally :=
  let s := stats tally in
  let by_category := count_up (category (info leader)) (by_category s) in
  let by_party := count_up (default "unknown" (party leader)) (by_party s) in
  let by_gender := count_gender (guess_gender leader) (by_gender s) in
  let education_levels :=
    fold_left (fun levels edu => count_up (degree_type edu) levels)
      (default [] (education leader)) (education_levels s) in
  percentage ← attendance_percentage leader;
  let '(total_attendance, leaders_with_attendance) :=
    match percentage with
    | Some x =>
        (FloatOps.add (total_attendance tally) x,
         S (leaders_with_attendance tally))
    | None => (total_attendance tally, leaders_with_attendance tally)
    end in
  let promises_by_category :=
    fold_left (fun counts promise => count_up (promise_category promise) counts)
      (default [] (promises leader)) (promises_by_category s) in
  Ok {| stats :=
          {| total_leaders := total_leaders s;
             by_category := by_category;
             by_party := by_party;
             by_gender := by_gender;
             education_levels := education_levels;
             attendance_average := attendance_average s;
             projects_total := projects_total s;
             promises_by_category := promises_by_category |};
        total_attendance := total_attendance;
        leaders_with_attendance := leaders_with_attendance |}.

Fixpoint tally_leaders (all_leaders : list Politician) (tally : Tally)
  : result Tally :=
  match all_leaders with
  | [] => Ok tally
  | leader :: rest =>
      tally' ← tally_leader tally leader;
      tally_leaders rest tally'
  end.

Definition initial_tally (all_leaders : list Politician) : Tally :=
  {| stats :=
       {| total_leaders := length all_leaders;
          by_category := [];
          by_party := [];
          by_gender := {| male := 0; female := 0; unknown := 0 |};
          education_levels := [];
          attendance_average := Int 0;
          projects_total := 0;
          promises_by_category := [] |};
     total_attendance := Float.of_int 0;
     leaders_with_attendance := 0 |}.

Section Statistics.

Variable output_dir : string.

(** Whether [open(filename, 'w')] succeeds. *)
Variable writable : string -> bool.

(** The statistics dumped to [statistics.json]. *)
Definition generate_statistics (all_leaders : list Politician)
  : result Statistics :=
  tally ← tally_leaders all_leaders (initial_tally all_leaders);
  let s := stats tally in
  let attendance_average :=
    if (0 <? leaders_with_attendance tally)%nat then
      Flt (FloatOps.round2
             (FloatOps.div_int (total_attendance tally)
                (Z.of_nat (leaders_with_attendance tally))))
    else attendance_average s in
  if writable (path_join output_dir ["statistics.json"]) then
    Ok {| total_leaders := total_leaders s;
          by_category := by_category s;
          by_party := by_party s;
          by_gender := by_gender s;
          education_levels := education_levels s;
          attendance_average := attendance_average;
          projects_total := projects_total s;
          promises_by_category := promises_by_category s |}
  else Raise OSError.

End Statistics.


(** An attendance record that enters the average: it has both keys and a
    positive total. *)
Definition has_ratio (record : AttendanceRecord) : bool :=
  match present record, total record with
  | Some _, Some t => 0 <? t
  | _, _ => false
  end.

(** A leader with such a record. *)
Definition rated (leader : Politician) : bool :=
  existsb has_ratio (default [] (attendance leader)).

(** A record whose ratio is too large for a float. *)
Definition ratio_overflows (record : AttendanceRecord) : bool :=
  match present record, total record with
  | Some p, Some t =>
      (0 <? t)
      && match Float.true_divide p t with
         | Ok _ => false
         | Raise _ => true
         end
  | _, _ => false
  end.

(** A leader with the attendance records [records]. *)
Definition leader_with_attendance (name : string)
  (records : list AttendanceRecord) : Politician :=
  set_attendance records (member_for name "Rongo").

(** [id] is the last segment of [url]: the URL is a run of slashes, then a
    text that neither starts nor ends with a slash, then a run of slashes,
    and [id] is what follows the last slash of that text (the whole of it
    when it has no slash). *)
Definition last_segment (id url : string) : Prop :=
  exists leading pre trailing,
    url = leading +:+ (pre +:+ id) +:+ trailing
    /\ all_chars (Ascii.eqb "/") leading = true
    /\ all_chars (Ascii.eqb "/") trailing = true
    /\ Str.startswith "/" (pre +:+ id) = false
    /\ Str.endswith "/" (pre +:+ id) = false
    /\ (pre = EmptyString \/ Str.endswith "/" pre = true)
    /\ Str.contains "/" id = false.

(** * Properties *)

(** ** Strings *)

Lemma startswith_spec (p s : string) :
  Str.startswith p s = true <-> exists post, s = p +:+ post.
Proof.
  revert s. induction p as [|a p IH]; intros s; simpl.
  - split; [intros _; by exists s | done].
  - destruct s as [|b s]; simpl.
    + split; [done | intros [post H]; discriminate H].
    + rewrite andb_true_iff, Ascii.eqb_eq, IH. split.
      * intros [-> [post ->]]. by exists post.
      * intros [post H]. injection H as -> ->. split; [done | by exists post].
Qed.

Lemma contains_spec (sub s : string) :
  Str.contains sub s = true <-> occurs_in sub s.
Proof.
  unfold occurs_in. induction s as [|c s IH].
  - simpl. rewrite orb_false_r, startswith_spec. split.
    + intros [post H]. by exists EmptyString, post.
    + intros [[|c pre] [post H]]; [by exists post | discriminate H].
  - cbn [Str.contains]. rewrite orb_true_iff, startswith_spec, IH. split.
    + intros [[post H] | [pre [post H]]].
      * by exists EmptyString, post.
      * exists (String c pre), post. simpl. by rewrite H.
    + intros [[|c' pre] [post H]].
      * left. by exists post.
      * right. simpl in H. injection H as -> ->. by exists pre, post.
Qed.

(** ** Promise classifier *)

Lemma any_keyword_spec (keywords : list string) (promise_lower : string) :
  any_keyword keywords promise_lower = true <->
  exists keyword, keyword ∈ keywords /\ occurs_in keyword promise_lower.
Proof.
  induction keywords as [|k ks IH]; simpl.
  - split; [done | intros [k [H _]]; by apply not_elem_of_nil in H].
  - destruct (Str.contains k promise_lower) eqn:Hk.
    + split; [intros _ | done]. exists k. split; [left | by apply contains_spec].
    + rewrite IH. split.
      * intros [k' [Hin Hocc]]. exists k'. split; [by right | done].
      * intros [k' [Hin Hocc]]. apply elem_of_cons in Hin as [-> | Hin].
        -- apply contains_spec in Hocc. congruence.
        -- by exists k'.
Qed.

Lemma scan_categories_first (earlier later : list (string * list string))
  (category : string) (keywords : list string) (promise_lower : string) :
  any_keyword keywords promise_lower = true ->
  (forall c kws, (c, kws) ∈ earlier -> any_keyword kws promise_lower = false) ->
  scan_categories (earlier ++ (category, keywords) :: later) promise_lower
  = Some category.
Proof.
  intros Hhit. induction earlier as [|[c kws] earlier IH]; intros Hnone; simpl.
  - by rewrite Hhit.
  - rewrite (Hnone c kws) by left. apply IH.
    intros c' kws' Hin. apply (Hnone c' kws'). by right.
Qed.

Lemma scan_categories_none (items : list (string * list string))
  (promise_lower : string) :
  (forall c kws, (c, kws) ∈ items -> any_keyword kws promise_lower = false) ->
  scan_categories items promise_lower = None.
Proof.
  induction items as [|[c kws] items IH]; intros Hnone; simpl; [done|].
  rewrite (Hnone c kws) by left. apply IH.
  intros c' kws' Hin. apply (Hnone c' kws'). by right.
Qed.

Lemma any_keyword_false (keywords : list string) (text : string) :
  ~ category_matches keywords text ->
  any_keyword keywords (Str.lower text) = false.
Proof.
  intros Hno. apply not_true_is_false. intros H.
  apply Hno, any_keyword_spec, H.
Qed.

(** C7. [categorize_promise] scans the categories Education, Healthcare,
    Infrastructure, Water, Agriculture, Economy, Security in this order on
    the lower-cased text: the first category one of whose keywords is a
    substring of it is returned, whatever the later categories contain;
    when no keyword of any category occurs the result is "Other"; the result
    depends on the text only through its lower-cased form; and a text with
    both "school" and "hospital" is classified as Education. *)
Theorem categorize_promise_first_match (promise_text : string) :
  map fst categories_keywords
  = ["Education"; "Healthcare"; "Infrastructure"; "Water"; "Agriculture";
     "Economy"; "Security"]
  /\ (forall earlier category keywords later,
        categories_keywords = earlier ++ (category, keywords) :: later ->
        category_matches keywords promise_text ->
        (forall c kws,
            (c, kws) ∈ earlier -> ~ category_matches kws promise_text) ->
        categorize_promise promise_text = category)
  /\ ((forall c kws, (c, kws) ∈ categories_keywords ->
         ~ category_matches kws promise_text) ->
      categorize_promise promise_text = "Other")
  /\ (forall other, Str.lower other = Str.lower promise_text ->
        categorize_promise other = categorize_promise promise_text)
  /\ (occurs_in "school" (Str.lower promise_text) ->
      occurs_in "hospital" (Str.lower promise_text) ->
      categorize_promise promise_text = "Education").
Proof.
  split; [reflexivity|]. split; [|split; [|split]].
  - intros earlier category keywords later Hsplit Hhit Hnone.
    unfold categorize_promise. rewrite Hsplit.
    rewrite (scan_categories_first earlier later category keywords); [done| |].
    + by apply any_keyword_spec.
    + intros c kws Hin. by apply any_keyword_false, (Hnone c).
  - intros Hnone. unfold categorize_promise.
    rewrite scan_categories_none; [done|].
    intros c kws Hin. by apply any_keyword_false, (Hnone c).
  - intros other Heq. unfold categorize_promise. by rewrite Heq.
  - intros Hschool _. unfold categorize_promise.
    change categories_keywords with
      ([] ++ ("Education",
              ["education"; "school"; "university"; "college"; "student";
               "learning"]) :: tail categories_keywords).
    rewrite scan_categories_first; [done| |].
    + apply any_keyword_spec. exists "school".
      split; [right; left | done].
    + intros c kws Hin. by apply not_elem_of_nil in Hin.
Qed.

(** The example of the classifier on a text in mixed case. *)
Example categorize_school_and_hospital :
  categorize_promise "Build a School near the Hospital" = "Education"
  /\ categorize_promise "Equip the Hospital, then the school" = "Education"
  /\ categorize_promise "Equip the HOSPITAL" = "Healthcare"
  /\ categorize_promise "Plant trees" = "Other".
Proof. repeat split; reflexivity. Qed.

(** ** Pagination *)

Section Pagination.

Context (urljoin : string -> string -> result string).

Lemma unique_in_order_spec (seen : gset string) (page_urls : list string) :
  NoDup (unique_in_order seen page_urls)
  /\ forall x, x ∈ unique_in_order seen page_urls <-> x ∈ page_urls /\ x ∉ seen.
Proof.
  revert seen. induction page_urls as [|u us IH]; intros seen; simpl.
  - split; [constructor | set_solver].
  - destruct (decide (u ∈ seen)) as [Hin | Hout].
    + destruct (IH seen) as [Hnd Hmem]. split; [done|].
      intros x. rewrite Hmem. set_solver.
    + destruct (IH ({[u]} ∪ seen)) as [Hnd Hmem]. split.
      * constructor; [|done]. rewrite Hmem. set_solver.
      * intros x. rewrite elem_of_cons, Hmem.
        destruct (decide (x = u)) as [-> | Hne]; set_solver.
Qed.

(** Whatever list the function returns has no duplicates, and holds
    exactly the collected URLs and the synthesized one. *)
Lemma get_pagination_links_NoDup (html : Html) (urls : list string) :
  get_pagination_links urljoin html = Ok (Some urls) -> NoDup urls.
Proof.
  unfold get_pagination_links.
  destruct (collect_page_urls urljoin _) as [page_urls|e]; simpl; [|done].
  destruct (negb _); [|done].
  destruct (urljoin base_url _) as [first_page|e]; simpl; [|done].
  intros [= <-]. apply (unique_in_order_spec ∅ (first_page :: page_urls)).
Qed.

(** As soon as one collected URL contains "page=1", the function returns
    nothing at all. *)
Lemma get_pagination_links_page_1 (html : Html) (page_urls : list string)
  (url : string) :
  collect_page_urls urljoin (number_box (lxml html)) = Ok page_urls ->
  url ∈ page_urls ->
  Str.contains "page=1" url = true ->
  get_pagination_links urljoin html = Ok None.
Proof.
  intros Hcollect Hin Hpage. unfold get_pagination_links.
  rewrite Hcollect. simpl.
  assert (existsb (Str.contains "page=1") page_urls = true) as ->; [|done].
  apply existsb_exists. exists url. split; [by apply list_elem_of_In | done].
Qed.

Lemma existsb_page_1_false (page_urls : list string) :
  (forall url, url ∈ page_urls -> Str.contains "page=1" url = false) ->
  existsb (Str.contains "page=1") page_urls = false.
Proof.
  intros Hnone. apply not_true_is_false. intros H.
  apply existsb_exists in H as [url [Hin Hpage]].
  apply list_elem_of_In in Hin. rewrite (Hnone url Hin) in Hpage. done.
Qed.

(** C10. When no collected URL contains "page=1", the list returned starts
    with the URL joined from the fixed path /parliament/national_assembly/;
    the function takes the page only, so the same URL is synthesized for a
    listing of any category, and the scrape of any category goes on to
    fetch it as one of its own pages. *)
Theorem synthesized_first_page_is_national_assembly (html : Html)
  (page_urls : list string) (first_page : string)
  (session_get : string -> nat -> option Html) :
  collect_page_urls urljoin (number_box (lxml html)) = Ok page_urls ->
  (forall url, url ∈ page_urls -> Str.contains "page=1" url = false) ->
  urljoin base_url "/parliament/national_assembly/" = Ok first_page ->
  let rest := unique_in_order {[first_page]} page_urls in
  get_pagination_links urljoin html = Ok (Some (first_page :: rest))
  /\ forall category,
       gather_politicians urljoin session_get html category
       = Ok (process_additional_pages urljoin session_get category
               (first_page :: rest)
               (parse_politician_list_page urljoin (Some html) category)).
Proof.
  intros Hcollect Hnone Hfirst rest.
  assert (get_pagination_links urljoin html = Ok (Some (first_page :: rest)))
    as Hlinks.
  { unfold get_pagination_links. rewrite Hcollect. simpl.
    rewrite existsb_page_1_false by done. simpl. rewrite Hfirst. simpl.
    destruct (decide (first_page ∈ (∅ : gset string))) as [Hin|_];
      [set_solver|].
    unfold rest. by rewrite (right_id_L ∅ (∪)). }
  split; [done|]. intros category.
  unfold gather_politicians. by rewrite Hlinks.
Qed.

(** C5, as amended. A listing without numbered pagination links yields
    exactly one URL, the synthesized first page. *)
Theorem no_numbered_links_yield_first_page (html : Html) (first_page : string) :
  number_box (lxml html) = [] ->
  urljoin base_url "/parliament/national_assembly/" = Ok first_page ->
  get_pagination_links urljoin html = Ok (Some [first_page]).
Proof.
  intros Hnone Hfirst. unfold get_pagination_links.
  rewrite Hnone. simpl. rewrite Hfirst. simpl.
  by destruct (decide (first_page ∈ (∅ : gset string))) as [Hin|_];
    [set_solver|].
Qed.

End Pagination.

Lemma synthesized_first_page_witness :
  get_pagination_links sample_urljoin listing_2_3_2
  = Ok (Some (national_assembly_url
              :: unique_in_order {[national_assembly_url]}
                   [ "https://mzalendo.com/parliament/senate/?page=2";
                     "https://mzalendo.com/parliament/senate/?page=3";
                     "https://mzalendo.com/parliament/senate/?page=2" ]))
  /\ forall category,
       gather_politicians sample_urljoin (fun _ _ => None) listing_2_3_2 category
       = Ok (process_additional_pages sample_urljoin (fun _ _ => None) category
               (national_assembly_url
                :: unique_in_order {[national_assembly_url]}
                     [ "https://mzalendo.com/parliament/senate/?page=2";
                       "https://mzalendo.com/parliament/senate/?page=3";
                       "https://mzalendo.com/parliament/senate/?page=2" ])
               (parse_politician_list_page sample_urljoin
                  (Some listing_2_3_2) category)).
Proof.
  apply (synthesized_first_page_is_national_assembly sample_urljoin
           listing_2_3_2 _ national_assembly_url (fun _ _ => None)).
  - reflexivity.
  - intros url Hin. repeat (apply elem_of_cons in Hin as [-> | Hin]; [reflexivity|]).
    by apply not_elem_of_nil in Hin.
  - reflexivity.
Defined.

(** The list on pages 2, 3, 2: the synthesized first page, then each page
    once, in the order of first occurrence. *)
Example pagination_2_3_2 :
  get_pagination_links sample_urljoin listing_2_3_2
  = Ok (Some [ national_assembly_url;
               "https://mzalendo.com/parliament/senate/?page=2";
               "https://mzalendo.com/parliament/senate/?page=3" ]).
Proof. vm_compute. reflexivity. Qed.

(** C4, at the input of the claim. On links to the pages 2, 3, 2, 1 the
    link to page 1 makes the function fall off its end: it returns [None]
    and no list, with or without duplicates. *)
Theorem pagination_2_3_2_1_returns_nothing :
  collect_page_urls sample_urljoin (number_box (lxml listing_2_3_2_1))
  = Ok [ "https://mzalendo.com/parliament/senate/?page=2";
         "https://mzalendo.com/parliament/senate/?page=3";
         "https://mzalendo.com/parliament/senate/?page=2";
         "https://mzalendo.com/parliament/senate/?page=1" ]
  /\ get_pagination_links sample_urljoin listing_2_3_2_1 = Ok None.
Proof. split; vm_compute; reflexivity. Qed.

(** C5, the claim refuted: without any numbered link the function still
    returns a URL, the synthesized first page. *)
Lemma no_numbered_links_counterexample :
  number_box (lxml listing_without_links) = []
  /\ get_pagination_links sample_urljoin listing_without_links
     = Ok (Some [national_assembly_url])
  /\ get_pagination_links sample_urljoin listing_without_links <> Ok (Some [])
  /\ get_pagination_links sample_urljoin listing_without_links <> Ok None.
Proof. repeat split; vm_compute; congruence. Qed.

Lemma no_numbered_links_witness :
  get_pagination_links sample_urljoin listing_without_links
  = Ok (Some [national_assembly_url]).
Proof.
  apply (no_numbered_links_yield_first_page sample_urljoin
           listing_without_links national_assembly_url); reflexivity.
Defined.

(** ** The sections of the detail extractor *)

Section Detail.

Context (int_max_str_digits : nat).

Ltac unfold_bind :=
  unfold mbind, result_bind, mret, result_ret in *.

Ltac section_cases :=
  intros; unfold_bind;
  repeat (case_match; simplify_eq/=); eauto 10;
  try (right; eexists; split; [|reflexivity]; done).

Lemma party_affiliation_shape (soup : DetailSoup) (d : Politician) :
  party_affiliation soup d = Ok d
  \/ exists v, party_affiliation soup d = Ok (set_party v d).
Proof. unfold party_affiliation. section_cases. Qed.

Lemma county_information_shape (soup : DetailSoup) (d : Politician) :
  county_information soup d = Ok d
  \/ exists v, county_information soup d = Ok (set_county v d).
Proof. unfold county_information. section_cases. Qed.

Lemma election_data_shape (soup : DetailSoup) (d d' : Politician) :
  election_data int_max_str_digits soup d = Ok d' ->
  d' = d \/ exists v, d' = set_election v d.
Proof. unfold election_data. section_cases. Qed.

Lemma contact_information_shape (soup : DetailSoup) (d : Politician) :
  contact_information soup d = Ok d
  \/ exists v, contact_information soup d = Ok (set_contact v d).
Proof. unfold contact_information. section_cases. Qed.

Lemma experience_and_education_shape (soup : DetailSoup) (d d' : Politician) :
  experience_and_education soup d = Ok d' ->
  d' = d \/ (exists e, d' = set_education e d)
  \/ (exists p, d' = set_positions p d)
  \/ (exists e p, d' = set_positions p (set_education e d)).
Proof. unfold experience_and_education. section_cases. Qed.

Lemma promises_and_statements_shape (soup : DetailSoup) (d d' : Politician) :
  promises_and_statements int_max_str_digits soup d = Ok d' ->
  d' = d
  \/ exists ps,
       promises_loop int_max_str_digits
         (or_list (statements_statement soup) (statement_class soup)) [] = Ok ps
       /\ ps <> [] /\ d' = set_promises ps d.
Proof. unfold promises_and_statements. section_cases. Qed.

Lemma attendance_records_shape (soup : DetailSoup) (d d' : Politician) :
  attendance_records int_max_str_digits soup d = Ok d' ->
  d' = d \/ exists records, records <> [] /\ d' = set_attendance records d.
Proof. unfold attendance_records. section_cases. Qed.

Lemma committees_membership_shape (soup : DetailSoup) (d : Politician) :
  committees_membership soup d = Ok d
  \/ exists v, committees_membership soup d = Ok (set_committees v d).
Proof. unfold committees_membership. section_cases. Qed.

Lemma key_achievements_shape (d : Politician) :
  key_achievements d = Ok d
  \/ exists v, key_achievements d = Ok (set_keyAchievements v d).
Proof. unfold key_achievements. section_cases. Qed.

(** The rating is assigned exactly when the attendance list is not empty,
    its sessions add up to a positive number and the division yields a
    float; the section raises exactly when the division overflows. *)
Lemma calculate_approval_rating_spec (d : Politician) :
  match attendance d with
  | Some ((_ :: _) as records) =>
      if 0 <? total_sessions records then
        match approval_rating records with
        | Ok x => calculate_approval_rating d = Ok (set_approvalRating x d)
        | Raise e => calculate_approval_rating d = Raise e
        end
      else calculate_approval_rating d = Ok d
  | _ => calculate_approval_rating d = Ok d
  end.
Proof. unfold calculate_approval_rating. section_cases. Qed.

End Detail.

(** Case analysis on which assignment a section made. *)
Ltac by_shape Hs :=
  lazymatch type of Hs with
  | party_affiliation ?soup ?d = Ok _ =>
      let H := fresh in
      destruct (party_affiliation_shape soup d) as [H | [? H]];
      rewrite H in Hs; simplify_eq
  | county_information ?soup ?d = Ok _ =>
      let H := fresh in
      destruct (county_information_shape soup d) as [H | [? H]];
      rewrite H in Hs; simplify_eq
  | election_data _ _ _ = Ok _ =>
      apply election_data_shape in Hs as [-> | [? ->]]
  | contact_information ?soup ?d = Ok _ =>
      let H := fresh in
      destruct (contact_information_shape soup d) as [H | [? H]];
      rewrite H in Hs; simplify_eq
  | experience_and_education _ _ = Ok _ =>
      apply experience_and_education_shape in Hs
        as [-> | [[? ->] | [[? ->] | [? [? ->]]]]]
  | promises_and_statements _ _ _ = Ok _ =>
      apply promises_and_statements_shape in Hs as [-> | [? [? [? ->]]]]
  | attendance_records _ _ _ = Ok _ =>
      apply attendance_records_shape in Hs as [-> | [? [? ->]]]
  | committees_membership ?soup ?d = Ok _ =>
      let H := fresh in
      destruct (committees_membership_shape soup d) as [H | [? H]];
      rewrite H in Hs; simplify_eq
  | calculate_approval_rating ?d = Ok _ =>
      let H := fresh in
      pose proof (calculate_approval_rating_spec d) as H;
      repeat case_match; rewrite H in Hs; simplify_eq
  | key_achievements ?d = Ok _ =>
      let H := fresh in
      destruct (key_achievements_shape d) as [H | [? H]];
      rewrite H in Hs; simplify_eq
  end.

(** ** The guarded block of the detail extractor *)

Lemma try_sections_cases (sections : list (Politician -> result Politician))
  (d : Politician) :
  (exists d', run_sections sections d = Ok d' /\ try_sections sections d = d')
  \/ (exists before section after d' e,
        sections = before ++ section :: after
        /\ run_sections before d = Ok d'
        /\ section d' = Raise e
        /\ try_sections sections d = d').
Proof.
  revert d. induction sections as [|s rest IH]; intros d; simpl.
  - left. by exists d.
  - destruct (s d) as [d1|e] eqn:Hs; simpl.
    + destruct (IH d1)
        as [[d' [Hrun Htry]]
           | (before & section & after & d' & e & Hsplit & Hrun & Hraise & Htry)].
      * left. by exists d'.
      * right. exists (s :: before), section, after, d', e.
        split; [by rewrite Hsplit|]. simpl. rewrite Hs. by simpl.
    + right. by exists [], s, rest, d, e.
Qed.

Lemma try_sections_raise (before after : list (Politician -> result Politician))
  (section : Politician -> result Politician) (d d' : Politician) (e : exn) :
  run_sections before d = Ok d' ->
  section d' = Raise e ->
  try_sections (before ++ section :: after) d = d'.
Proof.
  revert d. induction before as [|s before IH]; intros d; simpl.
  - intros [= ->] Hraise. by rewrite Hraise.
  - destruct (s d) as [d1|e1]; simpl; [apply IH | done].
Qed.

Lemma try_sections_all_ok (sections : list (Politician -> result Politician))
  (d d' : Politician) :
  run_sections sections d = Ok d' -> try_sections sections d = d'.
Proof.
  revert d. induction sections as [|s rest IH]; intros d; simpl.
  - by intros [= ->].
  - destruct (s d) as [d1|e1]; simpl; [apply IH | done].
Qed.

Lemma try_sections_stop (before after : list (Politician -> result Politician))
  (section : Politician -> result Politician) (e : exn) (d : Politician) :
  (forall d', section d' = Raise e) ->
  try_sections (before ++ section :: after) d = try_sections before d.
Proof.
  intros Hraise. revert d. induction before as [|s before IH]; intros d; simpl.
  - by rewrite Hraise.
  - destruct (s d) as [d1|e1]; [apply IH | done].
Qed.

(** A property that every statement keeps holds of the result. *)
Lemma try_sections_inv (P : Politician -> Prop)
  (sections : list (Politician -> result Politician)) (d : Politician) :
  P d ->
  Forall (fun section => forall d d', P d -> section d = Ok d' -> P d') sections ->
  P (try_sections sections d).
Proof.
  intros HP Hall. revert d HP.
  induction Hall as [|s rest Hs Hrest IH]; intros d HP; simpl; [done|].
  destruct (s d) as [d1|e] eqn:Hsd; [|done]. apply IH. by eapply Hs.
Qed.

Section Block.

Context (int_max_str_digits : nat).

Ltac use_shape H :=
  first
    [ apply election_data_shape in H as [-> | [? ->]]
    | apply experience_and_education_shape in H
        as [-> | [[? ->] | [[? ->] | [? [? ->]]]]]
    | apply promises_and_statements_shape in H as [-> | [? [? [? ->]]]]
    | apply attendance_records_shape in H as [-> | [? [? ->]]] ].

(** The four sections before the experience section leave the fields of
    the later sections alone. *)
Lemma first_sections_frame (soup : DetailSoup) (d : Politician) :
  let d' :=
    try_sections [ party_affiliation soup; county_information soup;
                   election_data int_max_str_digits soup;
                   contact_information soup ] d in
  politician_id d' = politician_id d /\ education d' = education d
  /\ positions d' = positions d /\ promises d' = promises d
  /\ attendance d' = attendance d /\ committees d' = committees d
  /\ approvalRating d' = approvalRating d
  /\ keyAchievements d' = keyAchievements d.
Proof.
  simpl.
  destruct (party_affiliation_shape soup d) as [-> | [v1 ->]];
  match goal with
  | |- context [county_information soup ?x] =>
      destruct (county_information_shape soup x) as [-> | [v2 ->]]
  end;
  match goal with
  | |- context [election_data _ soup ?x] =>
      destruct (election_data int_max_str_digits soup x) as [d3|e] eqn:H3;
      [use_shape H3 | done]
  end;
  match goal with
  | |- context [contact_information soup ?x] =>
      destruct (contact_information_shape soup x) as [-> | [v4 ->]]
  end; done.
Qed.

(** C2, as amended. On a page that is not empty the sub-sections are
    parsed in order inside one guarded block that starts from the candidate
    with its id. When a sub-section raises, the result is the record as the
    sub-sections before it left it: what they extracted is kept, and no
    later sub-section and no derived field is computed. When none raises,
    the result is what all of them built. The result always carries the id
    and so is never the bare candidate. In particular, a page with an
    element of class person-detail-experience and no #experience yields
    what the party, county, election and contact sections extracted, and
    neither education, positions, promises, attendance, committees nor a
    derived field. *)
Theorem detail_sections_stop_at_first_exception (text : Html)
  (basic_info : Candidate) :
  is_empty text = false ->
  let soup := html_parser text in
  let parsed :=
    parse_politician_detail_page int_max_str_digits (Some text) basic_info in
  (forall before section after d e,
      detail_sections int_max_str_digits soup = before ++ section :: after ->
      run_sections before (with_id basic_info) = Ok d ->
      section d = Raise e ->
      parsed = d)
  /\ (forall d,
        run_sections (detail_sections int_max_str_digits soup)
          (with_id basic_info) = Ok d ->
        parsed = d)
  /\ politician_id parsed = politician_id (with_id basic_info)
  /\ parsed <> of_candidate basic_info
  /\ (experience_id soup = None ->
      person_detail_experience soup <> [] ->
      parsed
      = try_sections [ party_affiliation soup; county_information soup;
                       election_data int_max_str_digits soup;
                       contact_information soup ] (with_id basic_info)
      /\ education parsed = None /\ positions parsed = None
      /\ promises parsed = None /\ attendance parsed = None
      /\ committees parsed = None /\ approvalRating parsed = None
      /\ keyAchievements parsed = None).
Proof.
  intros Hfull soup parsed.
  assert (parsed = try_sections (detail_sections int_max_str_digits soup)
                     (with_id basic_info)) as Hparsed.
  { unfold parsed, parse_politician_detail_page. by rewrite Hfull. }
  assert (politician_id parsed = politician_id (with_id basic_info)) as Hid.
  { rewrite Hparsed.
    apply (try_sections_inv
             (fun d => politician_id d = politician_id (with_id basic_info)));
      [done|].
    unfold detail_sections. repeat apply Forall_cons_2; try apply Forall_nil_2;
      intros d d' HP Hs.
    - by destruct (party_affiliation_shape soup d) as [H | [v H]];
        rewrite H in Hs; simplify_eq.
    - by destruct (county_information_shape soup d) as [H | [v H]];
        rewrite H in Hs; simplify_eq.
    - by use_shape Hs.
    - by destruct (contact_information_shape soup d) as [H | [v H]];
        rewrite H in Hs; simplify_eq.
    - by use_shape Hs.
    - by use_shape Hs.
    - by use_shape Hs.
    - by destruct (committees_membership_shape soup d) as [H | [v H]];
        rewrite H in Hs; simplify_eq.
    - pose proof (calculate_approval_rating_spec d) as Hspec.
      repeat case_match; rewrite Hspec in Hs; by simplify_eq.
    - by destruct (key_achievements_shape d) as [H | [v H]];
        rewrite H in Hs; simplify_eq. }
  split; [|split; [|split; [|split]]].
  - intros before section after d e Hsplit Hrun Hraise.
    rewrite Hparsed, Hsplit. by eapply try_sections_raise.
  - intros d Hrun. rewrite Hparsed. by apply try_sections_all_ok.
  - done.
  - intros Hbare. rewrite Hbare in Hid. discriminate Hid.
  - intros Hnone Hlist.
    assert (forall d, experience_and_education soup d = Raise AttributeError)
      as Hraise.
    { intros d. unfold experience_and_education. rewrite Hnone.
      by destruct (person_detail_experience soup). }
    assert (parsed
            = try_sections [ party_affiliation soup; county_information soup;
                             election_data int_max_str_digits soup;
                             contact_information soup ] (with_id basic_info))
      as Hfirst.
    { rewrite Hparsed. unfold detail_sections.
      by apply (try_sections_stop
                  [ party_affiliation soup; county_information soup;
                    election_data int_max_str_digits soup;
                    contact_information soup ] _ _ AttributeError). }
    split; [done|]. rewrite Hfirst.
    pose proof (first_sections_frame soup (with_id basic_info)) as Hframe.
    simpl in Hframe. simpl. by destruct_and!.
Qed.

End Block.

(** C2, the claim refuted: the exception of the experience section keeps
    the committees of the same page from being extracted, and what comes
    back is not the bare candidate either: it has the id and the party. *)
Lemma section_exception_counterexample :
  let basic_info := candidate "Jane Doe" "/person/jane-doe/" in
  let soup := html_parser profile_with_experience_class in
  let parsed :=
    parse_politician_detail_page 4300 (Some profile_with_experience_class)
      basic_info in
  experience_and_education soup (with_id basic_info) = Raise AttributeError
  /\ committees_membership soup (with_id basic_info)
     = Ok (set_committees ["Budget Committee"] (with_id basic_info))
  /\ committees parsed = None
  /\ party parsed = Some "ODM"
  /\ politician_id parsed = Some "jane-doe"
  /\ parsed <> of_candidate basic_info.
Proof. repeat split; try (vm_compute; congruence). Qed.

Lemma detail_sections_witness :
  let basic_info := candidate "Jane Doe" "/person/jane-doe/" in
  let parsed :=
    parse_politician_detail_page 4300 (Some profile_with_experience_class)
      basic_info in
  politician_id parsed = Some "jane-doe"
  /\ committees parsed = None.
Proof.
  pose proof (detail_sections_stop_at_first_exception 4300
                profile_with_experience_class
                (candidate "Jane Doe" "/person/jane-doe/") eq_refl) as H.
  simpl in H. destruct H as (_ & _ & Hid & _ & Hexp).
  split; [exact Hid|].
  destruct Hexp as (_ & _ & _ & _ & _ & Hc & _);
    [reflexivity | discriminate | exact Hc].
Defined.

(** ** Due dates of promises *)

Lemma digit_not_hyphen (c : ascii) :
  Str.isdigit c = true -> Ascii.eqb c "-" = false.
Proof. destruct c as [[] [] [] [] [] [] [] []]; by vm_compute. Qed.

Lemma split_sep (sep : ascii) (s : string) :
  Str.split sep (String sep s) = EmptyString :: Str.split sep s.
Proof. simpl. by rewrite Ascii.eqb_refl. Qed.

Lemma split_other (sep c : ascii) (s : string) :
  Ascii.eqb c sep = false ->
  Str.split sep (String c s)
  = match Str.split sep s with
    | [] => [String c EmptyString]
    | w :: ws => String c w :: ws
    end.
Proof. intros H. simpl. by rewrite H. Qed.

Lemma split_nonempty (sep : ascii) (s : string) : Str.split sep s <> [].
Proof.
  destruct s as [|c s]; simpl; [done|].
  destruct (Ascii.eqb c sep); [done|]. by destruct (Str.split sep s).
Qed.

Lemma split_single (sep : ascii) (s w : string) :
  Str.split sep s = [w] -> w = s.
Proof.
  revert w. induction s as [|c s IH]; intros w; simpl.
  - by intros [= <-].
  - destruct (Ascii.eqb c sep).
    + intros [= _ H]. by apply split_nonempty in H.
    + destruct (Str.split sep s) as [|w' ws] eqn:Hs;
        [by apply split_nonempty in Hs|].
      intros [= <- ->]. by rewrite (IH w').
Qed.

Lemma py_int_short (int_max_str_digits : nat) (s : string) :
  (String.length s <= 640)%nat ->
  py_int int_max_str_digits s = Ok (digits_value s 0).
Proof.
  intros Hlen. unfold py_int.
  destruct (640 <? String.length s)%nat eqn:Hlt; [|done].
  apply Nat.ltb_lt in Hlt. lia.
Qed.

Lemma match_date_inv (s : string) :
  match_date s = true ->
  exists y1 y2 y3 y4 m1 m2 rest,
    s = String y1 (String y2 (String y3 (String y4 (String "-"
          (String m1 (String m2 (String "-" rest)))))))
    /\ Str.isdigit y1 = true /\ Str.isdigit y2 = true
    /\ Str.isdigit y3 = true /\ Str.isdigit y4 = true
    /\ Str.isdigit m1 = true /\ Str.isdigit m2 = true.
Proof.
  unfold match_date. intros H.
  repeat (case_match; [done|]).
  do 9 (apply andb_prop in H as [H ?]).
  repeat match goal with
         | E : Ascii.eqb _ _ = true |- _ => apply Ascii.eqb_eq in E; subst
         end.
  by repeat eexists.
Qed.

Section DueDate.

Context (int_max_str_digits : nat).

(** Whenever [due_date] returns, it returns the date three years later
    for a text that begins with a date, and nothing otherwise. *)
Lemma due_date_spec (made : string) (r : option string) :
  due_date int_max_str_digits made = Ok r ->
  r = if match_date made then Some (three_years_later made) else None.
Proof.
  unfold due_date. destruct (match_date made) eqn:Hm; [|by intros [= <-]].
  destruct (match_date_inv made Hm)
    as (y1 & y2 & y3 & y4 & m1 & m2 & rest & -> & H1 & H2 & H3 & H4 & H5 & H6).
  repeat first [ rewrite split_sep
               | rewrite (split_other "-") by by apply digit_not_hyphen ].
  destruct (Str.split "-" rest) as [|day [|extra more]] eqn:Hrest; [done| |done].
  apply split_single in Hrest as ->.
  rewrite py_int_short by (simpl; lia). simpl.
  by intros [= <-].
Qed.

Lemma promise_of_statement_dates (len_promises : nat) (statement : Statement)
  (promise : Promise) :
  promise_of_statement int_max_str_digits len_promises statement
  = Ok (Some promise) ->
  promise_dates_ok promise.
Proof.
  unfold promise_of_statement, promise_dates_ok.
  unfold mbind, result_bind.
  destruct (or_else (statement_text_elem statement) _) as [text|]; [|done].
  destruct (Str.truthy (Str.strip text)); [|done].
  destruct (or_else (statement_date_elem statement) _) as [date|];
    [|by intros [= <-]].
  destruct (Str.truthy (Str.strip date)); [|by intros [= <-]].
  destruct (due_date _ _) as [due|e] eqn:Hdue; [|done].
  apply due_date_spec in Hdue as ->. by intros [= <-].
Qed.

Lemma promises_loop_dates (statements_section : list Statement)
  (promises ps : list Promise) :
  promises_loop int_max_str_digits statements_section promises = Ok ps ->
  Forall promise_dates_ok promises ->
  Forall promise_dates_ok ps.
Proof.
  revert promises. induction statements_section as [|st rest IH];
    intros promises; simpl.
  - by intros [= <-].
  - unfold mbind, result_bind.
    destruct (promise_of_statement _ _ st) as [[p|]|e] eqn:Hst; [| |done].
    + intros Hloop Hacc. apply (IH _ Hloop).
      apply Forall_app. split; [done|].
      apply Forall_singleton. by eapply promise_of_statement_dates.
    + apply IH.
Qed.

Lemma parsed_promises_dates (html : option Html) (basic_info : Candidate)
  (ps : list Promise) :
  promises (parse_politician_detail_page int_max_str_digits html basic_info)
  = Some ps ->
  Forall promise_dates_ok ps.
Proof.
  unfold parse_politician_detail_page.
  destruct html as [text|]; [|done].
  destruct (is_empty text); [done|]. revert ps.
  apply (try_sections_inv
           (fun d => forall ps, promises d = Some ps -> Forall promise_dates_ok ps));
    [done|].
  unfold detail_sections. repeat apply Forall_cons_2; try apply Forall_nil_2;
    intros d d' HP Hs; by_shape Hs; try done.
  simpl. intros ps [= <-]. by eapply promises_loop_dates.
Qed.

(** C8, as amended. For every promise of a parsed page that carries a
    madeDate, a dueDate is emitted if and only if madeDate begins with a
    date YYYY-MM-DD (the pattern is anchored at the start only), and the
    dueDate is then the year plus three followed by the rest of madeDate,
    from the first hyphen on, as it stands; a promise without madeDate has
    no dueDate. "2021-05-10" gives "2024-05-10" and "10 May 2021" gives
    none. *)
Theorem due_date_follows_date_prefix (html : option Html)
  (basic_info : Candidate) (ps : list Promise) (promise : Promise) :
  promises (parse_politician_detail_page int_max_str_digits html basic_info)
  = Some ps ->
  promise ∈ ps ->
  match madeDate promise with
  | Some made =>
      (is_Some (dueDate promise) <-> match_date made = true)
      /\ (forall due, dueDate promise = Some due -> due = three_years_later made)
  | None => dueDate promise = None
  end
  /\ due_date int_max_str_digits "2021-05-10" = Ok (Some "2024-05-10")
  /\ due_date int_max_str_digits "10 May 2021" = Ok None.
Proof.
  intros Hps Hin. split; [|split].
  - apply parsed_promises_dates in Hps.
    rewrite Forall_forall in Hps. specialize (Hps promise Hin).
    unfold promise_dates_ok in Hps.
    destruct (madeDate promise) as [made|]; [|done].
    rewrite Hps. destruct (match_date made); split.
    + split; [done | by eexists].
    + by intros due [= <-].
    + split; [by intros [? ?] | done].
    + done.
  - reflexivity.
  - reflexivity.
Qed.

End DueDate.

(** C8, the claim refuted: a madeDate that only begins with a date, with a
    time after it, is not of the form YYYY-MM-DD and still gets a dueDate. *)
Lemma due_date_counterexample :
  promises (parse_politician_detail_page 4300
              (Some (profile_with_statement "2021-05-10 10:30"))
              (candidate "Jane Doe" "/person/jane-doe/"))
  = Some [promise_made "2021-05-10 10:30" (Some "2024-05-10 10:30")]
  /\ iso_date "2021-05-10 10:30" = false.
Proof. split; vm_compute; reflexivity. Qed.

Lemma due_date_witness :
  match madeDate (promise_made "2021-05-10" (Some "2024-05-10")) with
  | Some made =>
      (is_Some (dueDate (promise_made "2021-05-10" (Some "2024-05-10")))
       <-> match_date made = true)
      /\ (forall due,
            dueDate (promise_made "2021-05-10" (Some "2024-05-10")) = Some due ->
            due = three_years_later made)
  | None => dueDate (promise_made "2021-05-10" (Some "2024-05-10")) = None
  end
  /\ due_date 4300 "2021-05-10" = Ok (Some "2024-05-10")
  /\ due_date 4300 "10 May 2021" = Ok None.
Proof.
  apply (due_date_follows_date_prefix 4300
           (Some (profile_with_statement "2021-05-10"))
           (candidate "Jane Doe" "/person/jane-doe/")
           [promise_made "2021-05-10" (Some "2024-05-10")]).
  - vm_compute. reflexivity.
  - left.
Defined.

(** The dates of the claim, and a date with a further hyphen, on which the
    unpacking of the split raises and the block ends without promises. *)
Example due_dates_of_sample_pages :
  promises (parse_politician_detail_page 4300
              (Some (profile_with_statement "2021-05-10"))
              (candidate "Jane Doe" "/person/jane-doe/"))
  = Some [promise_made "2021-05-10" (Some "2024-05-10")]
  /\ promises (parse_politician_detail_page 4300
                 (Some (profile_with_statement "10 May 2021"))
                 (candidate "Jane Doe" "/person/jane-doe/"))
     = Some [promise_made "10 May 2021" None]
  /\ due_date 4300 "2021-05-10-11" = Raise ValueError
  /\ promises (parse_politician_detail_page 4300
                 (Some (profile_with_statement "2021-05-10-11"))
                 (candidate "Jane Doe" "/person/jane-doe/"))
     = None.
Proof. repeat split; vm_compute; reflexivity. Qed.

(** ** Approval rating *)

Lemma try_sections_app (l1 l2 : list (Politician -> result Politician))
  (d : Politician) :
  try_sections (l1 ++ l2) d
  = match run_sections l1 d with
    | Ok d' => try_sections l2 d'
    | Raise _ => try_sections l1 d
    end.
Proof.
  revert d. induction l1 as [|s l1 IH]; intros d; simpl; [done|].
  destruct (s d) as [d1|e]; simpl; [apply IH | done].
Qed.

Lemma run_sections_inv (P : Politician -> Prop)
  (sections : list (Politician -> result Politician)) (d d' : Politician) :
  P d ->
  Forall (fun section => forall d d', P d -> section d = Ok d' -> P d') sections ->
  run_sections sections d = Ok d' ->
  P d'.
Proof.
  intros HP Hall. revert d HP.
  induction Hall as [|s rest Hs Hrest IH]; intros d HP; simpl.
  - by intros [= <-].
  - destruct (s d) as [d1|e] eqn:Hsd; simpl; [|done]. apply IH. by eapply Hs.
Qed.

Section Approval.

Context (int_max_str_digits : nat).

Lemma sections_before_attendance (soup : DetailSoup) :
  Forall (fun section =>
            forall d d', no_attendance_yet d -> section d = Ok d' ->
                         no_attendance_yet d')
    [ party_affiliation soup; county_information soup;
      election_data int_max_str_digits soup; contact_information soup;
      experience_and_education soup;
      promises_and_statements int_max_str_digits soup ].
Proof.
  repeat apply Forall_cons_2; try apply Forall_nil_2;
    intros d d' HP Hs; by_shape Hs; done.
Qed.

Lemma no_attendance_yet_rating (d : Politician) :
  no_attendance_yet d -> rating_as_attended d.
Proof. intros [Ha Hr]. unfold rating_as_attended. by rewrite Ha. Qed.

Lemma rating_after_attendance (d : Politician) :
  approvalRating d = None ->
  (forall records, attendance d = Some records -> records <> []) ->
  rating_as_attended (try_sections [calculate_approval_rating; key_achievements] d).
Proof.
  intros Hr Hne. simpl.
  pose proof (calculate_approval_rating_spec d) as Hspec.
  assert (forall d', attendance d' = attendance d ->
                     approvalRating d' = approvalRating d ->
                     (0 < total_sessions (default [] (attendance d)) ->
                      exists e,
                        approval_rating (default [] (attendance d)) = Raise e) ->
                     attendance d <> Some [] ->
                     rating_as_attended d') as Hnone.
  { intros d' Ha' Hr' Hraise Hnil. unfold rating_as_attended.
    rewrite Ha', Hr', Hr. destruct (attendance d) as [records|]; [|done].
    split; [congruence|]. intros x. split; [done|].
    intros [Hpos (ratio & Hdiv & _)]. destruct (Hraise Hpos) as [e He].
    simpl in He. unfold approval_rating in He. by rewrite Hdiv in He. }
  assert (forall d', rating_as_attended d' ->
                     rating_as_attended
                       match key_achievements d' with
                       | Ok d'' => d''
                       | Raise _ => d'
                       end) as Hkey.
  { intros d' Hd'.
    by destruct (key_achievements_shape d') as [-> | [v ->]]. }
  destruct (attendance d) as [[|r records]|] eqn:Ha.
  - by destruct (Hne [] eq_refl).
  - destruct (0 <? total_sessions (r :: records)) eqn:Hpos.
    + apply Z.ltb_lt in Hpos.
      destruct (approval_rating (r :: records)) as [x0|e] eqn:Hrate;
        rewrite Hspec.
      * apply Hkey. unfold rating_as_attended. simpl. rewrite Ha.
        split; [done|]. intros x. unfold approval_rating in Hrate.
        destruct (Float.true_divide _ _) as [ratio|e] eqn:Hdiv; [|done].
        simpl in Hrate. injection Hrate as <-. split.
        -- intros [= <-]. split; [done|]. by exists ratio.
        -- intros [_ (ratio' & [= <-] & ->)]. done.
      * apply Hnone; [done | done | simpl; eauto | done].
    + rewrite Hspec. apply Z.ltb_ge in Hpos.
      apply Hkey, Hnone; [done | done | simpl; lia | done].
  - rewrite Hspec.
    apply Hkey, Hnone; [done | done | by intros H; vm_compute in H | done].
Qed.

Lemma parsed_rating (html : option Html) (basic_info : Candidate) :
  rating_as_attended
    (parse_politician_detail_page int_max_str_digits html basic_info).
Proof.
  unfold parse_politician_detail_page.
  destruct html as [text|]; [|done].
  destruct (is_empty text); [done|].
  set (soup := html_parser text). fold (with_id basic_info).
  change (detail_sections int_max_str_digits soup) with
    ([ party_affiliation soup; county_information soup;
       election_data int_max_str_digits soup; contact_information soup;
       experience_and_education soup;
       promises_and_statements int_max_str_digits soup ]
     ++ [ attendance_records int_max_str_digits soup;
          committees_membership soup ]
     ++ [ calculate_approval_rating; key_achievements ]).
  rewrite try_sections_app.
  destruct (run_sections _ (with_id basic_info)) as [d6|e] eqn:Hrun.
  - apply (run_sections_inv no_attendance_yet) in Hrun as [Ha6 Hr6];
      [|done|apply sections_before_attendance].
    rewrite try_sections_app. simpl.
    destruct (attendance_records _ soup d6) as [d7|e] eqn:H7; simpl.
    + assert (approvalRating d7 = None
              /\ forall records, attendance d7 = Some records -> records <> [])
        as [Hr7 Ha7].
      { by_shape H7; simpl; split; try done; congruence. }
      destruct (committees_membership_shape soup d7) as [-> | [v ->]];
        by apply rating_after_attendance.
    + by apply no_attendance_yet_rating.
  - apply no_attendance_yet_rating.
    apply (try_sections_inv no_attendance_yet);
      [done | apply sections_before_attendance].
Qed.

(** C9, as amended. A record has an approvalRating if and only if its
    attendance list is not empty, the totals of its entries add up to a
    positive number and the quotient of the sums fits a float (the
    division of the two integers raises OverflowError otherwise, and the
    rating is then left out); the rating is round(sum(present) /
    sum(total) * 5, 1), where an entry without present or total counts 0.
    Attendance 8 of 10 and 4 of 5 gives 4.0. *)
Theorem approval_rating_iff_attended (html : option Html)
  (basic_info : Candidate) :
  let parsed :=
    parse_politician_detail_page int_max_str_digits html basic_info in
  match attendance parsed with
  | Some records =>
      records <> []
      /\ forall x,
           approvalRating parsed = Some x <->
           0 < total_sessions records
           /\ exists ratio,
                Float.true_divide (total_present records) (total_sessions records)
                = Ok ratio
                /\ x = Float.round1 (Float.mul_int ratio 5)
  | None => approvalRating parsed = None
  end
  /\ approval_rating [attended "2020" 8 2; attended "2021" 4 1]
     = Ok (Float.of_int 4).
Proof.
  split; [apply parsed_rating | by vm_compute].
Qed.

End Approval.

(** C9, the claim refuted: the attendance list is not empty and its totals
    add up to 1, yet there is no approvalRating, because the sum of the
    present counts divided by 1 is too large for a float. *)
Lemma approval_rating_counterexample :
  let rows :=
    [ attendance_row "2020" ("1" +:+ zeros 400) "-";
      attendance_row "2021" "1" "0" ] in
  let records := [attended_only "2020" (10 ^ 400); attended "2021" 1 0] in
  let parsed :=
    parse_politician_detail_page 4300 (Some (profile_with_attendance rows))
      (candidate "Jane Doe" "/person/jane-doe/") in
  attendance parsed = Some records
  /\ total_sessions records = 1
  /\ approval_rating records = Raise OverflowError
  /\ approvalRating parsed = None.
Proof. repeat split; vm_compute; reflexivity. Qed.

(** Some ratings next to the literals Python prints for them: 1.7, 3.3,
    0.6 (a tie, rounded to even), 1.9, 3.6, 5.0, 0.0, and 12.0 where an
    entry without total adds its present count only. *)
Example approval_ratings_as_printed :
  approval_rating [attended "a" 1 2] = Float.true_divide 17 10
  /\ approval_rating [attended "a" 2 1] = Float.true_divide 33 10
  /\ approval_rating [attended "a" 1 7] = Float.true_divide 6 10
  /\ approval_rating [attended "a" 3 5] = Float.true_divide 19 10
  /\ approval_rating [attended "a" 29 11] = Float.true_divide 36 10
  /\ approval_rating [attended "a" 7 0] = Ok (Float.of_int 5)
  /\ approval_rating [attended "a" 0 9] = Ok (Float.of_int 0)
  /\ approval_rating [attended_only "a" 8; attended "b" 4 1]
     = Ok (Float.of_int 12).
Proof. repeat split; vm_compute; reflexivity. Qed.

(** The rating of the claim's example, from the page to the record. *)
Example approval_rating_of_sample_page :
  let rows :=
    [ attendance_row "2020" "8" "2"; attendance_row "2021" "4 days" "1" ] in
  let parsed :=
    parse_politician_detail_page 4300 (Some (profile_with_attendance rows))
      (candidate "Jane Doe" "/person/jane-doe/") in
  attendance parsed = Some [attended "2020" 8 2; attended "2021" 4 1]
  /\ approvalRating parsed = Some (Float.of_int 4)
  /\ Float.of_int 4 = S754_finite false 4503599627370496 (-50).
Proof. repeat split; vm_compute; reflexivity. Qed.

(** ** Orchestrator *)

(** The list extractor on the sample listing: names are stripped, links
    are made absolute, the constituency is read from the position line and
    the placeholder image is left out. *)
Example five_cards_parsed :
  parse_politician_list_page sample_urljoin (Some (listing_page five_cards []))
    "senate"
  = five_candidates.
Proof. vm_compute. reflexivity. Qed.

Section Orchestrator.

Context (output_dir : string) (max_workers : Z).
Context (urljoin : string -> string -> result string).
Context (session_get : string -> nat -> option Html).
Context (writable : string -> bool).
Context (int_max_str_digits : nat).
Context (schedule : nat -> list nat).

Local Abbreviation detailed := (detailed_record session_get int_max_str_digits).
Local Abbreviation savable := (can_save output_dir writable).
Local Abbreviation written := (write_record output_dir writable).

Lemma details_loop_spec (category : string) (subcategory : option string)
  (politicians : list Candidate) (detailed_politicians : list Politician)
  (files : Files) :
  details_loop output_dir session_get writable int_max_str_digits
    category subcategory politicians detailed_politicians files
  = (fold_left (written category)
       (map (detailed subcategory) politicians) files,
     detailed_politicians
     ++ List.filter (savable category)
          (map (detailed subcategory) politicians)).
Proof.
  revert detailed_politicians files.
  induction politicians as [|p ps IH]; intros acc files; simpl.
  - by rewrite app_nil_r.
  - fold (detailed subcategory p).
    unfold save_politician_data, write_record at 2, can_save.
    destruct (writable _); rewrite IH; [|done].
    by rewrite <- app_assoc.
Qed.

Lemma write_records_other (category : string) (ds : list Politician)
  (files : Files) (filename : string) :
  Forall (fun d => politician_filename output_dir d category <> filename) ds ->
  fold_left (written category) ds files !! filename = files !! filename.
Proof.
  intros Hall. revert files.
  induction Hall as [|d ds Hd Hds IH]; intros files; simpl; [done|].
  rewrite IH. unfold write_record.
  destruct (savable category d); [|done].
  by rewrite lookup_insert_ne.
Qed.

Lemma write_records_last (category : string) (before after : list Politician)
  (d : Politician) (files : Files) :
  savable category d = true ->
  Forall (fun d' => politician_filename output_dir d' category
                    <> politician_filename output_dir d category) after ->
  fold_left (written category) (before ++ d :: after) files
    !! politician_filename output_dir d category
  = Some d.
Proof.
  intros Hsave Hafter. rewrite fold_left_app. simpl.
  rewrite write_records_other by done.
  unfold write_record at 1. rewrite Hsave. by rewrite lookup_insert_eq.
Qed.

(** A candidate whose detail page could not be fetched comes out as the
    candidate itself, tagged with the subcategory, without an id. *)
Lemma detailed_record_unfetched (subcategory : option string)
  (politician : Candidate) :
  get_page session_get (profile_url politician) = None ->
  detailed subcategory politician
  = tag_subcategory subcategory (of_candidate politician)
  /\ politician_id (detailed subcategory politician) = None
  /\ politician_filename output_dir (detailed subcategory politician)
       (category politician)
     = path_join output_dir
         [ category politician;
           Str.filter (fun c => Str.isword c || Ascii.eqb c "-")
             (Str.replace " " "-" (Str.lower (name politician))) +:+ ".json" ].
Proof.
  intros Hnone. unfold detailed_record. rewrite Hnone. simpl.
  unfold tag_subcategory.
  destruct subcategory as [sub|]; [destruct (Str.truthy sub)|]; done.
Qed.

(** C1, as amended. Once the candidates of a category are gathered, the
    scrape returns, and every candidate whose file can be written is
    returned and written to a file, whatever happens to the others. The
    file holds its record unless a later candidate has the same file name;
    then it holds the record of the last candidate with that file name. A
    candidate whose detail page could not be fetched after all retries is
    kept like the others: its record is the listing data alone (tagged with
    the subcategory when there is one, without id or detail field), and
    the name of its file is made from the name of the candidate. *)
Theorem scrape_keeps_every_candidate (url category : string)
  (subcategory : option string) (files : Files) (text : Html)
  (politicians : list Candidate) :
  get_page session_get url = Some text ->
  is_empty text = false ->
  gather_politicians urljoin session_get text category = Ok politicians ->
  let records := map (detailed subcategory) politicians in
  let returned := List.filter (savable category) records in
  let files' := fold_left (written category) records files in
  scrape_leaders output_dir urljoin session_get writable int_max_str_digits
    url category subcategory files
  = (files', Ok returned)
  /\ forall before politician after,
       politicians = before ++ politician :: after ->
       let d := detailed subcategory politician in
       savable category d = true ->
       d ∈ returned
       /\ (Forall (fun q =>
                     politician_filename output_dir
                       (detailed subcategory q) category
                     <> politician_filename output_dir d category) after ->
           files' !! politician_filename output_dir d category = Some d)
       /\ (forall between q rest,
             after = between ++ q :: rest ->
             politician_filename output_dir (detailed subcategory q) category
             = politician_filename output_dir d category ->
             Forall (fun r =>
                       politician_filename output_dir
                         (detailed subcategory r) category
                       <> politician_filename output_dir d category) rest ->
             files' !! politician_filename output_dir d category
             = Some (detailed subcategory q))
       /\ (get_page session_get (profile_url politician) = None ->
           d = tag_subcategory subcategory (of_candidate politician)
           /\ politician_id d = None
           /\ politician_filename output_dir d category
              = path_join output_dir
                  [ category;
                    Str.filter (fun c => Str.isword c || Ascii.eqb c "-")
                      (Str.replace " " "-" (Str.lower (name politician)))
                    +:+ ".json" ]).
Proof.
  intros Hseed Hfull Hgather records returned files'. split.
  - unfold scrape_leaders. rewrite Hseed, Hfull, Hgather.
    by rewrite details_loop_spec.
  - intros before politician after Hsplit d Hsave. split; [|split; [|split]].
    + apply list_elem_of_In, filter_In. split; [|done].
      apply in_map, list_elem_of_In. rewrite Hsplit.
      apply elem_of_app. right. by left.
    + intros Hafter. unfold files', records. rewrite Hsplit, map_app. simpl.
      apply write_records_last; [done|]. by apply Forall_map.
    + intros between q rest Hafter Hname Hrest.
      unfold files', records. rewrite Hsplit, Hafter.
      replace (before ++ politician :: between ++ q :: rest)
        with ((before ++ politician :: between) ++ q :: rest)
        by by rewrite <- app_assoc.
      rewrite map_app. simpl. rewrite <- Hname.
      apply write_records_last.
      * unfold can_save in *. by rewrite Hname.
      * apply Forall_map. by rewrite Hname.
    + intros Hnone.
      destruct (detailed_record_unfetched subcategory politician Hnone)
        as (Hd & Hid & _).
      split_and!; [done|done|]. unfold d. rewrite Hd.
      unfold politician_filename, tag_subcategory.
      destruct subcategory as [sub|]; [destruct (Str.truthy sub)|]; done.
Qed.

(** When the pagination links of the seed page yield nothing, the scrape
    raises instead of returning, in both modes. *)
Lemma scrape_raises_without_pagination (url category : string)
  (subcategory : option string) (files : Files) (text : Html) :
  get_page session_get url = Some text ->
  is_empty text = false ->
  get_pagination_links urljoin text = Ok None ->
  scrape_leaders output_dir urljoin session_get writable int_max_str_digits
    url category subcategory files = (files, Raise TypeError)
  /\ scrape_leaders_threaded output_dir max_workers urljoin session_get writable
       int_max_str_digits schedule url category subcategory files
     = (files, Raise TypeError).
Proof.
  intros Hseed Hfull Hlinks.
  unfold scrape_leaders, scrape_leaders_threaded, gather_politicians.
  by rewrite Hseed, Hfull, Hlinks.
Qed.

(** *** The two modes *)

Lemma process_politician_spec (category : string) (subcategory : option string)
  (politician : Candidate) (files : Files) :
  process_politician output_dir session_get writable int_max_str_digits
    category subcategory politician files
  = (written category files (detailed subcategory politician),
     if savable category (detailed subcategory politician)
     then Some (detailed subcategory politician) else None).
Proof.
  unfold process_politician, save_politician_data, write_record, can_save.
  fold (detailed subcategory politician).
  by destruct (writable _).
Qed.

(** What the pool has recorded under each index when it is done: for an
    index of the order, what its task returns. *)
Lemma run_tasks_returned {A B : Type} (f : A -> Files -> Files * B)
  (w : Files -> A -> Files) (g : A -> B) (tasks : list A) (order : list nat)
  (files : Files) (returned : gmap nat B) (i : nat) :
  (forall task files, f task files = (w files task, g task)) ->
  (run_tasks f tasks order files returned).2 !! i
  = if decide (i ∈ order)
    then match tasks !! i with
         | Some task => Some (g task)
         | None => returned !! i
         end
    else returned !! i.
Proof.
  intros Hf. revert files returned.
  induction order as [|j rest IH]; intros files returned; simpl.
  - by destruct (decide (i ∈ [])) as [Hin|_]; [apply not_elem_of_nil in Hin|].
  - destruct (tasks !! j) as [task|] eqn:Hj.
    + rewrite Hf, IH.
      destruct (decide (i = j)) as [->|Hne].
      * rewrite Hj, lookup_insert_eq.
        destruct (decide (j ∈ rest)), (decide (j ∈ j :: rest)); set_solver.
      * rewrite lookup_insert_ne by done.
        destruct (decide (i ∈ rest)), (decide (i ∈ j :: rest)); set_solver.
    + rewrite IH.
      destruct (decide (i = j)) as [->|Hne].
      * rewrite Hj. by destruct (decide (j ∈ rest)), (decide (j ∈ j :: rest)).
      * destruct (decide (i ∈ rest)), (decide (i ∈ j :: rest)); set_solver.
Qed.

Lemma omap_lookup_seq {A B : Type} (g : A -> B) (m : gmap nat B)
  (tasks : list A) (k : nat) :
  (forall j task, tasks !! j = Some task -> m !! (k + j)%nat = Some (g task)) ->
  omap (fun i => m !! i) (seq k (length tasks)) = map g tasks.
Proof.
  revert k. induction tasks as [|task tasks IH]; intros k Hm; simpl; [done|].
  rewrite <- (Nat.add_0_r k) at 1. rewrite (Hm 0%nat task) by done.
  f_equal. apply IH. intros j task' Hj.
  replace (S k + j)%nat with (k + S j)%nat by lia. by apply Hm.
Qed.

(** [list(executor.map(f, tasks))] is the list of what the tasks return,
    in their order, whenever the pool completes each task once. *)
Lemma executor_map_results {A B : Type} (f : A -> Files -> Files * B)
  (w : Files -> A -> Files) (g : A -> B) (tasks : list A) (files : Files) :
  (forall n, schedule n ≡ₚ seq 0 n) ->
  (forall task files, f task files = (w files task, g task)) ->
  (executor_map schedule f tasks files).2 = map g tasks.
Proof.
  intros Hsched Hf. unfold executor_map.
  pose proof (fun i => run_tasks_returned f w g tasks
                         (schedule (length tasks)) files ∅ i Hf) as Hret.
  destruct (run_tasks f tasks (schedule (length tasks)) files ∅)
    as [files' returned]. simpl in *.
  apply omap_lookup_seq. intros j task Hj. simpl. rewrite Hret, Hj.
  destruct (decide (j ∈ schedule (length tasks))) as [_|Hout]; [done|].
  destruct Hout. rewrite (Hsched (length tasks)).
  apply elem_of_seq. apply lookup_lt_Some in Hj. lia.
Qed.

Lemma omap_saved (category : string) (ds : list Politician) :
  omap (fun p => p)
    (map (fun d => if savable category d then Some d else None) ds)
  = List.filter (savable category) ds.
Proof.
  induction ds as [|d ds IH]; simpl; [done|].
  destruct (savable category d); simpl; [f_equal|]; exact IH.
Qed.

(** C6, as amended. On the same responses, and with a positive number of
    workers, the concurrent mode returns what the sequential mode returns,
    whatever the order in which the pool completes its tasks: the same
    records, hence the same set of records by id, and here even in the same
    order, since [executor.map] yields its results in the order of the
    candidates. *)
Theorem threaded_returns_the_same_records (url category : string)
  (subcategory : option string) (files : Files) :
  (forall n, schedule n ≡ₚ seq 0 n) ->
  0 < max_workers ->
  (scrape_leaders_threaded output_dir max_workers urljoin session_get writable
     int_max_str_digits schedule url category subcategory files).2
  = (scrape_leaders output_dir urljoin session_get writable int_max_str_digits
       url category subcategory files).2.
Proof.
  intros Hsched Hworkers. unfold scrape_leaders_threaded, scrape_leaders.
  destruct (get_page session_get url) as [text|]; [|done].
  destruct (is_empty text); [done|].
  destruct (gather_politicians _ _ text category) as [politicians|e]; [|done].
  destruct (max_workers <=? 0) eqn:Hle; [apply Z.leb_le in Hle; lia|].
  rewrite details_loop_spec. simpl.
  pose proof (executor_map_results
                (process_politician output_dir session_get writable
                   int_max_str_digits category subcategory)
                (fun files p => written category files
                                  (detailed subcategory p))
                (fun p => if savable category (detailed subcategory p)
                          then Some (detailed subcategory p) else None)
                politicians files Hsched
                (fun p files => process_politician_spec category subcategory
                                  p files)) as Hmap.
  destruct (executor_map _ _ politicians files) as [files' results].
  simpl in *. rewrite Hmap.
  rewrite <- (omap_saved category (map (detailed subcategory) politicians)).
  by rewrite map_map.
Qed.

End Orchestrator.

(** C1, the claim refuted: of the five candidates of the senate listing,
    Carol C's detail page cannot be fetched, and she is neither dropped from
    the list returned nor left without a file: her record is the bare
    candidate, saved under a name made from hers. *)
Lemma failed_detail_fetch_counterexample :
  let carol := candidate "Carol C" "/person/carol-c/" in
  let run :=
    scrape_leaders "out" sample_urljoin sample_net (fun _ => true) 4300
      senate_url "senate" None ∅ in
  get_page sample_net (profile_url carol) = None
  /\ run.2 = Ok [ with_id (candidate "Amina A" "/person/amina-a/");
                  with_id (candidate "Brian B" "/person/brian-b/");
                  of_candidate carol;
                  with_id (candidate "David D" "/person/david-d/");
                  with_id (candidate "Esther E" "/person/esther-e/") ]
  /\ run.1 !! "out/senate/carol-c.json" = Some (of_candidate carol).
Proof. repeat split; vm_compute; reflexivity. Qed.

Lemma scrape_keeps_every_candidate_witness :
  scrape_leaders "out" sample_urljoin sample_net (fun _ => true) 4300
    senate_url "senate" None ∅
  = (fold_left (write_record "out" (fun _ => true) "senate")
       (map (detailed_record sample_net 4300 None) five_candidates) ∅,
     Ok (List.filter (can_save "out" (fun _ => true) "senate")
           (map (detailed_record sample_net 4300 None) five_candidates))).
Proof.
  refine (proj1 (scrape_keeps_every_candidate "out" sample_urljoin sample_net
                   (fun _ => true) 4300 senate_url "senate" None ∅
                   (listing_page five_cards []) five_candidates _ _ _));
    vm_compute; reflexivity.
Defined.

(** Two candidates with one file name: both are returned, and the file
    holds the record of the later one. *)
Example same_file_name_keeps_the_later_record :
  let ann := candidate "Ann B" "/person/x-1/" in
  let zed := candidate "Zed" "/person/ann-b/" in
  scrape_leaders "out" sample_urljoin colliding_net (fun _ => true) 4300
    senate_url "senate" None ∅
  = ({[ "out/senate/ann-b.json" := with_id zed ]},
     Ok [of_candidate ann; with_id zed]).
Proof. vm_compute. reflexivity. Qed.

(** C3, at a failing input. The senate listing is fetched at the first
    attempt and shows links to its pages 1 and 2: the link to page 1 makes
    [get_pagination_links] return [None], and iterating over it raises
    [TypeError] out of the scrape, in either mode, before any detail page is
    fetched or any file written. *)
Theorem scrape_raises_on_link_to_page_1 :
  get_page paginated_net senate_url
  = Some (listing_page five_cards
            [ "/parliament/senate/?page=1"; "/parliament/senate/?page=2" ])
  /\ scrape_leaders "out" sample_urljoin paginated_net (fun _ => true) 4300
       senate_url "senate" None ∅
     = (∅, Raise TypeError)
  /\ scrape_leaders_threaded "out" 5 sample_urljoin paginated_net
       (fun _ => true) 4300 reverse_schedule senate_url "senate" None ∅
     = (∅, Raise TypeError).
Proof. repeat split; vm_compute; reflexivity. Qed.

(** C6, the claim refuted: with no worker the pool cannot be built, and
    the concurrent mode raises where the sequential mode returns the five
    records. *)
Lemma threaded_counterexample :
  (scrape_leaders "out" sample_urljoin sample_net (fun _ => true) 4300
     senate_url "senate" None ∅).2
  = Ok (map (detailed_record sample_net 4300 None) five_candidates)
  /\ (scrape_leaders_threaded "out" 0 sample_urljoin sample_net (fun _ => true)
        4300 reverse_schedule senate_url "senate" None ∅).2
     = Raise ValueError.
Proof. split; vm_compute; reflexivity. Qed.

Lemma reverse_schedule_complete (n : nat) : reverse_schedule n ≡ₚ seq 0 n.
Proof. unfold reverse_schedule. symmetry. apply Permutation_rev. Qed.

Lemma threaded_returns_the_same_records_witness :
  (scrape_leaders_threaded "out" 5 sample_urljoin sample_net (fun _ => true)
     4300 reverse_schedule senate_url "senate" (Some "Migori") ∅).2
  = (scrape_leaders "out" sample_urljoin sample_net (fun _ => true) 4300
       senate_url "senate" (Some "Migori") ∅).2.
Proof.
  apply (threaded_returns_the_same_records "out" 5 sample_urljoin sample_net
           (fun _ => true) 4300 reverse_schedule).
  - exact reverse_schedule_complete.
  - reflexivity.
Defined.

(** * Further properties of the code *)

(** ** Fetcher *)


(** ** List extractor *)

Section Listing.

Context (urljoin : string -> string -> result string).

Lemma parse_card_spec (cat : string) (item : Card) (c : Candidate) :
  parse_card urljoin cat item = Ok (Some c) ->
  exists name_elem href,
    shujaa_details_a item = Some name_elem
    /\ anchor_href name_elem = Some href
    /\ name c = Str.strip (anchor_text name_elem)
    /\ urljoin base_url href = Ok (profile_url c)
    /\ position c = match shujaa_details_p item with
                    | Some text => Str.strip text
                    | None => "Unknown"
                    end
    /\ (forall k, constituency c = Some k ->
                  Str.contains "Member for" (position c) = true
                  /\ exists group1,
                       search_member_for (position c) = Some group1
                       /\ k = Str.strip group1)
    /\ category c = cat /\ county c = None
    /\ (forall u, image_url c = Some u ->
                  Str.endswith "default-person.jpg" u = false
                  /\ exists src, mp_pic_img item = Some (Some src)
                                 /\ urljoin base_url src = Ok u).
Proof.
  unfold parse_card, mbind, result_bind. intros H.
  destruct (shujaa_details_a item) as [name_elem|] eqn:Hname; [|done].
  destruct (anchor_href name_elem) as [href|] eqn:Hhref; [|done].
  destruct (urljoin base_url href) as [url|] eqn:Hurl; [|done].
  exists name_elem, href.
  set (pos := match shujaa_details_p item with
              | Some text => Str.strip text
              | None => "Unknown"
              end) in *.
  assert (forall image,
            match mp_pic_img item with
            | Some (Some src) =>
                match urljoin base_url src with
                | Ok image_url =>
                    if Str.endswith "default-person.jpg" image_url
                    then Ok None else Ok (Some image_url)
                | Raise e => Raise e
                end
            | _ => Ok None
            end = Ok image ->
            forall u, image = Some u ->
                      Str.endswith "default-person.jpg" u = false
                      /\ exists src, mp_pic_img item = Some (Some src)
                                     /\ urljoin base_url src = Ok u)
    as Himage.
  { intros image Hi u ->.
    destruct (mp_pic_img item) as [[src|]|]; [|done|done].
    destruct (urljoin base_url src) as [image_url|] eqn:Hsrc; [|done].
    destruct (Str.endswith _ image_url) eqn:Hdefault; [done|].
    injection Hi as ->. split; [done|]. by exists src. }
  destruct (match mp_pic_img item with
            | Some (Some src) => _
            | _ => _
            end) as [image|] eqn:Hi; [|done].
  injection H as <-. simpl. split_and!; try done.
  - intros k Hk. destruct (Str.contains "Member for" pos); [|done].
    split; [done|].
    destruct (search_member_for pos) as [group1|]; [|done].
    exists group1. split; [done|]. congruence.
  - by apply (Himage image).
Qed.

Lemma parse_cards_elem (cat : string) (items : list Card) (c : Candidate) :
  c ∈ parse_cards urljoin cat items ->
  exists item, item ∈ items /\ parse_card urljoin cat item = Ok (Some c).
Proof.
  induction items as [|item items IH]; simpl.
  - intros H. by apply not_elem_of_nil in H.
  - destruct (parse_card urljoin cat item) as [[c'|]|e] eqn:Hitem.
    + intros [-> | Hin]%elem_of_cons.
      * exists item. split; [left | done].
      * destruct (IH Hin) as (item' & Hin' & Hc). exists item'.
        split; [by right | done].
    + intros Hin. destruct (IH Hin) as (item' & Hin' & Hc). exists item'.
      split; [by right | done].
    + intros Hin. destruct (IH Hin) as (item' & Hin' & Hc). exists item'.
      split; [by right | done].
Qed.

(** X2. Every candidate that the list extractor returns comes from a card
    of the page that has a link with an href: its name is the stripped text
    of that link, its profile URL is what [urljoin] made of the base URL of
    the site and that href, its position is the stripped text of the
    paragraph of the card ("Unknown" without one), and a constituency is
    given only for a position that contains "Member for". It carries the
    category it was asked for and no county yet, and its image, when it
    has one, is what [urljoin] made of the src of the picture of the card
    and is never the placeholder picture. *)
Theorem listed_candidates_are_tagged (html : option Html) (cat : string)
  (c : Candidate) :
  c ∈ parse_politician_list_page urljoin html cat ->
  exists text item name_elem href,
    html = Some text
    /\ item ∈ mp_card (lxml text)
    /\ shujaa_details_a item = Some name_elem
    /\ anchor_href name_elem = Some href
    /\ name c = Str.strip (anchor_text name_elem)
    /\ urljoin base_url href = Ok (profile_url c)
    /\ position c = match shujaa_details_p item with
                    | Some text => Str.strip text
                    | None => "Unknown"
                    end
    /\ (forall k, constituency c = Some k ->
                  Str.contains "Member for" (position c) = true
                  /\ exists group1,
                       search_member_for (position c) = Some group1
                       /\ k = Str.strip group1)
    /\ category c = cat /\ county c = None
    /\ (forall u, image_url c = Some u ->
                  Str.endswith "default-person.jpg" u = false
                  /\ exists src, mp_pic_img item = Some (Some src)
                                 /\ urljoin base_url src = Ok u).
Proof.
  unfold parse_politician_list_page.
  destruct html as [text|]; [|by intros H; apply not_elem_of_nil in H].
  destruct (is_empty text); [by intros H; apply not_elem_of_nil in H|].
  intros (item & Hitem & Hc)%parse_cards_elem.
  destruct (parse_card_spec cat item c Hc) as (name_elem & href & Hspec).
  by exists text, item, name_elem, href.
Qed.

Lemma parse_cards_app (cat : string) (items more : list Card) :
  parse_cards urljoin cat (items ++ more)
  = parse_cards urljoin cat items ++ parse_cards urljoin cat more.
Proof.
  induction items as [|item items IH]; simpl; [done|].
  destruct (parse_card urljoin cat item) as [[c|]|e]; by rewrite IH.
Qed.

(** X3. The cards of a page are parsed independently: what the cards
    before and after a card yield does not depend on that card, whether it
    is parsed, skipped for want of a link, or dropped because parsing it
    raised; so the list has at most one candidate per card. *)
Theorem cards_are_parsed_independently (cat : string)
  (before after : list Card) (item : Card) :
  parse_cards urljoin cat (before ++ item :: after)
  = parse_cards urljoin cat before
    ++ match parse_card urljoin cat item with
       | Ok (Some c) => [c]
       | _ => []
       end
    ++ parse_cards urljoin cat after
  /\ (length (parse_cards urljoin cat (before ++ item :: after))
      <= length (before ++ item :: after))%nat.
Proof.
  split.
  - rewrite parse_cards_app. simpl.
    by destruct (parse_card urljoin cat item) as [[c|]|e].
  - generalize (before ++ item :: after). intros items.
    induction items as [|i items IH]; simpl; [done|].
    destruct (parse_card urljoin cat i) as [[c|]|e]; simpl; lia.
Qed.

(** ** Pagination links *)

(** Of two URLs of the result, the one that comes first is the one that
    occurs first in the list. *)
Lemma unique_in_order_first (seen : gset string) (page_urls : list string)
  (i j : nat) (x y : string) :
  unique_in_order seen page_urls !! i = Some x ->
  unique_in_order seen page_urls !! j = Some y ->
  (i < j)%nat ->
  exists k,
    page_urls !! k = Some x
    /\ (x ∉ take k page_urls)
    /\ (y ∉ take (S k) page_urls).
Proof.
  revert seen i j. induction page_urls as [|u us IH]; intros seen i j;
    cbn [unique_in_order]; [done|].
  destruct (decide (u ∈ seen)) as [Hin|Hout].
  - intros Hx Hy Hlt.
    destruct (IH seen i j Hx Hy Hlt) as (k & Hk & Hxk & Hyk).
    apply list_elem_of_lookup_2 in Hx, Hy.
    apply (unique_in_order_spec urljoin) in Hx as [_ Hx], Hy as [_ Hy].
    exists (S k). split; [done|]. cbn [take].
    split; apply not_elem_of_cons; (split; [congruence|done]).
  - destruct i as [|i], j as [|j]; try lia.
    + intros [= <-] Hy _. cbn [lookup list_lookup] in Hy.
      apply list_elem_of_lookup_2, (unique_in_order_spec urljoin) in Hy
        as [_ Hy].
      exists 0%nat. split; [done|]. split; [apply not_elem_of_nil|].
      cbn [take]. apply not_elem_of_cons. split; [|apply not_elem_of_nil].
      intros ->. apply Hy, elem_of_union_l. by apply elem_of_singleton.
    + intros Hx Hy Hlt. cbn [lookup list_lookup] in Hx, Hy.
      destruct (IH ({[u]} ∪ seen) i j Hx Hy ltac:(lia)) as (k & Hk & Hxk & Hyk).
      apply list_elem_of_lookup_2, (unique_in_order_spec urljoin) in Hx
        as [_ Hx].
      apply list_elem_of_lookup_2, (unique_in_order_spec urljoin) in Hy
        as [_ Hy].
      exists (S k). split; [done|]. cbn [take].
      split; apply not_elem_of_cons; (split; [|done]); intros ->.
      * apply Hx, elem_of_union_l. by apply elem_of_singleton.
      * apply Hy, elem_of_union_l. by apply elem_of_singleton.
Qed.

Lemma get_pagination_links_some (html : Html) (urls : list string) :
  get_pagination_links urljoin html = Ok (Some urls) ->
  exists first_page page_urls,
    urljoin base_url "/parliament/national_assembly/" = Ok first_page
    /\ collect_page_urls urljoin (number_box (lxml html)) = Ok page_urls
    /\ existsb (Str.contains "page=1") page_urls = false
    /\ urls = unique_in_order ∅ (first_page :: page_urls).
Proof.
  unfold get_pagination_links, mbind, result_bind.
  destruct (collect_page_urls urljoin _) as [page_urls|e]; [|done].
  destruct (existsb _ page_urls) eqn:Hany; [done|]. cbn [negb].
  destruct (urljoin base_url _) as [first_page|e]; [|done].
  intros [= <-]. by exists first_page, page_urls.
Qed.

(** X4. Whenever [get_pagination_links] returns a list, the list starts
    with the synthesized first page, has no duplicates, holds exactly the
    first page and the collected URLs, and keeps them in the order of
    their first occurrence: of two URLs of the list, the earlier one
    occurs in the collected list (headed by the first page) before any
    occurrence of the later one. No collected URL contains "page=1". *)
Theorem returned_page_urls_are_unique (html : Html) (urls : list string) :
  get_pagination_links urljoin html = Ok (Some urls) ->
  exists first_page page_urls,
    urljoin base_url "/parliament/national_assembly/" = Ok first_page
    /\ collect_page_urls urljoin (number_box (lxml html)) = Ok page_urls
    /\ head urls = Some first_page
    /\ NoDup urls
    /\ (forall u, u ∈ urls <-> u = first_page \/ u ∈ page_urls)
    /\ (forall i j x y,
          urls !! i = Some x -> urls !! j = Some y -> (i < j)%nat ->
          exists k,
            (first_page :: page_urls) !! k = Some x
            /\ (x ∉ take k (first_page :: page_urls))
            /\ (y ∉ take (S k) (first_page :: page_urls)))
    /\ forall u, u ∈ page_urls -> Str.contains "page=1" u = false.
Proof.
  intros (first_page & page_urls & Hfirst & Hcollect & Hany & ->)
    %get_pagination_links_some.
  exists first_page, page_urls.
  pose proof (unique_in_order_spec urljoin ∅ (first_page :: page_urls))
    as [Hnd Hmem].
  assert (head (unique_in_order ∅ (first_page :: page_urls)) = Some first_page)
    as Hhead.
  { simpl. by destruct (decide (first_page ∈ (∅ : gset string))) as [Hin|_];
      [set_solver|]. }
  split_and!; try done.
  - intros u. rewrite Hmem, elem_of_cons. set_solver.
  - intros i j x y. apply unique_in_order_first.
  - intros u Hin. apply not_true_is_false. intros Hu.
    assert (existsb (Str.contains "page=1") page_urls = true) as Hex.
    { apply existsb_exists. exists u.
      split; [by apply list_elem_of_In | done]. }
    congruence.
Qed.

(** ** Gathering the candidates of a category *)

Context (session_get : string -> nat -> option Html).

Lemma process_additional_pages_spec (cat : string) (urls : list string)
  (politicians : list Candidate) :
  process_additional_pages urljoin session_get cat urls politicians
  = politicians
    ++ concat (map (fun page_url =>
                      parse_politician_list_page urljoin
                        (get_page session_get page_url) cat) urls).
Proof.
  revert politicians. induction urls as [|u urls IH]; intros ps; simpl.
  - by rewrite app_nil_r.
  - by rewrite IH, <- app_assoc.
Qed.

(** X5. The candidates of a category are those of the seed page followed
    by those of each pagination URL in turn; a page that cannot be fetched
    adds nothing and does not stop the traversal. *)
Theorem additional_pages_are_appended (cat : string) (urls : list string)
  (politicians : list Candidate) :
  process_additional_pages urljoin session_get cat urls politicians
  = politicians
    ++ concat (map (fun page_url =>
                      parse_politician_list_page urljoin
                        (get_page session_get page_url) cat) urls)
  /\ (forall before url after,
        urls = before ++ url :: after ->
        get_page session_get url = None ->
        process_additional_pages urljoin session_get cat urls politicians
        = process_additional_pages urljoin session_get cat (before ++ after)
            politicians).
Proof.
  split; [apply process_additional_pages_spec|].
  intros before url after -> Hnone. rewrite !process_additional_pages_spec.
  rewrite !map_app, !concat_app. simpl. by rewrite Hnone.
Qed.

(** X6. When the list of pagination URLs holds the URL of the seed page
    itself, as it does for the national-assembly listing, whose URL is the
    synthesized first page, the seed page is fetched and parsed a second
    time and its candidates are gathered twice. *)
Theorem seed_page_is_gathered_twice (url cat : string) (text : Html)
  (urls : list string) :
  get_page session_get url = Some text ->
  get_pagination_links urljoin text = Ok (Some urls) ->
  url ∈ urls ->
  exists between after,
    gather_politicians urljoin session_get text cat
    = Ok (parse_politician_list_page urljoin (Some text) cat
          ++ between
          ++ parse_politician_list_page urljoin (Some text) cat
          ++ after).
Proof.
  intros Hseed Hlinks Hin.
  apply list_elem_of_split in Hin as (before & after & ->).
  unfold gather_politicians. rewrite Hlinks. simpl.
  rewrite process_additional_pages_spec, map_app, concat_app. simpl.
  rewrite Hseed. do 2 eexists. reflexivity.
Qed.

End Listing.

Lemma listed_candidates_are_tagged_witness :
  let c := candidate "Carol C" "/person/carol-c/" in
  exists text item name_elem href,
    Some (listing_page five_cards []) = Some text
    /\ item ∈ mp_card (lxml text)
    /\ shujaa_details_a item = Some name_elem
    /\ anchor_href name_elem = Some href
    /\ name c = Str.strip (anchor_text name_elem)
    /\ sample_urljoin base_url href = Ok (profile_url c)
    /\ position c = match shujaa_details_p item with
                    | Some text => Str.strip text
                    | None => "Unknown"
                    end
    /\ (forall k, constituency c = Some k ->
                  Str.contains "Member for" (position c) = true
                  /\ exists group1,
                       search_member_for (position c) = Some group1
                       /\ k = Str.strip group1)
    /\ category c = "senate" /\ county c = None
    /\ (forall u, image_url c = Some u ->
                  Str.endswith "default-person.jpg" u = false
                  /\ exists src, mp_pic_img item = Some (Some src)
                                 /\ sample_urljoin base_url src = Ok u).
Proof.
  apply (listed_candidates_are_tagged sample_urljoin
           (Some (listing_page five_cards [])) "senate").
  vm_compute. do 2 right. left.
Defined.

Lemma returned_page_urls_witness :
  let urls := [ national_assembly_url;
                "https://mzalendo.com/parliament/senate/?page=2";
                "https://mzalendo.com/parliament/senate/?page=3" ] in
  exists first_page page_urls,
    sample_urljoin base_url "/parliament/national_assembly/" = Ok first_page
    /\ collect_page_urls sample_urljoin (number_box (lxml listing_2_3_2))
       = Ok page_urls
    /\ head urls = Some first_page
    /\ NoDup urls
    /\ (forall u, u ∈ urls <-> u = first_page \/ u ∈ page_urls)
    /\ (forall i j x y,
          urls !! i = Some x -> urls !! j = Some y -> (i < j)%nat ->
          exists k,
            (first_page :: page_urls) !! k = Some x
            /\ (x ∉ take k (first_page :: page_urls))
            /\ (y ∉ take (S k) (first_page :: page_urls)))
    /\ forall u, u ∈ page_urls -> Str.contains "page=1" u = false.
Proof.
  apply (returned_page_urls_are_unique sample_urljoin listing_2_3_2).
  vm_compute. reflexivity.
Defined.

Lemma seed_page_is_gathered_twice_witness :
  exists between after,
    gather_politicians sample_urljoin national_net
      (listing_page five_cards []) "national_assembly"
    = Ok (parse_politician_list_page sample_urljoin
            (Some (listing_page five_cards [])) "national_assembly"
          ++ between
          ++ parse_politician_list_page sample_urljoin
               (Some (listing_page five_cards [])) "national_assembly"
          ++ after).
Proof.
  apply (seed_page_is_gathered_twice sample_urljoin national_net
           national_assembly_url "national_assembly"
           (listing_page five_cards []) [national_assembly_url]).
  - reflexivity.
  - vm_compute. reflexivity.
  - left.
Defined.

(** ** File names and ids *)

Lemma filter_all_chars (f : ascii -> bool) (s : string) :
  all_chars f (Str.filter f s) = true.
Proof.
  induction s as [|c s IH]; simpl; [done|].
  destruct (f c) eqn:Hc; simpl; [by rewrite Hc|done].
Qed.

Lemma safe_char_not_slash (c : ascii) :
  safe_char c = true -> Ascii.eqb "/" c = false.
Proof.
  intros H. destruct (Ascii.eqb_spec "/" c) as [<-|]; [|done].
  by vm_compute in H.
Qed.

Lemma safe_chars_no_slash (s : string) :
  all_chars safe_char s = true -> Str.contains "/" s = false.
Proof.
  induction s as [|c s IH]; [done|].
  cbn [all_chars Str.contains Str.startswith].
  intros [Hc Hs]%andb_prop.
  by rewrite (safe_char_not_slash c Hc), IH.
Qed.

Lemma filter_chars (f : ascii -> bool) (s : string) :
  list_ascii_of_string (Str.filter f s)
  = List.filter f (list_ascii_of_string s).
Proof.
  induction s as [|c s IH]; simpl; [done|].
  destruct (f c); simpl; by rewrite IH.
Qed.

Lemma filter_all (f : ascii -> bool) (s : string) :
  all_chars f s = true -> Str.filter f s = s.
Proof.
  induction s as [|c s IH]; simpl; [done|].
  intros [-> Hs]%andb_prop. by rewrite IH.
Qed.

(** X7. The file of a record lies directly in the directory of its
    category. Its name is the sanitised id followed by ".json", where the
    id is the id of the record or, for a record without id, its name in
    lower case with a hyphen for each space, and sanitising keeps the word
    characters and hyphens of the id, in order, and drops every other
    character. So the name has no slash, an id of word characters and
    hyphens is its own file name, and the name is appended to the path of
    the directory with at most one slash in between. *)
Theorem record_file_is_in_category_directory (output_dir : string)
  (d : Politician) (cat : string) :
  let id :=
    match politician_id d with
    | Some id => id
    | None => Str.replace " " "-" (Str.lower (name (info d)))
    end in
  exists safe_id,
    list_ascii_of_string safe_id
    = List.filter safe_char (list_ascii_of_string id)
    /\ Str.contains "/" safe_id = false
    /\ (all_chars safe_char id = true -> safe_id = id)
    /\ let directory := path_join output_dir [cat] in
       politician_filename output_dir d cat
       = if negb (Str.truthy directory) || Str.endswith "/" directory
         then directory +:+ safe_id +:+ ".json"
         else directory +:+ "/" +:+ safe_id +:+ ".json".
Proof.
  intros id. unfold politician_filename. fold id. fold safe_char.
  exists (Str.filter safe_char id).
  pose proof (filter_all_chars safe_char id) as Hsafe.
  split_and!.
  - apply filter_chars.
  - by apply safe_chars_no_slash.
  - apply filter_all.
  - unfold path_join. simpl. unfold path_join2 at 1.
    assert (Str.startswith "/" (Str.filter safe_char id +:+ ".json") = false)
      as ->; [|done].
    destruct (Str.filter safe_char id) as [|c s]; [done|].
    cbn [all_chars] in Hsafe. apply andb_prop in Hsafe as [Hc _].
    change (String c s +:+ ".json") with (String c (s +:+ ".json")).
    cbn [Str.startswith].
    by rewrite (safe_char_not_slash c Hc).
Qed.

Lemma append_cons (c : ascii) (s t : string) :
  String c s +:+ t = String c (s +:+ t).
Proof. reflexivity. Qed.

Lemma append_assoc (s t u : string) : (s +:+ t) +:+ u = s +:+ (t +:+ u).
Proof. induction s as [|c s IH]; [done|]. by rewrite !append_cons, IH. Qed.

Lemma append_empty_r (s : string) : s +:+ EmptyString = s.
Proof. induction s as [|c s IH]; [done|]. by rewrite append_cons, IH. Qed.

Lemma rev_acc_app (s acc : string) :
  Str.rev_acc s acc = Str.rev_acc s EmptyString +:+ acc.
Proof.
  revert acc. induction s as [|c s IH]; intros acc; simpl; [done|].
  rewrite (IH (String c acc)), (IH (String c EmptyString)).
  by rewrite append_assoc.
Qed.

Lemma rev_app (s t : string) : Str.rev (s +:+ t) = Str.rev t +:+ Str.rev s.
Proof.
  unfold Str.rev. induction s as [|c s IH].
  - by rewrite append_empty_r.
  - rewrite append_cons. simpl.
    rewrite rev_acc_app, IH, (rev_acc_app s (String c EmptyString)).
    by rewrite append_assoc.
Qed.

Lemma rev_involutive (s : string) : Str.rev (Str.rev s) = s.
Proof.
  induction s as [|c s IH]; [done|].
  change (String c s) with (String c EmptyString +:+ s) at 1.
  rewrite rev_app, rev_app, IH. done.
Qed.

Lemma split_head (sep : ascii) (s : string) :
  exists w ws post,
    Str.split sep s = w :: ws /\ s = w +:+ post
    /\ Str.contains (String sep EmptyString) w = false.
Proof.
  induction s as [|c s (w & ws & post & Hs & Hpost & Hno)]; simpl.
  - by exists EmptyString, [], EmptyString.
  - destruct (Ascii.eqb c sep) eqn:Hc.
    + by exists EmptyString, (Str.split sep s), (String c s).
    + rewrite Hs. exists (String c w), ws, post. split; [done|].
      split; [by rewrite append_cons, <- Hpost|].
      cbn [Str.contains Str.startswith]. by rewrite Ascii.eqb_sym, Hc.
Qed.

Lemma split_parts (sep : ascii) (s w : string) :
  w ∈ Str.split sep s ->
  Str.contains (String sep EmptyString) w = false /\ occurs_in w s.
Proof.
  revert w. induction s as [|c s IH]; intros w; simpl.
  - intros ->%list_elem_of_singleton. split; [done|].
    by exists EmptyString, EmptyString.
  - destruct (Ascii.eqb c sep) eqn:Hc.
    + intros [-> | Hin]%elem_of_cons.
      * split; [done|]. by exists EmptyString, (String c s).
      * destruct (IH w Hin) as [Hno (p & q & ->)]. split; [done|].
        by exists (String c p), q.
    + destruct (split_head sep s) as (w0 & ws & post & Hs & Hpost & Hno).
      rewrite Hs in *.
      intros [-> | Hin]%elem_of_cons.
      * split.
        -- cbn [Str.contains Str.startswith]. by rewrite Ascii.eqb_sym, Hc.
        -- exists EmptyString, post. by rewrite append_cons, <- Hpost.
      * destruct (IH w) as [Hno' (p & q & Hq)]; [by right|].
        split; [done|]. exists (String c p), q. by rewrite append_cons, <- Hq.
Qed.

Lemma last_elem_of (l : list string) (d : string) :
  l <> [] -> List.last l d ∈ l.
Proof.
  induction l as [|x [|y l] IH]; [done| |]; intros _.
  - by left.
  - right. by apply IH.
Qed.

(** The first character of [s], if any, does not satisfy [f]. *)
Lemma lstrip_by_split (f : ascii -> bool) (s : string) :
  exists pre,
    s = pre +:+ Str.lstrip_by f s
    /\ all_chars f pre = true
    /\ match Str.lstrip_by f s with
       | String c _ => f c = false
       | EmptyString => True
       end.
Proof.
  induction s as [|c s (pre & IH & Hpre & Hhead)]; simpl.
  - by exists EmptyString.
  - destruct (f c) eqn:Hc.
    + exists (String c pre). rewrite append_cons, <- IH. simpl.
      by rewrite Hc, Hpre.
    + by exists EmptyString.
Qed.

Lemma all_chars_app (f : ascii -> bool) (s t : string) :
  all_chars f (s +:+ t) = all_chars f s && all_chars f t.
Proof.
  induction s as [|c s IH]; [done|].
  rewrite append_cons. simpl. by rewrite IH, andb_assoc.
Qed.

Lemma rev_cons (c : ascii) (s : string) :
  Str.rev (String c s) = Str.rev s +:+ String c EmptyString.
Proof. unfold Str.rev. simpl. by rewrite rev_acc_app. Qed.

Lemma all_chars_rev (f : ascii -> bool) (s : string) :
  all_chars f (Str.rev s) = all_chars f s.
Proof.
  induction s as [|c s IH]; [done|].
  rewrite rev_cons, all_chars_app, IH. simpl.
  by rewrite andb_true_r, andb_comm.
Qed.

Lemma startswith_app (p s t : string) :
  Str.startswith p s = true -> Str.startswith p (s +:+ t) = true.
Proof.
  revert s. induction p as [|a p IH]; intros [|b s]; simpl; try done.
  intros [-> Hp]%andb_prop. by rewrite IH.
Qed.

Lemma endswith_cons (p : string) (c : ascii) (s : string) :
  Str.endswith p s = true -> Str.endswith p (String c s) = true.
Proof. unfold Str.endswith. rewrite rev_cons. apply startswith_app. Qed.

(** A string with its stripped part in the middle. *)
Lemma strip_by_split (f : ascii -> bool) (s : string) :
  exists leading trailing,
    s = leading +:+ Str.strip_by f s +:+ trailing
    /\ all_chars f leading = true
    /\ all_chars f trailing = true
    /\ match Str.strip_by f s with
       | String c _ => f c = false
       | EmptyString => True
       end
    /\ match Str.rev (Str.strip_by f s) with
       | String c _ => f c = false
       | EmptyString => True
       end.
Proof.
  unfold Str.strip_by.
  destruct (lstrip_by_split f s) as (pre & Hs & Hpre & Hhead).
  destruct (lstrip_by_split f (Str.rev (Str.lstrip_by f s)))
    as (pre2 & Ht & Hpre2 & Hhead2).
  set (t := Str.lstrip_by f s) in *.
  set (u := Str.lstrip_by f (Str.rev t)) in *.
  assert (t = Str.rev u +:+ Str.rev pre2) as Htu.
  { rewrite <- (rev_involutive t), Ht. apply rev_app. }
  exists pre, (Str.rev pre2). split_and!.
  - by rewrite Hs, Htu.
  - done.
  - by rewrite all_chars_rev.
  - rewrite Htu in Hhead. by destruct (Str.rev u).
  - by rewrite rev_involutive.
Qed.

(** A string ends with the last of the parts it splits into, and what
    comes before is empty or ends with the separator. *)
Lemma split_last (sep : ascii) (s : string) :
  exists pre,
    s = pre +:+ last_part (Str.split sep s)
    /\ ((pre = EmptyString /\ Str.split sep s = [s])
        \/ (Str.endswith (String sep EmptyString) pre = true
            /\ (2 <= length (Str.split sep s))%nat)).
Proof.
  unfold last_part.
  induction s as [|c s (pre & Hs & Hpre)]; simpl.
  - exists EmptyString. split; [done|]. by left.
  - destruct (split_head sep s) as (w & ws & _ & Hsplit & _).
    destruct (Ascii.eqb_spec c sep) as [->|Hne].
    + exists (String sep pre). rewrite Hsplit in *. split.
      * rewrite append_cons. by f_equal.
      * right. split; [|simpl; lia].
        destruct Hpre as [[-> _] | [Hend _]]; [|by apply endswith_cons].
        unfold Str.endswith. simpl. by rewrite Ascii.eqb_refl.
    + rewrite Hsplit in *. destruct Hpre as [[-> Hone] | [Hend Hlen]].
      * exists EmptyString. injection Hone as -> ->. split; [done|]. by left.
      * exists (String c pre). destruct ws as [|w' ws]; [simpl in Hlen; lia|].
        split.
        -- rewrite append_cons. by f_equal.
        -- right. split; [by apply endswith_cons | done].
Qed.

Lemma head_not_slash (s : string) :
  match s with
  | String c _ => Ascii.eqb "/" c = false
  | EmptyString => True
  end ->
  Str.startswith "/" s = false.
Proof. destruct s as [|c s]; simpl; [done|]. by intros ->. Qed.

Lemma last_segment_of_url (url : string) :
  last_segment
    (last_part (Str.split "/" (Str.strip_char "/" url))) url.
Proof.
  unfold Str.strip_char.
  destruct (strip_by_split (Ascii.eqb "/") url)
    as (leading & trailing & Hurl & Hleading & Htrailing & Hhead & Hlast).
  set (stripped := Str.strip_by (Ascii.eqb "/") url) in *.
  destruct (split_last "/" stripped) as (pre & Hstripped & Hpre).
  exists leading, pre, trailing. rewrite <- Hstripped. split_and!; try done.
  - by apply head_not_slash.
  - unfold Str.endswith. by apply head_not_slash.
  - destruct Hpre as [[-> _] | [Hend _]]; [by left | by right].
  - apply (split_parts "/" stripped). apply last_elem_of.
    by destruct (split_head "/" stripped) as (w & ws & _ & -> & _).
Qed.

Section Identity.

Context (int_max_str_digits : nat).

(** The sections leave the id and the data of the candidate alone, the
    county apart. *)
Lemma detail_sections_keep_candidate (soup : DetailSoup) (d0 : Politician) :
  let d' := try_sections (detail_sections int_max_str_digits soup) d0 in
  politician_id d' = politician_id d0
  /\ subcategory d' = subcategory d0
  /\ name (info d') = name (info d0)
  /\ position (info d') = position (info d0)
  /\ constituency (info d') = constituency (info d0)
  /\ profile_url (info d') = profile_url (info d0)
  /\ image_url (info d') = image_url (info d0)
  /\ category (info d') = category (info d0).
Proof.
  apply (try_sections_inv
           (fun d => politician_id d = politician_id d0
                     /\ subcategory d = subcategory d0
                     /\ name (info d) = name (info d0)
                     /\ position (info d) = position (info d0)
                     /\ constituency (info d) = constituency (info d0)
                     /\ profile_url (info d) = profile_url (info d0)
                     /\ image_url (info d) = image_url (info d0)
                     /\ category (info d) = category (info d0)));
    [done|].
  unfold detail_sections. repeat apply Forall_cons_2; try apply Forall_nil_2;
    intros d d' HP Hs; by_shape Hs; done.
Qed.

(** X8. The id of a record parsed from a page that is not empty is the
    last segment of the profile URL of the candidate: with the slashes at
    the two ends of the URL removed, it is what follows the last slash
    (the whole when no slash is left), so it has no slash itself. Every
    field of the listing but the county is as the listing gave it, and no
    subcategory is assigned by the extractor. *)
Theorem parsed_id_is_last_url_segment (text : Html) (basic_info : Candidate) :
  is_empty text = false ->
  let parsed :=
    parse_politician_detail_page int_max_str_digits (Some text) basic_info in
  (exists id,
     politician_id parsed = Some id
     /\ last_segment id (profile_url basic_info))
  /\ name (info parsed) = name basic_info
  /\ position (info parsed) = position basic_info
  /\ constituency (info parsed) = constituency basic_info
  /\ profile_url (info parsed) = profile_url basic_info
  /\ image_url (info parsed) = image_url basic_info
  /\ category (info parsed) = category basic_info
  /\ subcategory parsed = None.
Proof.
  intros Hfull parsed.
  unfold parsed, parse_politician_detail_page. rewrite Hfull.
  destruct (detail_sections_keep_candidate (html_parser text)
              (set_id (last_part (Str.split "/"
                         (Str.strip_char "/" (profile_url basic_info))))
                 (of_candidate basic_info)))
    as (Hid & Hsub & Hname & Hpos & Hcon & Hurl & Himg & Hcat).
  split_and!; try done.
  eexists. split; [exact Hid|]. apply last_segment_of_url.
Qed.

End Identity.

Lemma parsed_id_witness :
  let jane := candidate "Jane Doe" "/person/jane-doe/" in
  let parsed :=
    parse_politician_detail_page 4300 (Some profile_with_experience_class)
      jane in
  (exists id,
     politician_id parsed = Some id
     /\ last_segment id (profile_url jane))
  /\ name (info parsed) = name jane
  /\ position (info parsed) = position jane
  /\ constituency (info parsed) = constituency jane
  /\ profile_url (info parsed) = profile_url jane
  /\ image_url (info parsed) = image_url jane
  /\ category (info parsed) = category jane
  /\ subcategory parsed = None.
Proof.
  apply (parsed_id_is_last_url_segment 4300 profile_with_experience_class
           (candidate "Jane Doe" "/person/jane-doe/")).
  reflexivity.
Defined.

(** The id of a profile at [/person/jane-doe/] is [jane-doe]. *)
Example id_of_sample_profile :
  politician_id
    (parse_politician_detail_page 4300 (Some profile_with_experience_class)
       (candidate "Jane Doe" "/person/jane-doe/"))
  = Some "jane-doe".
Proof. vm_compute. reflexivity. Qed.

(** ** What the detail extractor stores *)

Ltac unfold_result := unfold mbind, result_bind, mret, result_ret in *.

Section Stored.

Context (int_max_str_digits : nat).

Lemma election_data_no_empty (soup : DetailSoup) (d d' : Politician) :
  no_empty_field d ->
  election_data int_max_str_digits soup d = Ok d' -> no_empty_field d'.
Proof.
  unfold election_data, no_empty_field. intros HQ Hs. unfold_result.
  repeat (case_match; simplify_eq/=); destruct_and?; split_and?;
    first [done | congruence].
Qed.

Lemma contact_information_no_empty (soup : DetailSoup) (d d' : Politician) :
  no_empty_field d -> contact_information soup d = Ok d' -> no_empty_field d'.
Proof.
  unfold contact_information, no_empty_field. intros HQ Hs.
  repeat (case_match; simplify_eq/=); destruct_and?; split_and?; try done;
    intros c' [= <-]; simpl; split_and?; congruence.
Qed.

Lemma experience_and_education_no_empty (soup : DetailSoup)
  (d d' : Politician) :
  no_empty_field d ->
  experience_and_education soup d = Ok d' -> no_empty_field d'.
Proof.
  unfold experience_and_education, no_empty_field. intros HQ Hs.
  repeat (case_match; simplify_eq/=); destruct_and?; split_and?;
    first [done | congruence].
Qed.

Lemma committees_membership_no_empty (soup : DetailSoup) (d d' : Politician) :
  no_empty_field d -> committees_membership soup d = Ok d' -> no_empty_field d'.
Proof.
  unfold committees_membership, no_empty_field. intros HQ Hs.
  repeat (case_match; simplify_eq/=); destruct_and?; split_and?;
    first [done | congruence].
Qed.

Lemma key_achievements_no_empty (d d' : Politician) :
  no_empty_field d -> key_achievements d = Ok d' -> no_empty_field d'.
Proof.
  unfold key_achievements, no_empty_field. intros HQ Hs.
  repeat (case_match; simplify_eq/=); destruct_and?; split_and?;
    first [done | congruence].
Qed.

(** X9. A key of a parsed record is present only when it holds something:
    no list of the record (education, positions, promises, attendance,
    committees, keyAchievements, phone) is empty, and neither is the
    election, the contact or the socialMedia dict. This holds of every
    result, also when a section raised and the block was left early. *)
Theorem parsed_record_has_no_empty_field (html : option Html)
  (basic_info : Candidate) :
  no_empty_field
    (parse_politician_detail_page int_max_str_digits html basic_info).
Proof.
  unfold parse_politician_detail_page.
  destruct html as [text|]; [|by unfold no_empty_field].
  destruct (is_empty text); [by unfold no_empty_field|].
  apply try_sections_inv; [by unfold no_empty_field|].
  unfold detail_sections. repeat apply Forall_cons_2; try apply Forall_nil_2;
    intros d d' HP Hs.
  - by_shape Hs; done.
  - by_shape Hs; done.
  - by eapply election_data_no_empty.
  - by eapply contact_information_no_empty.
  - by eapply experience_and_education_no_empty.
  - by_shape Hs; [done|]. unfold no_empty_field in *. simpl.
    destruct_and?; split_and?; try done. congruence.
  - by_shape Hs; [done|]. unfold no_empty_field in *. simpl.
    destruct_and?; split_and?; try done. congruence.
  - by eapply committees_membership_no_empty.
  - by_shape Hs; done.
  - by eapply key_achievements_no_empty.
Qed.

End Stored.

Section Entries.

Context (int_max_str_digits : nat).

Lemma education_loop_long (entries : list EducationEntry) :
  Forall (fun e => (5 < String.length e)%nat) (education_loop entries).
Proof.
  induction entries as [|entry rest IH]; simpl; [done|].
  case_match; [|done].
  apply Forall_cons. split; [|done].
  apply andb_prop in H as [_ Hlen]. by apply Nat.ltb_lt in Hlen.
Qed.

Lemma positions_loop_ok (entries : list PositionEntry) :
  Forall (fun p => Str.truthy (title p) = true
                   /\ forall text, date p = Some text -> Str.truthy text = true)
    (positions_loop entries).
Proof.
  induction entries as [|entry rest IH]; simpl; [done|].
  destruct (Str.truthy (Str.strip _)) eqn:Htitle; simpl; [|done].
  apply Forall_cons. split; [|done]. simpl. split; [done|].
  intros text Hdate. repeat case_match; by simplify_eq.
Qed.

Lemma committees_loop_ok (entries : list string) :
  Forall (fun c => Str.truthy c = true) (committees_loop entries).
Proof.
  induction entries as [|entry rest IH]; simpl; [done|].
  destruct (Str.truthy (Str.strip entry)) eqn:Htext; [|done].
  by apply Forall_cons.
Qed.

Lemma experience_and_education_entries (soup : DetailSoup)
  (d d' : Politician) :
  entries_ok d -> experience_and_education soup d = Ok d' -> entries_ok d'.
Proof.
  unfold experience_and_education, entries_ok. intros (He & Hp & Hc) Hs.
  destruct (experience_id soup) as [section|];
    [|case_match; by simplify_eq].
  pose proof (education_loop_long
                (or_list (education_entry section) (education_class section)))
    as Heducation.
  pose proof (positions_loop_ok
                (or_list (position_entry section) (position_class section)))
    as Hpositions.
  destruct (education_loop _), (positions_loop _); simplify_eq;
    split_and?; try done; by intros ? [= <-].
Qed.

Lemma committees_membership_entries (soup : DetailSoup) (d d' : Politician) :
  entries_ok d -> committees_membership soup d = Ok d' -> entries_ok d'.
Proof.
  unfold committees_membership, entries_ok. intros (He & Hp & Hc) Hs.
  destruct (or_else _ _) as [section|]; [|by simplify_eq].
  pose proof (committees_loop_ok
                (or_list (committee_class section) (li_elems section)))
    as Hcommittees.
  destruct (committees_loop _); simplify_eq; split_and?; try done;
    by intros ? [= <-].
Qed.

(** X10. The texts a parsed record lists passed the tests of their loops:
    every education entry is longer than five characters, every position
    has a title that is not empty and a date that is not empty when it has
    one, and no committee name is empty. *)
Theorem parsed_entries_are_not_blank (html : option Html)
  (basic_info : Candidate) :
  entries_ok (parse_politician_detail_page int_max_str_digits html basic_info).
Proof.
  unfold parse_politician_detail_page.
  destruct html as [text|]; [|by unfold entries_ok].
  destruct (is_empty text); [by unfold entries_ok|].
  apply try_sections_inv; [by unfold entries_ok|].
  unfold detail_sections. repeat apply Forall_cons_2; try apply Forall_nil_2;
    intros d d' HP Hs.
  - by_shape Hs; done.
  - by_shape Hs; done.
  - by_shape Hs; done.
  - by_shape Hs; done.
  - by eapply experience_and_education_entries.
  - by_shape Hs; done.
  - by_shape Hs; done.
  - by eapply committees_membership_entries.
  - by_shape Hs; done.
  - by_shape Hs; done.
Qed.

(** *** Promises *)

Lemma to_int_not_nil (z : Z) :
  Z.to_int z <> Decimal.Pos Decimal.Nil
  /\ Z.to_int z <> Decimal.Neg Decimal.Nil.
Proof.
  split; intros H; pose proof (DecimalZ.of_to z) as Hz; rewrite H in Hz;
    vm_compute in Hz; subst z; vm_compute in H; discriminate.
Qed.

Lemma str_of_int_inj (a b : Z) : str_of_int a = str_of_int b -> a = b.
Proof.
  unfold str_of_int. intros H. apply DecimalZ.to_int_inj.
  destruct (to_int_not_nil a) as [Ha1 Ha2], (to_int_not_nil b) as [Hb1 Hb2].
  pose proof (NilZero.isi _ Ha1 Ha2) as Ha.
  pose proof (NilZero.isi _ Hb1 Hb2) as Hb.
  rewrite H in Ha. congruence.
Qed.

Lemma promise_of_statement_ok (len_promises : nat) (statement : Statement)
  (promise : Promise) :
  promise_of_statement int_max_str_digits len_promises statement
  = Ok (Some promise) ->
  promise_ok len_promises promise.
Proof.
  unfold promise_of_statement, promise_ok.
  generalize (due_date int_max_str_digits). intros due. unfold_result.
  intros Hs. repeat (case_match; simplify_eq); simpl; split_and?; try done;
    by intros ? [= <-].
Qed.

Lemma promises_loop_ok (statements_section : list Statement)
  (promises ps : list Promise) :
  promises_loop int_max_str_digits statements_section promises = Ok ps ->
  (forall i p, promises !! i = Some p -> promise_ok i p) ->
  forall i p, ps !! i = Some p -> promise_ok i p.
Proof.
  revert promises. induction statements_section as [|st rest IH];
    intros promises; simpl.
  - by intros [= <-].
  - unfold mbind, result_bind.
    destruct (promise_of_statement _ _ st) as [[p|]|e] eqn:Hst; [| |done].
    + intros Hloop Hacc. apply (IH _ Hloop).
      intros i q [Hq | [Hi Hq]]%lookup_app_Some; [by apply Hacc|].
      apply list_lookup_singleton_Some in Hq as [Hi0 <-].
      replace i with (length promises) by lia.
      by apply promise_of_statement_ok in Hst.
    + apply IH.
Qed.

Lemma promise_ids_NoDup (ps : list Promise) :
  (forall i p, ps !! i = Some p -> promise_ok i p) ->
  NoDup (map promise_id ps).
Proof.
  intros Hok. apply NoDup_alt. intros i j x Hi Hj.
  apply list_lookup_fmap_Some in Hi as (p & -> & Hp).
  apply list_lookup_fmap_Some in Hj as (q & Hpq & Hq).
  apply Hok in Hp as [Hp _]. apply Hok in Hq as [Hq _].
  rewrite Hp, Hq in Hpq. injection Hpq as Hpq.
  apply str_of_int_inj in Hpq. lia.
Qed.

(** X11. The promises of a parsed record are numbered in order: the i-th
    one (from 1) has the id "pr" followed by i, so the ids are pairwise
    distinct; its description is not empty, its category is the one
    [categorize_promise] gives that description, its status is
    "in-progress", and its madeDate, when present, is not empty.
    Statements without text take no number. *)
Theorem parsed_promises_are_numbered (html : option Html)
  (basic_info : Candidate) (ps : list Promise) :
  promises (parse_politician_detail_page int_max_str_digits html basic_info)
  = Some ps ->
  (forall i p, ps !! i = Some p -> promise_ok i p)
  /\ NoDup (map promise_id ps).
Proof.
  intros Hps.
  assert (forall i p, ps !! i = Some p -> promise_ok i p) as Hok.
  { revert ps Hps. unfold parse_politician_detail_page.
    destruct html as [text|]; [|done].
    destruct (is_empty text); [done|].
    apply (try_sections_inv
             (fun d => forall ps, promises d = Some ps ->
                                  forall i p, ps !! i = Some p -> promise_ok i p));
      [done|].
    unfold detail_sections. repeat apply Forall_cons_2; try apply Forall_nil_2;
      intros d d' HP Hs; by_shape Hs; try done.
    simpl. intros ps [= <-]. by eapply promises_loop_ok. }
  split; [done|]. by apply promise_ids_NoDup.
Qed.

End Entries.

Lemma parsed_promises_witness :
  (forall i p,
     [ {| promise_id := "pr1"; description := "Build a school";
          promise_category := "Education"; madeDate := Some "2021-05-10";
          dueDate := Some "2024-05-10"; status := "in-progress" |};
       {| promise_id := "pr2"; description := "Tarmac the road to Rongo";
          promise_category := "Infrastructure"; madeDate := None;
          dueDate := None; status := "in-progress" |} ] !! i = Some p ->
     promise_ok i p)
  /\ NoDup ["pr1"; "pr2"].
Proof.
  apply (parsed_promises_are_numbered 4300 (Some full_profile)
           (candidate "Jane Doe" "/person/jane-doe/")).
  vm_compute. reflexivity.
Defined.

(** *** Numbers read from the page *)

Section Numbers.

Context (int_max_str_digits : nat).

Lemma span_all_chars (f : ascii -> bool) (s : string) :
  all_chars f (fst (Str.span f s)) = true.
Proof.
  induction s as [|c s IH]; simpl; [done|].
  destruct (f c) eqn:Hc; [|done].
  destruct (Str.span f s) as [run rest]. simpl in *. by rewrite Hc, IH.
Qed.

Lemma search_digits_all_chars (s digits : string) :
  search_digits s = Some digits -> all_chars Str.isdigit digits = true.
Proof.
  induction s as [|c s IH]; [done|].
  change (search_digits (String c s))
    with (if Str.isdigit c
          then Some (fst (Str.span Str.isdigit (String c s)))
          else search_digits s).
  destruct (Str.isdigit c); [|done].
  intros Hdigits.
  assert (digits = fst (Str.span Str.isdigit (String c s))) as ->
    by congruence.
  apply span_all_chars.
Qed.

Lemma digit_value_nonneg (c : ascii) :
  Str.isdigit c = true -> 0 <= digit_value c.
Proof.
  unfold Str.isdigit, Str.between, digit_value.
  intros [Hlo _]%andb_prop. apply N.leb_le in Hlo. lia.
Qed.

Lemma digits_value_nonneg (s : string) (acc : Z) :
  all_chars Str.isdigit s = true -> 0 <= acc -> 0 <= digits_value s acc.
Proof.
  revert acc. induction s as [|c s IH]; intros acc; simpl; [done|].
  intros [Hc Hs]%andb_prop Hacc. apply IH; [done|].
  apply digit_value_nonneg in Hc. lia.
Qed.

Lemma py_int_nonneg (s : string) (n : Z) :
  all_chars Str.isdigit s = true ->
  py_int int_max_str_digits s = Ok n -> 0 <= n.
Proof.
  unfold py_int. intros Hs. case_match; [done|].
  intros [= <-]. by apply digits_value_nonneg.
Qed.

Lemma count_of_nonneg (elem : option string) (n : Z) :
  count_of int_max_str_digits elem = Ok (Some n) -> 0 <= n.
Proof.
  unfold count_of. unfold_result. intros Hs.
  repeat (case_match; simplify_eq).
  eapply py_int_nonneg; [|done]. by eapply search_digits_all_chars.
Qed.

Lemma attendance_of_entry_ok (entry : AttendanceEntry)
  (record : AttendanceRecord) :
  attendance_of_entry int_max_str_digits entry = Ok (Some record) ->
  attendance_ok record.
Proof.
  unfold attendance_of_entry, attendance_ok. unfold_result. intros Hs.
  destruct (th_elem entry); [done|].
  destruct (or_else (period_elem entry) (td_1 entry)) as [text|]; [|done].
  destruct (Str.truthy (Str.strip text)) eqn:Hperiod; [|done].
  destruct (count_of _ (or_else (present_elem entry) (td_2 entry)))
    as [p|] eqn:Hp; [|done].
  destruct (count_of _ (or_else (absent_elem entry) (td_3 entry)))
    as [a|] eqn:Ha; [|done].
  simplify_eq. simpl. split_and?; [done|done| |].
  - intros n ->. by eapply count_of_nonneg.
  - intros n ->. by eapply count_of_nonneg.
Qed.

Lemma attendance_loop_ok (entries : list AttendanceEntry)
  (records : list AttendanceRecord) :
  attendance_loop int_max_str_digits entries = Ok records ->
  Forall attendance_ok records.
Proof.
  revert records. induction entries as [|entry rest IH]; intros records; simpl.
  - by intros [= <-].
  - unfold_result.
    destruct (attendance_of_entry _ entry) as [r|] eqn:Hr; [|done].
    destruct (attendance_loop _ rest) as [rs|]; [|done].
    destruct r as [r|]; intros [= <-]; [|by apply IH].
    apply Forall_cons. split; [by eapply attendance_of_entry_ok | by apply IH].
Qed.

Lemma attendance_records_ok (soup : DetailSoup) (d d' : Politician) :
  (forall rs, attendance d = Some rs -> Forall attendance_ok rs) ->
  attendance_records int_max_str_digits soup d = Ok d' ->
  forall rs, attendance d' = Some rs -> Forall attendance_ok rs.
Proof.
  unfold attendance_records. unfold_result. intros Hd Hs.
  destruct (or_else _ _) as [section|]; [|by simplify_eq].
  destruct (attendance_loop _ _) as [records|] eqn:Hloop; [|done].
  apply attendance_loop_ok in Hloop.
  destruct records; simplify_eq; [done|]. by intros ? [= <-].
Qed.

Lemma fold_add_acc (l : list Z) (acc : Z) :
  fold_left Z.add l acc = acc + fold_left Z.add l 0.
Proof.
  revert acc. induction l as [|y l IH]; intros acc; simpl; [lia|].
  rewrite (IH (acc + y)), (IH (0 + y)). lia.
Qed.

Lemma Z_sum_cons (x : Z) (l : list Z) : Z_sum (x :: l) = x + Z_sum l.
Proof. unfold Z_sum. simpl. by rewrite fold_add_acc. Qed.

Lemma attendance_sums (records : list AttendanceRecord) :
  Forall attendance_ok records ->
  0 <= total_present records
  /\ 0 <= total_sessions records
  /\ (Forall (fun r => is_Some (present r) -> is_Some (absent r)) records ->
      total_present records <= total_sessions records).
Proof.
  unfold total_present, total_sessions.
  induction 1 as [|r rs (Hperiod & Htotal & Hp & Ha) Hrs (IHp & IHs & IHle)].
  - split_and?; [done|done|]. by intros _.
  - cbn [map]. rewrite !Z_sum_cons, Htotal.
    assert (0 <= default 0 (present r)) as Hp0
      by (destruct (present r) as [p|]; [by apply Hp | done]).
    assert (0 <= default 0 (absent r)) as Ha0
      by (destruct (absent r) as [a|]; [by apply Ha | done]).
    destruct (present r) as [p|] eqn:Epresent, (absent r) as [a|] eqn:Eabsent;
      simpl in *; split_and?; try lia.
    all: intros [Hsome Hle]%Forall_cons; specialize (IHle Hle);
      rewrite ?Epresent, ?Eabsent in Hsome; try lia.
    destruct Hsome as [? ?]; [by eexists | done].
Qed.

(** X12. Every attendance record of a parsed record has a period that is
    not empty and counts that are not negative, and carries a total exactly
    when it has both counts, the total being their sum. So the sums the
    rating is computed from are not negative, and the sessions attended do
    not exceed the sessions counted when every record with a present count
    also has an absent count. *)
Theorem parsed_attendance_is_consistent (html : option Html)
  (basic_info : Candidate) (records : list AttendanceRecord) :
  attendance (parse_politician_detail_page int_max_str_digits html basic_info)
  = Some records ->
  Forall attendance_ok records
  /\ 0 <= total_present records
  /\ 0 <= total_sessions records
  /\ (Forall (fun r => is_Some (present r) -> is_Some (absent r)) records ->
      total_present records <= total_sessions records).
Proof.
  intros Hrecords.
  assert (Forall attendance_ok records) as Hok.
  { revert records Hrecords. unfold parse_politician_detail_page.
    destruct html as [text|]; [|done].
    destruct (is_empty text); [done|].
    apply (try_sections_inv
             (fun d => forall rs, attendance d = Some rs ->
                                  Forall attendance_ok rs)); [done|].
    unfold detail_sections. repeat apply Forall_cons_2; try apply Forall_nil_2;
      intros d d' HP Hs; try by eapply attendance_records_ok.
    all: by_shape Hs; try done.
    all: intros rs Hrs; simpl in Hrs; apply HP; congruence. }
  split; [done|]. by apply attendance_sums.
Qed.

Lemma election_data_votes (soup : DetailSoup) (d d' : Politician) :
  (forall e v, election d = Some e -> totalVotes e = Some v -> 0 <= v) ->
  election_data int_max_str_digits soup d = Ok d' ->
  forall e v, election d' = Some e -> totalVotes e = Some v -> 0 <= v.
Proof.
  unfold election_data. unfold_result. intros Hd Hs.
  destruct (election_results soup) as [elem|]; [|by simplify_eq].
  destruct (election_votes elem) as [votes|].
  - destruct (search_digits (Str.strip votes)) as [digits|] eqn:Hdigits.
    + destruct (py_int _ digits) as [n|] eqn:Hn; [|done].
      apply py_int_nonneg in Hn; [|by eapply search_digits_all_chars].
      destruct (Str.strip <$> election_date elem); simplify_eq;
        by intros ? ? [= <-] [= <-].
    + destruct (Str.strip <$> election_date elem); simplify_eq; [|done].
      by intros ? ? [= <-].
  - destruct (Str.strip <$> election_date elem); simplify_eq; [|done].
    by intros ? ? [= <-].
Qed.

(** X13. The number of votes of a parsed record is never negative: it is
    the value of the first run of digits of the votes text, so a sign in
    front of the digits is not read. *)
Theorem parsed_votes_are_not_negative (html : option Html)
  (basic_info : Candidate) (e : Election) (votes : Z) :
  election (parse_politician_detail_page int_max_str_digits html basic_info)
  = Some e ->
  totalVotes e = Some votes ->
  0 <= votes.
Proof.
  revert e votes. unfold parse_politician_detail_page.
  destruct html as [text|]; [|done].
  destruct (is_empty text); [done|].
  apply (try_sections_inv
           (fun d => forall e v, election d = Some e ->
                                 totalVotes e = Some v -> 0 <= v)); [done|].
  unfold detail_sections. repeat apply Forall_cons_2; try apply Forall_nil_2;
    intros d d' HP Hs; try by eapply election_data_votes.
  all: by_shape Hs; done.
Qed.

End Numbers.

Lemma parsed_attendance_witness :
  Forall attendance_ok [attended "2023" 8 2; attended_only "2024" 50]
  /\ 0 <= total_present [attended "2023" 8 2; attended_only "2024" 50]
  /\ 0 <= total_sessions [attended "2023" 8 2; attended_only "2024" 50]
  /\ (Forall (fun r => is_Some (present r) -> is_Some (absent r))
        [attended "2023" 8 2; attended_only "2024" 50] ->
      total_present [attended "2023" 8 2; attended_only "2024" 50]
      <= total_sessions [attended "2023" 8 2; attended_only "2024" 50]).
Proof.
  apply (parsed_attendance_is_consistent 4300 (Some full_profile)
           (candidate "Jane Doe" "/person/jane-doe/")).
  vm_compute. reflexivity.
Defined.

Lemma parsed_votes_witness : 0 <= 23456.
Proof.
  apply (parsed_votes_are_not_negative 4300 (Some full_profile)
           (candidate "Jane Doe" "/person/jane-doe/")
           {| electedDate := Some "2022-08-09"; totalVotes := Some 23456 |}
           23456); vm_compute; reflexivity.
Defined.

(** *** Key achievements *)

Section Achievements.

Context (int_max_str_digits : nat).

Lemma run_sections_app (l1 l2 : list (Politician -> result Politician))
  (d : Politician) :
  run_sections (l1 ++ l2) d
  = match run_sections l1 d with
    | Ok d' => run_sections l2 d'
    | Raise e => Raise e
    end.
Proof.
  revert d. induction l1 as [|s l1 IH]; intros d; simpl; [done|].
  unfold mbind, result_bind. destruct (s d) as [d1|e]; [apply IH | done].
Qed.

(** The sections before the last one. *)
Lemma detail_sections_split (soup : DetailSoup) :
  detail_sections int_max_str_digits soup
  = [ party_affiliation soup; county_information soup;
      election_data int_max_str_digits soup; contact_information soup;
      experience_and_education soup;
      promises_and_statements int_max_str_digits soup;
      attendance_records int_max_str_digits soup;
      committees_membership soup; calculate_approval_rating ]
    ++ [key_achievements].
Proof. reflexivity. Qed.

Lemma sections_before_achievements (soup : DetailSoup) :
  Forall (fun section =>
            forall d d',
              keyAchievements d = None /\ promises d <> Some [] ->
              section d = Ok d' ->
              keyAchievements d' = None /\ promises d' <> Some [])
    [ party_affiliation soup; county_information soup;
      election_data int_max_str_digits soup; contact_information soup;
      experience_and_education soup;
      promises_and_statements int_max_str_digits soup;
      attendance_records int_max_str_digits soup;
      committees_membership soup; calculate_approval_rating ].
Proof.
  repeat apply Forall_cons_2; try apply Forall_nil_2;
    intros d d' [Hnone Hps] Hs; by_shape Hs; try done.
  simpl. split; [done|congruence].
Qed.

Lemma key_achievements_value (d : Politician) :
  keyAchievements d = None ->
  promises d <> Some [] ->
  exists d',
    key_achievements d = Ok d'
    /\ promises d' = promises d
    /\ keyAchievements d'
       = (fun ps => map description (take 5 ps)) <$> promises d
    /\ keyAchievements d' <> Some [].
Proof.
  unfold key_achievements. intros Hnone Hps.
  destruct (promises d) as [[|p ps]|] eqn:Hpromises; [done| |].
  - eexists. split; [reflexivity|]. simpl. by rewrite Hpromises.
  - eexists. split; [reflexivity|]. by rewrite Hpromises, Hnone.
Qed.

(** X14. The key achievements of a parsed record are the descriptions of
    its first five promises, in order: whenever the key is present, the
    record has promises and the list is made of the descriptions of the
    first five of them (of all of them when they are fewer), so it is not
    empty and not longer than five. When no section raises, the key is
    present exactly when the promises are. *)
Theorem key_achievements_are_first_promises (text : Html)
  (basic_info : Candidate) :
  is_empty text = false ->
  let parsed :=
    parse_politician_detail_page int_max_str_digits (Some text) basic_info in
  (forall achievements,
     keyAchievements parsed = Some achievements ->
     exists ps,
       promises parsed = Some ps
       /\ achievements = map description (take 5 ps)
       /\ achievements <> []
       /\ (length achievements <= 5)%nat)
  /\ (forall d,
        run_sections (detail_sections int_max_str_digits (html_parser text))
          (with_id basic_info) = Ok d ->
        keyAchievements parsed
        = (fun ps => map description (take 5 ps)) <$> promises parsed).
Proof.
  intros Hfull parsed.
  assert (parsed = try_sections
                     (detail_sections int_max_str_digits (html_parser text))
                     (with_id basic_info)) as Hparsed.
  { unfold parsed, parse_politician_detail_page. by rewrite Hfull. }
  clearbody parsed.
  rewrite detail_sections_split, try_sections_app in Hparsed.
  rewrite detail_sections_split.
  setoid_rewrite run_sections_app.
  pose proof (sections_before_achievements (html_parser text)) as Hbefore.
  destruct (run_sections _ (with_id basic_info)) as [d1|e] eqn:Hrun.
  - assert (keyAchievements d1 = None /\ promises d1 <> Some [])
      as [Hnone Hps].
    { eapply (run_sections_inv
                (fun d => keyAchievements d = None /\ promises d <> Some []));
        [|exact Hbefore|exact Hrun]. done. }
    destruct (key_achievements_value d1 Hnone Hps)
      as (d2 & Hkey & Hsame & Hvalue & Hne).
    simpl in Hparsed. rewrite Hkey in Hparsed. subst parsed.
    rewrite Hsame, Hvalue. split; [|done].
    intros achievements Hsome. rewrite Hvalue in Hne.
    destruct (promises d1) as [ps|]; [|done]. simpl in *.
    injection Hsome as <-. exists ps. split_and!; [done|done|congruence|].
    rewrite length_map, length_take. lia.
  - split; [|done]. intros achievements Hsome.
    assert (keyAchievements parsed = None /\ promises parsed <> Some [])
      as [Hnone _]; [|congruence].
    rewrite Hparsed. by apply try_sections_inv.
Qed.

End Achievements.

Lemma key_achievements_witness :
  let parsed :=
    parse_politician_detail_page 4300 (Some full_profile)
      (candidate "Jane Doe" "/person/jane-doe/") in
  (forall achievements,
     keyAchievements parsed = Some achievements ->
     exists ps,
       promises parsed = Some ps
       /\ achievements = map description (take 5 ps)
       /\ achievements <> []
       /\ (length achievements <= 5)%nat)
  /\ (forall d,
        run_sections (detail_sections 4300 (html_parser full_profile))
          (with_id (candidate "Jane Doe" "/person/jane-doe/")) = Ok d ->
        keyAchievements parsed
        = (fun ps => map description (take 5 ps)) <$> promises parsed).
Proof.
  apply (key_achievements_are_first_promises 4300 full_profile
           (candidate "Jane Doe" "/person/jane-doe/")).
  reflexivity.
Defined.

(** ** The files the two modes leave *)

Section Modes.

Context (output_dir : string) (max_workers : Z).
Context (urljoin : string -> string -> result string).
Context (session_get : string -> nat -> option Html).
Context (writable : string -> bool).
Context (int_max_str_digits : nat).
Context (schedule : nat -> list nat).

Local Abbreviation detailed := (detailed_record session_get int_max_str_digits).
Local Abbreviation savable := (can_save output_dir writable).
Local Abbreviation written := (write_record output_dir writable).

(** Two writes can be swapped unless they put different records under the
    same name. *)
Lemma write_record_comm (cat : string) (files : Files) (x y : Politician) :
  (politician_filename output_dir x cat = politician_filename output_dir y cat ->
   x = y) ->
  written cat (written cat files x) y = written cat (written cat files y) x.
Proof.
  intros Hsame. unfold write_record, can_save.
  destruct (decide (politician_filename output_dir x cat
                    = politician_filename output_dir y cat)) as [Heq|Hne].
  - by rewrite (Hsame Heq).
  - destruct (writable (politician_filename output_dir x cat)),
      (writable (politician_filename output_dir y cat)); try done.
    by apply insert_insert_ne.
Qed.

Lemma write_records_perm (cat : string) (l1 l2 : list Politician) :
  l1 ≡ₚ l2 ->
  (forall x y, x ∈ l1 -> y ∈ l1 ->
     politician_filename output_dir x cat = politician_filename output_dir y cat ->
     x = y) ->
  forall files,
    fold_left (written cat) l1 files = fold_left (written cat) l2 files.
Proof.
  induction 1 as [|x l1 l2 Hperm IH|x y l|l1 l2 l3 H12 IH12 H23 IH23];
    intros Hsame files; simpl.
  - done.
  - apply IH. intros a b Ha Hb. apply Hsame; by right.
  - f_equal. apply write_record_comm.
    apply Hsame; [by left | by right; left].
  - rewrite IH12 by done. apply IH23.
    intros a b Ha Hb. apply Hsame; by rewrite H12.
Qed.

Lemma fold_left_fmap {A B C : Type} (f : A -> B -> A) (g : C -> B)
  (l : list C) (a : A) :
  fold_left f (map g l) a = fold_left (fun a x => f a (g x)) l a.
Proof. revert a. induction l as [|x l IH]; intros a; simpl; [done|apply IH]. Qed.

(** The files the pool leaves are those of the writes of its tasks, in the
    order in which it completed them. *)
Lemma run_tasks_files {A B : Type} (f : A -> Files -> Files * B)
  (w : Files -> A -> Files) (g : A -> B) (tasks : list A) (order : list nat)
  (files : Files) (returned : gmap nat B) :
  (forall task files, f task files = (w files task, g task)) ->
  (run_tasks f tasks order files returned).1
  = fold_left w (omap (fun i => tasks !! i) order) files.
Proof.
  intros Hf. revert files returned.
  induction order as [|j rest IH]; intros files returned; simpl; [done|].
  destruct (tasks !! j) as [task|]; [|apply IH].
  rewrite Hf. simpl. apply IH.
Qed.

Lemma omap_lookup_drop {A : Type} (tasks : list A) (n k : nat) :
  (k + n = length tasks)%nat ->
  omap (fun i => tasks !! i) (seq k n) = drop k tasks.
Proof.
  revert k. induction n as [|n IH]; intros k Hlen; simpl.
  - by rewrite drop_ge by lia.
  - destruct (tasks !! k) as [task|] eqn:Hk.
    + rewrite IH by lia. symmetry. by apply drop_S.
    + apply lookup_ge_None in Hk. lia.
Qed.

Lemma executor_map_files {A B : Type} (f : A -> Files -> Files * B)
  (w : Files -> A -> Files) (g : A -> B) (tasks : list A) (files : Files) :
  (forall task files, f task files = (w files task, g task)) ->
  exists completed,
    completed ≡ₚ tasks
    /\ (schedule (length tasks) ≡ₚ seq 0 (length tasks) ->
        (executor_map schedule f tasks files).1 = fold_left w completed files).
Proof.
  intros Hf.
  exists (if decide (schedule (length tasks) ≡ₚ seq 0 (length tasks))
          then omap (fun i => tasks !! i) (schedule (length tasks))
          else tasks).
  destruct (decide _) as [Hperm|Hno]; [|done]. split.
  - rewrite Hperm, (omap_lookup_drop tasks (length tasks) 0) by done. done.
  - intros _. unfold executor_map.
    pose proof (run_tasks_files f w g tasks (schedule (length tasks)) files ∅ Hf)
      as Hfiles.
    by destruct (run_tasks f tasks (schedule (length tasks)) files ∅).
Qed.

(** X15. With a positive number of workers and a pool that completes each
    task once, the concurrent mode leaves the same files with the same
    contents as the sequential mode, and returns the same records, in
    whatever order the tasks complete, provided that candidates whose
    records go to the same file have the same record (as the candidates of
    a page that was gathered twice do). *)
Theorem both_modes_leave_the_same_files (url cat : string)
  (subcategory : option string) (files : Files) (text : Html)
  (politicians : list Candidate) :
  (forall n, schedule n ≡ₚ seq 0 n) ->
  0 < max_workers ->
  get_page session_get url = Some text ->
  is_empty text = false ->
  gather_politicians urljoin session_get text cat = Ok politicians ->
  (forall p q, p ∈ politicians -> q ∈ politicians ->
     politician_filename output_dir (detailed subcategory p) cat
     = politician_filename output_dir (detailed subcategory q) cat ->
     detailed subcategory p = detailed subcategory q) ->
  scrape_leaders_threaded output_dir max_workers urljoin session_get writable
    int_max_str_digits schedule url cat subcategory files
  = scrape_leaders output_dir urljoin session_get writable int_max_str_digits
      url cat subcategory files.
Proof.
  intros Hsched Hworkers Hseed Hfull Hgather Hsame.
  unfold scrape_leaders_threaded, scrape_leaders.
  rewrite Hseed, Hfull, Hgather.
  destruct (max_workers <=? 0) eqn:Hle; [apply Z.leb_le in Hle; lia|].
  rewrite details_loop_spec. simpl.
  pose proof (executor_map_results output_dir urljoin session_get writable
                schedule
                (process_politician output_dir session_get writable
                   int_max_str_digits cat subcategory)
                (fun files p => written cat files (detailed subcategory p))
                (fun p => if savable cat (detailed subcategory p)
                          then Some (detailed subcategory p) else None)
                politicians files Hsched
                (fun p files =>
                   process_politician_spec output_dir session_get writable
                     int_max_str_digits cat subcategory p files)) as Hmap.
  destruct (executor_map_files
              (process_politician output_dir session_get writable
                 int_max_str_digits cat subcategory)
              (fun files p => written cat files (detailed subcategory p))
              (fun p => if savable cat (detailed subcategory p)
                        then Some (detailed subcategory p) else None)
              politicians files
              (fun p files =>
                 process_politician_spec output_dir session_get writable
                   int_max_str_digits cat subcategory p files))
    as (completed & Hperm & Hfiles).
  specialize (Hfiles (Hsched _)).
  destruct (executor_map _ _ politicians files) as [files' results].
  simpl in *. rewrite Hmap, Hfiles. f_equal.
  - rewrite <- (fold_left_fmap (written cat) (detailed subcategory)).
    symmetry. apply write_records_perm; [by rewrite Hperm|].
    intros x y (p & <- & Hp)%list_elem_of_In%in_map_iff
      (q & <- & Hq)%list_elem_of_In%in_map_iff.
    apply Hsame; by apply list_elem_of_In.
  - f_equal.
    rewrite <- (omap_saved output_dir writable cat
                  (map (detailed subcategory) politicians)).
    by rewrite map_map.
Qed.

End Modes.

Lemma both_modes_witness :
  scrape_leaders_threaded "out" 5 sample_urljoin national_net (fun _ => true)
    4300 reverse_schedule national_assembly_url "national_assembly" None ∅
  = scrape_leaders "out" sample_urljoin national_net (fun _ => true) 4300
      national_assembly_url "national_assembly" None ∅.
Proof.
  eapply (both_modes_leave_the_same_files "out" 5 sample_urljoin national_net
            (fun _ => true) 4300 reverse_schedule national_assembly_url
            "national_assembly" None ∅ (listing_page five_cards [])).
  - exact reverse_schedule_complete.
  - reflexivity.
  - reflexivity.
  - reflexivity.
  - vm_compute. reflexivity.
  - intros p q Hp Hq.
    repeat (apply elem_of_cons in Hp as [-> | Hp]);
      [..|by apply not_elem_of_nil in Hp];
      (repeat (apply elem_of_cons in Hq as [-> | Hq]);
       [..|by apply not_elem_of_nil in Hq]);
      vm_compute; first [by intros _ | intros H; discriminate H].
Defined.

(** ** County enrichment *)

Lemma dict_get_elem_of {A : Type} (key : string) (items : list (string * A))
  (v : A) :
  dict_get key items = Some v -> (key, v) ∈ items.
Proof.
  induction items as [|[k w] rest IH]; simpl; [done|].
  destruct (String.eqb_spec key k) as [->|Hne].
  - intros [= ->]. by left.
  - intros Hrest. right. by apply IH.
Qed.

Lemma county_names_are_not_empty (c v : string) :
  (c, v) ∈ constituency_county_map -> Str.truthy v = true.
Proof.
  unfold constituency_county_map. intros Hin.
  repeat (apply elem_of_cons in Hin as [[= -> ->] | Hin]; [done|]).
  by apply not_elem_of_nil in Hin.
Qed.

Lemma enrich_politician_cases (politician : Politician) :
  (enrich_politician politician = politician)
  \/ (exists c v,
        constituency (info politician) = Some c
        /\ Str.truthy c = true
        /\ value_truthy (county (info politician)) = false
        /\ (c, v) ∈ constituency_county_map
        /\ enrich_politician politician = set_county v politician).
Proof.
  unfold enrich_politician.
  destruct (constituency (info politician)) as [c|] eqn:Hc; [|by left].
  cbn [value_truthy]. destruct (Str.truthy c) eqn:Htruthy; [|by left].
  destruct (value_truthy (county (info politician))) eqn:Hcounty; [by left|].
  cbn [andb negb].
  destruct (dict_get c constituency_county_map) as [v|] eqn:Hget; [|by left].
  right. exists c, v. split_and!; try done. by apply dict_get_elem_of.
Qed.

Lemma dict_get_elem_of_NoDup {A : Type} (key : string)
  (items : list (string * A)) (v : A) :
  NoDup (map fst items) -> (key, v) ∈ items -> dict_get key items = Some v.
Proof.
  induction items as [|[k w] rest IH]; simpl.
  - by intros _ Hin%not_elem_of_nil.
  - intros [Hk Hrest]%NoDup_cons [[= -> ->] | Hin]%elem_of_cons.
    + by rewrite String.eqb_refl.
    + destruct (String.eqb_spec key k) as [->|_]; [|by apply IH].
      destruct Hk. apply list_elem_of_In, in_map_iff. exists (k, v).
      split; [done|]. by apply list_elem_of_In.
Qed.

Lemma dict_get_None {A : Type} (key : string) (items : list (string * A)) :
  key ∉ map fst items -> dict_get key items = None.
Proof.
  induction items as [|[k w] rest IH]; simpl; [done|].
  intros [Hne Hrest]%not_elem_of_cons.
  destruct (String.eqb_spec key k) as [->|_]; [done|]. by apply IH.
Qed.

Lemma constituency_county_map_NoDup :
  NoDup (map fst constituency_county_map).
Proof. apply (bool_decide_unpack _). by vm_compute. Qed.

(** X16. County enrichment returns one record for each record of its
    argument, in order. A record that has a county already, or has no
    constituency, or a constituency that the table does not list, comes
    back as it is; any other record comes back with the county the table
    gives for its constituency and is otherwise unchanged. *)
Theorem enrichment_fills_missing_counties (politicians_data : list Politician) :
  Forall2
    (fun politician enriched =>
       (value_truthy (county (info politician)) = true -> enriched = politician)
       /\ (value_truthy (constituency (info politician)) = false ->
           enriched = politician)
       /\ (forall c,
             constituency (info politician) = Some c ->
             c ∉ map fst constituency_county_map ->
             enriched = politician)
       /\ (forall c v,
             constituency (info politician) = Some c ->
             Str.truthy c = true ->
             value_truthy (county (info politician)) = false ->
             (c, v) ∈ constituency_county_map ->
             enriched = set_county v politician))
    politicians_data (enrich_county_data politicians_data).
Proof.
  unfold enrich_county_data.
  induction politicians_data as [|p ps IH]; [by constructor|].
  rewrite map_cons. constructor; [|done]. unfold enrich_politician.
  split_and!.
  - intros ->. by rewrite andb_false_r.
  - by intros ->.
  - intros c Hc Hout. rewrite Hc, (dict_get_None c _ Hout).
    by destruct (_ && _).
  - intros c v Hc Htruthy Hcounty Hin. rewrite Hc, Hcounty. cbn [value_truthy].
    rewrite Htruthy. cbn [andb negb].
    by rewrite (dict_get_elem_of_NoDup c _ v constituency_county_map_NoDup Hin).
Qed.

(** X17. County enrichment is idempotent: enriching the enriched list
    changes nothing, because every county of the table is a name that is
    not empty. *)
Theorem enrichment_is_idempotent (politicians_data : list Politician) :
  enrich_county_data (enrich_county_data politicians_data)
  = enrich_county_data politicians_data.
Proof.
  unfold enrich_county_data. rewrite map_map. apply map_ext. intros p.
  destruct (enrich_politician_cases p)
    as [Hsame | (c & v & Hc & _ & _ & Hin & Hset)]; [by rewrite !Hsame|].
  rewrite Hset. unfold enrich_politician at 1. simpl.
  rewrite (county_names_are_not_empty c v Hin).
  by rewrite andb_false_r.
Qed.

(** The member for Rongo gets Migori, and a county read from the profile is
    kept. *)
Example enrichment_of_sample_records :
  enrich_county_data
    [ member_for "A" "Rongo"; member_for "B" "Kibra";
      set_county "Kisumu" (member_for "C" "Rongo") ]
  = [ set_county "Migori" (member_for "A" "Rongo"); member_for "B" "Kibra";
      set_county "Kisumu" (member_for "C" "Rongo") ].
Proof. vm_compute. reflexivity. Qed.

(** ** County files *)

Lemma dict_get_append_leader (c c' : string) (leader : Politician)
  (counties : list (string * list Politician)) :
  dict_get c' (append_leader c leader counties)
  = if String.eqb c' c
    then Some (default [] (dict_get c counties) ++ [leader])
    else dict_get c' counties.
Proof.
  induction counties as [|[k leaders] rest IH]; simpl.
  - by destruct (String.eqb c' c).
  - destruct (String.eqb_spec c k) as [->|Hck]; simpl.
    + by destruct (String.eqb_spec c' k).
    + rewrite IH.
      destruct (String.eqb_spec c' k) as [->|Hc'k]; [|done].
      destruct (String.eqb_spec k c) as [->|_]; done.
Qed.

Lemma append_leader_keys (c : string) (leader : Politician)
  (counties : list (string * list Politician)) :
  map fst (append_leader c leader counties)
  = if decide (c ∈ map fst counties) then map fst counties
    else map fst counties ++ [c].
Proof.
  induction counties as [|[k leaders] rest IH]; simpl.
  - destruct (decide (c ∈ [])) as [Hin|_]; [by apply not_elem_of_nil in Hin|done].
  - destruct (String.eqb_spec c k) as [->|Hck]; simpl.
    + destruct (decide (k ∈ k :: map fst rest)) as [_|Hout]; [done|].
      destruct Hout. by left.
    + rewrite IH.
      destruct (decide (c ∈ map fst rest)) as [Hin|Hout],
        (decide (c ∈ k :: map fst rest)) as [Hin'|Hout']; try done.
      * destruct Hout'. by right.
      * apply elem_of_cons in Hin' as [->|Hin']; done.
Qed.

Lemma append_leader_size (c : string) (leader : Politician)
  (counties : list (string * list Politician)) :
  list_sum (map (fun g => length (snd g)) (append_leader c leader counties))
  = S (list_sum (map (fun g => length (snd g)) counties)).
Proof.
  induction counties as [|[k leaders] rest IH]; simpl; [done|].
  destruct (String.eqb c k); simpl.
  - rewrite length_app. simpl. lia.
  - rewrite IH. lia.
Qed.

Lemma counties_of_snoc (all_leaders : list Politician) (leader : Politician) :
  counties_of (all_leaders ++ [leader])
  = match county (info leader) with
    | Some c => if Str.truthy c
                then append_leader c leader (counties_of all_leaders)
                else counties_of all_leaders
    | None => counties_of all_leaders
    end.
Proof. unfold counties_of. by rewrite fold_left_app. Qed.

Lemma filter_snoc {A : Type} (f : A -> bool) (l : list A) (x : A) :
  List.filter f (l ++ [x]) = List.filter f l ++ (if f x then [x] else []).
Proof.
  induction l as [|y l IH]; simpl; [by destruct (f x)|].
  rewrite IH. by destruct (f y).
Qed.

Lemma existsb_snoc {A : Type} (f : A -> bool) (l : list A) (x : A) :
  existsb f (l ++ [x]) = existsb f l || f x.
Proof. rewrite existsb_app. simpl. by rewrite orb_false_r. Qed.

Lemma existsb_filter_nil {A : Type} (f : A -> bool) (l : list A) :
  existsb f l = false -> List.filter f l = [].
Proof.
  induction l as [|y l IH]; simpl; [done|].
  destruct (f y); [done|]. exact IH.
Qed.

(** X18. The county groups hold every leader that has a county exactly
    once, under its county: no county is listed twice, the group of a
    county is the list of the leaders with that county in the order of the
    input, a county has a group only when some leader has it, and leaders
    without a county, or with an empty one, are in no group. So the counts
    of the county summary add up to the number of leaders with a county. *)
Theorem counties_group_the_leaders (all_leaders : list Politician) :
  let counties := counties_of all_leaders in
  NoDup (map fst counties)
  /\ (forall c,
        dict_get c counties
        = if Str.truthy c && existsb (county_is c) all_leaders
          then Some (List.filter (county_is c) all_leaders)
          else None)
  /\ list_sum (map (fun g => length (snd g)) counties)
     = length (List.filter
                 (fun leader => value_truthy (county (info leader)))
                 all_leaders).
Proof.
  induction all_leaders as [|leader all_leaders (Hkeys & Hget & Hsize)]
    using rev_ind.
  - split_and!; [constructor| |done]. intros c. by rewrite andb_false_r.
  - rewrite counties_of_snoc. simpl.
    assert (forall c, county (info leader) <> Some c ->
                      county_is c leader = false) as Hother.
    { intros c Hne. unfold county_is.
      destruct (county (info leader)) as [c'|]; [|done].
      destruct (String.eqb_spec c' c) as [->|]; done. }
    destruct (county (info leader)) as [c0|] eqn:Hcounty;
      [destruct (Str.truthy c0) eqn:Htruthy|].
    + split_and!.
      * rewrite append_leader_keys. destruct (decide _); [done|].
        apply NoDup_app. split_and!; [done| |apply NoDup_singleton].
        intros x Hx ->%list_elem_of_singleton. done.
      * intros c. rewrite dict_get_append_leader, Hget, existsb_snoc, filter_snoc.
        destruct (String.eqb_spec c c0) as [->|Hne].
        -- assert (county_is c0 leader = true) as ->.
           { unfold county_is. rewrite Hcounty. apply String.eqb_refl. }
           rewrite Htruthy, orb_true_r. simpl.
           destruct (existsb (county_is c0) all_leaders) eqn:Hex; [done|].
           by rewrite existsb_filter_nil.
        -- rewrite Hother by congruence.
           by rewrite orb_false_r, app_nil_r.
      * rewrite append_leader_size, Hsize, filter_snoc, Hcounty. simpl.
        rewrite Htruthy, length_app. simpl. lia.
    + split_and!; [done| |].
      * intros c. rewrite Hget, existsb_snoc, filter_snoc.
        destruct (String.eqb_spec c c0) as [->|Hne].
        -- by rewrite Htruthy.
        -- rewrite Hother by congruence.
           by rewrite orb_false_r, app_nil_r.
      * rewrite Hsize, filter_snoc, Hcounty. simpl. rewrite Htruthy.
        by rewrite app_nil_r.
    + split_and!; [done| |].
      * intros c. rewrite Hget, existsb_snoc, filter_snoc.
        rewrite Hother by done. by rewrite orb_false_r, app_nil_r.
      * rewrite Hsize, filter_snoc, Hcounty. simpl. by rewrite app_nil_r.
Qed.

Section CountyFiles.

Context (output_dir : string) (writable makedirs : string -> bool).

Lemma save_counties_other (counties : list (string * list Politician))
  (files files' : gmap string (list Politician)) (filename : string) :
  save_counties output_dir writable counties files = Ok files' ->
  Forall (fun g => county_filename output_dir (fst g) <> filename) counties ->
  files' !! filename = files !! filename.
Proof.
  revert files. induction counties as [|[c ls] rest IH]; intros files; simpl.
  - by intros [= <-].
  - destruct (writable _); [|done].
    intros Hsave [Hne Hrest]%Forall_cons. rewrite (IH _ Hsave Hrest).
    by rewrite lookup_insert_ne.
Qed.

Lemma save_counties_last (before after : list (string * list Politician))
  (c : string) (ls : list Politician)
  (files files' : gmap string (list Politician)) :
  save_counties output_dir writable (before ++ (c, ls) :: after) files
  = Ok files' ->
  Forall (fun g => county_filename output_dir (fst g)
                   <> county_filename output_dir c) after ->
  files' !! county_filename output_dir c = Some ls.
Proof.
  revert files. induction before as [|[k leaders] before IH]; intros files; simpl.
  - destruct (writable _); [|done].
    intros Hsave Hafter. rewrite (save_counties_other _ _ _ _ Hsave Hafter).
    by rewrite lookup_insert_eq.
  - destruct (writable _); [|done]. apply IH.
Qed.

(** X19. When the county stage returns, the summary lists every county
    with the number of its leaders, and the file of a county holds the
    leaders of the last county, in the order of the groups, that has the
    same file name. The file name depends on the lower-cased name only, so
    two counties whose names differ in case share one file, which then
    holds the leaders of the later one alone. *)
Theorem county_file_holds_the_last_group (all_leaders : list Politician)
  (files : gmap string (list Politician)) (data : CountyData) :
  generate_county_data output_dir writable makedirs all_leaders files = Ok data ->
  county_summary data
  = map (fun g => (fst g, length (snd g))) (counties_of all_leaders)
  /\ (forall before c ls after,
        counties_of all_leaders = before ++ (c, ls) :: after ->
        Forall (fun g => county_filename output_dir (fst g)
                         <> county_filename output_dir c) after ->
        county_files data !! county_filename output_dir c = Some ls)
  /\ (forall c1 c2,
        Str.lower c1 = Str.lower c2 ->
        county_filename output_dir c1 = county_filename output_dir c2).
Proof.
  unfold generate_county_data. intros Hdata. unfold_result.
  destruct (makedirs _); [|done].
  destruct (save_counties _ _ _ files) as [files'|] eqn:Hsave; [|done].
  destruct (writable (path_join _ _)); [|done].
  injection Hdata as <-. simpl. split_and!.
  - apply map_ext. by intros [c ls].
  - intros before c ls after Hsplit Hafter. rewrite Hsplit in Hsave.
    by eapply save_counties_last.
  - intros c1 c2 Hlower. unfold county_filename, safe_county.
    by rewrite Hlower.
Qed.

End CountyFiles.

Lemma county_file_witness :
  county_summary
    {| county_files :=
         {[ "out/counties/tana_river.json" := [leader_of "B" "tana river"];
            "out/counties/meru.json" := [leader_of "C" "Meru"] ]};
       county_summary := [("Tana River", 1); ("tana river", 1); ("Meru", 1)]%nat |}
  = map (fun g => (fst g, length (snd g)))
      (counties_of [ leader_of "A" "Tana River"; leader_of "B" "tana river";
                     leader_of "C" "Meru" ])
  /\ (forall before c ls after,
        counties_of [ leader_of "A" "Tana River"; leader_of "B" "tana river";
                      leader_of "C" "Meru" ]
        = before ++ (c, ls) :: after ->
        Forall (fun g => county_filename "out" (fst g)
                         <> county_filename "out" c) after ->
        county_files
          {| county_files :=
               {[ "out/counties/tana_river.json" := [leader_of "B" "tana river"];
                  "out/counties/meru.json" := [leader_of "C" "Meru"] ]};
             county_summary :=
               [("Tana River", 1); ("tana river", 1); ("Meru", 1)]%nat |}
          !! county_filename "out" c = Some ls)
  /\ (forall c1 c2,
        Str.lower c1 = Str.lower c2 ->
        county_filename "out" c1 = county_filename "out" c2).
Proof.
  apply (county_file_holds_the_last_group "out" (fun _ => true) (fun _ => true)
           [ leader_of "A" "Tana River"; leader_of "B" "tana river";
             leader_of "C" "Meru" ] ∅).
  vm_compute. reflexivity.
Defined.

(** ** Statistics *)








Lemma true_divide_raises (p t : Z) (e : exn) :
  0 < t -> Float.true_divide p t = Raise e -> e = OverflowError.
Proof.
  unfold Float.true_divide. intros Ht.
  destruct (t =? 0) eqn:Hzero; [apply Z.eqb_eq in Hzero; lia|].
  destruct (p =? 0); [done|].
  destruct (SFdiv _ _ _ _); congruence.
Qed.

Lemma attendance_ratios_spec (records : list AttendanceRecord)
  (acc : spec_float) (n : nat) :
  match attendance_ratios records acc n with
  | Ok (_, n') =>
      n' = (n + length (List.filter has_ratio records))%nat
      /\ forallb (fun r => negb (ratio_overflows r)) records = true
  | Raise e =>
      e = OverflowError
      /\ forallb (fun r => negb (ratio_overflows r)) records = false
  end.
Proof.
  revert acc n. induction records as [|r rest IH]; intros acc n.
  - simpl. split; [lia|done].
  - cbn [attendance_ratios List.filter forallb]. unfold_result.
    destruct (present r) as [p|] eqn:Hp;
      [destruct (total r) as [t|] eqn:Htotal;
       [destruct (0 <? t) eqn:Ht|]|].
    + assert (has_ratio r = true) as ->
        by (unfold has_ratio; by rewrite Hp, Htotal).
      assert (ratio_overflows r
              = match Float.true_divide p t with
                | Ok _ => false
                | Raise _ => true
                end) as ->
        by (unfold ratio_overflows; by rewrite Hp, Htotal, Ht).
      apply Z.ltb_lt in Ht.
      destruct (Float.true_divide p t) as [q|e] eqn:Hdiv.
      * specialize (IH (FloatOps.add acc q) (S n)).
        destruct (attendance_ratios rest _ _) as [[acc' n']|e']; [|done].
        destruct IH as [-> Hall]. simpl. split; [lia|done].
      * split; [|done]. by eapply true_divide_raises.
    + assert (has_ratio r = false) as ->
        by (unfold has_ratio; by rewrite Hp, Htotal).
      assert (ratio_overflows r = false) as ->
        by (unfold ratio_overflows; by rewrite Hp, Htotal, Ht).
      apply IH.
    + assert (has_ratio r = false) as ->
        by (unfold has_ratio; by rewrite Hp, Htotal).
      assert (ratio_overflows r = false) as ->
        by (unfold ratio_overflows; by rewrite Hp, Htotal).
      apply IH.
    + assert (has_ratio r = false) as -> by (unfold has_ratio; by rewrite Hp).
      assert (ratio_overflows r = false) as ->
        by (unfold ratio_overflows; by rewrite Hp).
      apply IH.
Qed.

Lemma existsb_filter_length {A : Type} (f : A -> bool) (l : list A) :
  existsb f l = (0 <? length (List.filter f l))%nat.
Proof.
  induction l as [|x l IH]; simpl; [done|].
  destruct (f x); simpl; [done|exact IH].
Qed.

Lemma attendance_percentage_spec (leader : Politician) :
  match attendance_percentage leader with
  | Ok percentage =>
      (is_Some percentage <-> rated leader = true)
      /\ forallb (fun r => negb (ratio_overflows r))
           (default [] (attendance leader)) = true
  | Raise e =>
      e = OverflowError
      /\ forallb (fun r => negb (ratio_overflows r))
           (default [] (attendance leader)) = false
  end.
Proof.
  unfold attendance_percentage, rated.
  destruct (attendance leader) as [[|r rs]|]; simpl default.
  - split; [|done]. split; [by intros [? ?]|done].
  - pose proof (attendance_ratios_spec (r :: rs) (Float.of_int 0) 0) as Hspec.
    unfold_result.
    destruct (attendance_ratios (r :: rs) _ _) as [[acc n]|e]; [|done].
    destruct Hspec as [Hn Hall]. rewrite Nat.add_0_l in Hn. subst n.
    rewrite existsb_filter_length.
    destruct (0 <? _)%nat; (split; [|done]); split; done.
  - split; [|done]. split; [by intros [? ?]|done].
Qed.

(** The statistics of the leaders counted so far. *)
Lemma tally_leaders_spec (all_leaders : list Politician) (tally : Tally) :
  let no_overflow :=
    forallb (fun leader =>
               forallb (fun r => negb (ratio_overflows r))
                 (default [] (attendance leader))) all_leaders in
  match tally_leaders all_leaders tally with
  | Ok tally' =>
      no_overflow = true
      /\ by_category (stats tally')
         = fold_left (fun acc key => count_up key acc)
             (map (fun leader => category (info leader)) all_leaders)
             (by_category (stats tally))
      /\ by_party (stats tally')
         = fold_left (fun acc key => count_up key acc)
             (map (fun leader => default "unknown" (party leader)) all_leaders)
             (by_party (stats tally))
      /\ education_levels (stats tally')
         = fold_left (fun acc key => count_up key acc)
             (concat (map (fun leader =>
                             map degree_type (default [] (education leader)))
                        all_leaders))
             (education_levels (stats tally))
      /\ promises_by_category (stats tally')
         = fold_left (fun acc key => count_up key acc)
             (concat (map (fun leader =>
                             map promise_category
                               (default [] (promises leader)))
                        all_leaders))
             (promises_by_category (stats tally))
      /\ (male (by_gender (stats tally')) + female (by_gender (stats tally'))
          + unknown (by_gender (stats tally'))
          = male (by_gender (stats tally)) + female (by_gender (stats tally))
            + unknown (by_gender (stats tally)) + length all_leaders)%nat
      /\ total_leaders (stats tally') = total_leaders (stats tally)
      /\ projects_total (stats tally') = projects_total (stats tally)
      /\ attendance_average (stats tally') = attendance_average (stats tally)
      /\ leaders_with_attendance tally'
         = (leaders_with_attendance tally
            + length (List.filter rated all_leaders))%nat
  | Raise e => e = OverflowError /\ no_overflow = false
  end.
Proof.
  revert tally. induction all_leaders as [|leader rest IH]; intros tally.
  - simpl. split_and!; try done; lia.
  - cbn [tally_leaders forallb map concat List.filter]. unfold_result.
    unfold tally_leader. unfold_result.
    pose proof (attendance_percentage_spec leader) as Hpct.
    destruct (attendance_percentage leader) as [pct|e];
      [|destruct Hpct as [-> ->]; done].
    destruct Hpct as [Hrated ->]. cbn [andb].
    assert (length (if rated leader
                    then leader :: List.filter rated rest
                    else List.filter rated rest)
            = (match pct with Some _ => 1 | None => 0 end
               + length (List.filter rated rest))%nat)
      as ->.
    { destruct pct as [x|].
      - by rewrite (proj1 Hrated) by by eexists.
      - destruct (rated leader); [|done].
        by destruct (proj2 Hrated eq_refl). }
    clear Hrated.
    destruct pct as [x|]; cbv beta iota zeta;
      (match goal with
       | |- context [tally_leaders rest ?t] =>
           specialize (IH t); destruct (tally_leaders rest t) as [tally'|e]
       end; [|done]);
      destruct IH as (Hno & Hcat & Hparty & Hedu & Hprom & Hgender & Htotal
                      & Hprojects & Haverage & Hwith);
      rewrite !fold_left_app, !fold_left_fmap;
      cbn [fold_left]; cbn [stats by_category by_party education_levels
                            promises_by_category by_gender total_leaders
                            projects_total attendance_average
                            leaders_with_attendance] in *;
      split_and!; try done;
      destruct (guess_gender leader); simpl in *; lia.
Qed.

Section StatisticsFile.

Context (output_dir : string) (writable : string -> bool).


(** X21. The statistics are produced exactly when the file can be written
    and no attendance record that enters the average has a ratio too large
    for a float; otherwise the function raises, [OverflowError] or
    [OSError]. The attendance average keeps its initial [int] 0 exactly
    when no leader has a record with both counts and a positive total,
    and is a float in every other case. *)
Theorem statistics_are_produced (all_leaders : list Politician) :
  let no_overflow :=
    forallb (fun leader =>
               forallb (fun r => negb (ratio_overflows r))
                 (default [] (attendance leader))) all_leaders in
  match generate_statistics output_dir writable all_leaders with
  | Ok s =>
      writable (path_join output_dir ["statistics.json"]) = true
      /\ no_overflow = true
      /\ match attendance_average s with
         | Int n => n = 0 /\ existsb rated all_leaders = false
         | Flt _ => existsb rated all_leaders = true
         end
  | Raise e =>
      (e = OverflowError /\ no_overflow = false)
      \/ (e = OSError /\ no_overflow = true
          /\ writable (path_join output_dir ["statistics.json"]) = false)
  end.
Proof.
  unfold generate_statistics. unfold_result.
  pose proof (tally_leaders_spec all_leaders (initial_tally all_leaders))
    as Hspec.
  destruct (tally_leaders _ _) as [tally|e]; [|by left].
  destruct Hspec as (Hno & _ & _ & _ & _ & _ & _ & _ & Haverage & Hwith).
  destruct (writable _); [|by right].
  simpl in *. rewrite Hwith, existsb_filter_length.
  split_and!; [done|done|].
  destruct (0 <? _)%nat; [done|]. by rewrite Haverage.
Qed.

End StatisticsFile.


(** A leader present at 8 of 10 and at 4 of 5 sittings gives an average of
    80.0; a record whose ratio is too large for a float makes the function
    raise; without any record that has a ratio the average keeps its
    [int] 0. *)
Example statistics_of_sample_leaders :
  match generate_statistics "out" (fun _ => true)
          [ leader_with_attendance "Ms. Mary"
              [attended "2023" 8 2; attended "2024" 4 1];
            member_for "Hon. John" "Rongo" ] with
  | Ok s => attendance_average s = Flt (Float.of_int 80)
            /\ by_gender s = {| male := 1; female := 1; unknown := 0 |}
  | Raise _ => False
  end
  /\ generate_statistics "out" (fun _ => true)
       [ leader_with_attendance "A"
           [ {| period := "2023"; present := Some (10 ^ 400); absent := None;
                total := Some 1 |} ] ]
     = Raise OverflowError
  /\ match generate_statistics "out" (fun _ => true)
             [ leader_with_attendance "A" [attended_only "2023" 8];
               member_for "B" "Rongo" ] with
     | Ok s => attendance_average s = Int 0
     | Raise _ => False
     end.
Proof. repeat split; vm_compute; reflexivity. Qed.
